(** * HealthMonitorAI: a shallow embedding of [src/HealthMonitor-AI.py]

    The Python class [HealthMonitorAI] parses a batch of user records (JSON or
    comma-separated text), validates it, computes per-user metrics and renders
    a report.  The embedding follows the methods of the class one by one:

    - module [Py] is the fragment of Python's run-time semantics the class
      relies on: dynamically typed values, exceptions, unbounded integers,
      binary64 floats, [int()], [float()], [round(x, 2)], [in], subscripting;
    - the methods follow, [validate_data] and [calculate_metrics] first, then
      section [HealthMonitorAI] with the methods that call the library
      routines [json.loads], [csv.reader] and [str()], which are its
      parameters;
    - the vocabulary of the specification, the lemmas and the claims C1 to
      C10 follow, and then further properties of the methods.

    Conventions.  Python [int] is [Z].  Python [float] is [spec_float] at
    precision 53 and exponent bound 1024, i.e. IEEE-754 binary64 as specified
    by the Standard Library.  Python [str] is [string]; only the ASCII
    characters are classified as whitespace or digits.  A [dict] is an
    association list in insertion order with string keys.  A computation that
    may raise returns a [result]. *)

From Stdlib Require Import ZArith List String Ascii Bool Lia Permutation.
From Stdlib Require Import DecimalString SpecFloat QArith.
Import ListNotations.

Set Warnings "-register-all".

Open Scope string_scope.
Open Scope list_scope.
Open Scope Z_scope.

(** String concatenation, written as Python's [+] on [str]. *)
Infix "+++" := String.append (right associativity, at level 60).

Module Py.

(** ** Exceptions *)

Inductive exn : Type :=
| TypeError
| ValueError
| KeyError
| OverflowError
| ZeroDivisionError
| AttributeError.

Inductive result (A : Type) : Type :=
| Ok (a : A)
| Raise (e : exn).

Arguments Ok {A} a.
Arguments Raise {A} e.

(** Sequencing: an exception of the first computation skips the second. *)
Definition bind {A B : Type} (c : result A) (k : A -> result B) : result B :=
  match c with
  | Ok a => k a
  | Raise e => Raise e
  end.

Definition is_ok {A : Type} (c : result A) : bool :=
  match c with
  | Ok _ => true
  | Raise _ => false
  end.

Notation "x <- c1 ;; c2" := (bind c1 (fun x => c2))
  (at level 61, c1 at next level, right associativity).

Fixpoint mapM {A B : Type} (f : A -> result B) (l : list A) : result (list B) :=
  match l with
  | [] => Ok []
  | x :: l' =>
      bind (f x) (fun y => bind (mapM f l') (fun ys => Ok (y :: ys)))
  end.

(** ** Values *)

Definition float : Type := spec_float.

Inductive value : Type :=
| VNone
| VBool (b : bool)
| VInt (n : Z)
| VFloat (f : float)
| VStr (s : string)
| VList (l : list value)
| VDict (d : list (string * value)).

Definition dict : Type := list (string * value).

(** ** binary64 arithmetic *)

Definition prec : Z := 53.
Definition emax : Z := 1024.

Definition fadd : float -> float -> float := SFadd prec emax.
Definition fmul : float -> float -> float := SFmul prec emax.
Definition fdiv : float -> float -> float := SFdiv prec emax.
Definition fleb : float -> float -> bool := SFleb.

(** Every real of magnitude at least [overflow_bound] rounds (to nearest,
    ties to even) to a value outside the finite range of binary64. *)
Definition overflow_bound : Z := 2 ^ 1024 - 2 ^ 970.

(** The binary64 value nearest to the rational [n / d]. *)
Definition ratio_to_float (s : bool) (n d : positive) : float :=
  fdiv (S754_finite s n 0) (S754_finite false d 0).

(** [float(n)] for an [int]: [PyLong_AsDouble]. *)
Definition float_of_int (n : Z) : result float :=
  if Z.abs n <? overflow_bound
  then Ok (binary_normalize prec emax n 0 false)
  else Raise OverflowError.

(** [a / b] for two [int]s: correctly rounded true division. *)
Definition int_true_divide (a b : Z) : result float :=
  let neg := xorb (a <? 0) (b <? 0) in
  match Z.abs a, Z.abs b with
  | _, Z0 => Raise ZeroDivisionError
  | Zpos p, Zpos q =>
      if Z.abs a <? Z.abs b * overflow_bound
      then Ok (ratio_to_float neg p q)
      else Raise OverflowError
  | _, _ => Ok (S754_zero neg)
  end.

(** The value [m * 10 ^ e] of a decimal literal, correctly rounded. *)
Definition decimal (s : bool) (m : Z) (e : Z) : float :=
  match m with
  | Zpos p =>
      if 0 <=? e
      then binary_normalize prec emax (cond_Zopp s (m * 10 ^ e)) 0 false
      else ratio_to_float s p (Z.to_pos (10 ^ (- e)))
  | _ => S754_zero s
  end.

(** [int(x)] for a [float]: truncation towards zero. *)
Definition float_trunc (f : float) : result Z :=
  match f with
  | S754_nan => Raise ValueError
  | S754_infinity _ => Raise OverflowError
  | S754_zero _ => Ok 0
  | S754_finite s m e =>
      Ok (cond_Zopp s (if 0 <=? e then Zpos m * 2 ^ e else Zpos m / 2 ^ (- e)))
  end.

(** Exact comparison of a [float] with an [int], as Python's mixed
    comparison does it; [None] when the float is a NaN. *)
Definition float_compare_int (f : float) (k : Z) : option comparison :=
  match f with
  | S754_nan => None
  | S754_infinity s => Some (if s then Lt else Gt)
  | S754_zero _ => Some (0 ?= k)
  | S754_finite s m e =>
      let v := cond_Zopp s (Zpos m) in
      Some (if 0 <=? e then (v * 2 ^ e ?= k) else (v ?= k * 2 ^ (- e)))
  end.

(** The integer nearest to [n / d] ([0 <= n], [0 < d]), ties to even. *)
Definition round_half_even (n d : Z) : Z :=
  let q := n / d in
  match 2 * (n mod d) ?= d with
  | Lt => q
  | Gt => q + 1
  | Eq => if Z.even q then q else q + 1
  end.

(** [round(x, 2)] for a [float]: the exact binary value is rounded to the
    nearest multiple of 1/100 (ties to even), and that decimal is converted
    back to the nearest binary64. *)
Definition float_round2 (f : float) : float :=
  match f with
  | S754_finite s m e =>
      let n := if 0 <=? e
               then Zpos m * 2 ^ e * 100
               else round_half_even (Zpos m * 100) (2 ^ (- e)) in
      match n with
      | Zpos p => ratio_to_float s p 100
      | _ => S754_zero s
      end
  | _ => f
  end.

(** ** Strings *)

(** The ASCII characters for which [str.isspace] holds. *)
Definition is_space (c : ascii) : bool :=
  let n := N_of_ascii c in
  ((9 <=? n) && (n <=? 13) || (28 <=? n) && (n <=? 32))%N.

(** [s.lstrip()] and [s.rstrip()] *)
Fixpoint lstrip (s : string) : string :=
  match s with
  | EmptyString => EmptyString
  | String c s' => if is_space c then lstrip s' else s
  end.

Fixpoint rstrip (s : string) : string :=
  match s with
  | EmptyString => EmptyString
  | String c s' =>
      match rstrip s' with
      | EmptyString => if is_space c then EmptyString else String c EmptyString
      | r => String c r
      end
  end.

(** [s.strip()] *)
Definition strip (s : string) : string := rstrip (lstrip s).

(** [s.startswith(p)] *)
Definition startswith (s p : string) : bool := prefix p s.

(** [sub in s] for two strings. *)
Fixpoint is_substring (sub s : string) : bool :=
  prefix sub s ||
  match s with
  | EmptyString => false
  | String _ s' => is_substring sub s'
  end.

(** [sep.join(l)] *)
Definition join (sep : string) (l : list string) : string := String.concat sep l.

(** [s * n] *)
Fixpoint repeat_string (s : string) (n : nat) : string :=
  match n with
  | O => EmptyString
  | S n' => s +++ repeat_string s n'
  end.

(** [str(n)] for an [int]. *)
Definition str_of_int (n : Z) : string := NilZero.string_of_int (Z.to_int n).

Definition chars (s : string) : list string :=
  map (fun c => String c EmptyString) (list_ascii_of_string s).

Definition digit_of (c : ascii) : option Z :=
  let n := Z.of_N (N_of_ascii c) in
  if (48 <=? n) && (n <=? 57) then Some (n - 48) else None.

Definition lower (c : ascii) : ascii :=
  let n := N_of_ascii c in
  if ((65 <=? n) && (n <=? 90))%N then ascii_of_N (n + 32) else c.

Fixpoint lowercase (s : string) : string :=
  match s with
  | EmptyString => EmptyString
  | String c s' => String (lower c) (lowercase s')
  end.

(** The digits of [digit (["_"] digit)*] once its first digit is read, and
    the text left over. *)
Fixpoint digitpart_tail (s : string) : list Z * string :=
  match s with
  | EmptyString => ([], EmptyString)
  | String c s' =>
      match digit_of c with
      | Some d => let (ds, r) := digitpart_tail s' in (d :: ds, r)
      | None =>
          if Ascii.eqb c "_"
          then match s' with
               | String c2 s'' =>
                   match digit_of c2 with
                   | Some d => let (ds, r) := digitpart_tail s'' in (d :: ds, r)
                   | None => ([], s)
                   end
               | EmptyString => ([], s)
               end
          else ([], s)
      end
  end.

Definition digitpart (s : string) : option (list Z * string) :=
  match s with
  | EmptyString => None
  | String c s' =>
      match digit_of c with
      | Some d => let (ds, r) := digitpart_tail s' in Some (d :: ds, r)
      | None => None
      end
  end.

Definition digits_value (ds : list Z) : Z :=
  fold_left (fun acc d => 10 * acc + d) ds 0.

Definition split_sign (s : string) : bool * string :=
  match s with
  | String "-" s' => (true, s')
  | String "+" s' => (false, s')
  | _ => (false, s)
  end.

Definition signed_digits (s : string) : option Z :=
  let (neg, body) := split_sign s in
  match digitpart body with
  | Some (ds, EmptyString) => Some (cond_Zopp neg (digits_value ds))
  | _ => None
  end.

(** [int(s)] for a [str], base 10.  (The limit some interpreters put on the
    number of digits is not modelled.) *)
Definition int_of_string (s : string) : result Z :=
  match signed_digits (strip s) with
  | Some n => Ok n
  | None => Raise ValueError
  end.

Definition exponent_part (s : string) : option Z :=
  match s with
  | EmptyString => Some 0
  | String c s' => if Ascii.eqb (lower c) "e" then signed_digits s' else None
  end.

(** Mantissa and decimal exponent of
    [([digitpart] "." digitpart | digitpart ["."]) [exponent]]. *)
Definition number_of_string (body : string) : option (Z * Z) :=
  match digitpart body with
  | Some (ip, String "." rest) =>
      match digitpart rest with
      | Some (fp, rest') =>
          match exponent_part rest' with
          | Some e => Some (digits_value (ip ++ fp), e - Z.of_nat (List.length fp))
          | None => None
          end
      | None =>
          match exponent_part rest with
          | Some e => Some (digits_value ip, e)
          | None => None
          end
      end
  | Some (ip, rest) =>
      match exponent_part rest with
      | Some e => Some (digits_value ip, e)
      | None => None
      end
  | None =>
      match body with
      | String "." rest =>
          match digitpart rest with
          | Some (fp, rest') =>
              match exponent_part rest' with
              | Some e => Some (digits_value fp, e - Z.of_nat (List.length fp))
              | None => None
              end
          | None => None
          end
      | _ => None
      end
  end.

(** [float(s)] for a [str]. *)
Definition float_of_string (s : string) : result float :=
  let (neg, body) := split_sign (strip s) in
  let word := lowercase body in
  if (word =? "inf")%string || (word =? "infinity")%string
  then Ok (S754_infinity neg)
  else if (word =? "nan")%string
  then Ok S754_nan
  else match number_of_string body with
       | Some (m, e) => Ok (decimal neg m e)
       | None => Raise ValueError
       end.

(** ** Operations on dynamically typed values *)

Inductive number : Type :=
| NInt (n : Z)
| NFloat (f : float).

(** [bool] is a subclass of [int]. *)
Definition as_number (v : value) : option number :=
  match v with
  | VBool b => Some (NInt (Z.b2z b))
  | VInt n => Some (NInt n)
  | VFloat f => Some (NFloat f)
  | _ => None
  end.

Definition to_float (x : number) : result float :=
  match x with
  | NInt n => float_of_int n
  | NFloat f => Ok f
  end.

Definition number_value (x : number) : value :=
  match x with
  | NInt n => VInt n
  | NFloat f => VFloat f
  end.

Definition is_zero (f : float) : bool :=
  match f with
  | S754_zero _ => true
  | _ => false
  end.

(** Truth value of an object ([not data] is its negation). *)
Definition truthy (v : value) : bool :=
  match v with
  | VNone => false
  | VBool b => b
  | VInt n => negb (n =? 0)
  | VFloat f => negb (is_zero f)
  | VStr s => negb (s =? EmptyString)%string
  | VList l => match l with [] => false | _ => true end
  | VDict d => match d with [] => false | _ => true end
  end.

(** [len(v)] *)
Definition len (v : value) : result Z :=
  match v with
  | VStr s => Ok (Z.of_nat (String.length s))
  | VList l => Ok (Z.of_nat (List.length l))
  | VDict d => Ok (Z.of_nat (List.length d))
  | _ => Raise TypeError
  end.

(** The elements a [for] loop over [v] visits. *)
Definition iter (v : value) : result (list value) :=
  match v with
  | VStr s => Ok (map VStr (chars s))
  | VList l => Ok l
  | VDict d => Ok (map (fun kv => VStr (fst kv)) d)
  | _ => Raise TypeError
  end.

Definition is_str (v : value) (s : string) : bool :=
  match v with
  | VStr t => (t =? s)%string
  | _ => false
  end.

Fixpoint lookup {A : Type} (key : string) (d : list (string * A)) : option A :=
  match d with
  | [] => None
  | (k, v) :: d' => if (k =? key)%string then Some v else lookup key d'
  end.

Definition has_key (key : string) (d : dict) : bool :=
  match lookup key d with
  | Some _ => true
  | None => false
  end.

(** [d[key] = v]: an existing key keeps its place, a new one goes last. *)
Fixpoint dict_set (key : string) (v : value) (d : dict) : dict :=
  match d with
  | [] => [(key, v)]
  | (k, w) :: d' =>
      if (k =? key)%string then (k, v) :: d' else (k, w) :: dict_set key v d'
  end.

(** [key in container] for a [str] key. *)
Definition contains (container : value) (key : string) : result bool :=
  match container with
  | VDict d => Ok (has_key key d)
  | VList l => Ok (existsb (fun v => is_str v key) l)
  | VStr s => Ok (is_substring key s)
  | _ => Raise TypeError
  end.

(** [container[key]] for a [str] key. *)
Definition getitem (container : value) (key : string) : result value :=
  match container with
  | VDict d =>
      match lookup key d with
      | Some v => Ok v
      | None => Raise KeyError
      end
  | _ => Raise TypeError
  end.

(** [v.copy()]: a shallow copy, which in a model without mutation is the
    object itself; only a [dict] or a [list] has the method. *)
Definition copy (v : value) : result value :=
  match v with
  | VDict _ | VList _ => Ok v
  | _ => Raise AttributeError
  end.

(** [isinstance(v, str)] *)
Definition isinstance_str (v : value) : bool :=
  match v with
  | VStr _ => true
  | _ => false
  end.

(** [int(v)] *)
Definition int_of (v : value) : result Z :=
  match v with
  | VBool b => Ok (Z.b2z b)
  | VInt n => Ok n
  | VFloat f => float_trunc f
  | VStr s => int_of_string s
  | _ => Raise TypeError
  end.

(** [float(v)] *)
Definition float_of (v : value) : result float :=
  match v with
  | VBool b => float_of_int (Z.b2z b)
  | VInt n => float_of_int n
  | VFloat f => Ok f
  | VStr s => float_of_string s
  | _ => Raise TypeError
  end.

(** The largest repetition count a sequence accepts ([sys.maxsize]). *)
Definition maxsize : Z := 2 ^ 63 - 1.

(** [seq * n] for a [str] or a [list].  (Running out of memory is not
    modelled.) *)
Definition repeat_seq (seq : value) (n : Z) : result value :=
  match seq with
  | VStr s =>
      if Z.abs n <=? maxsize
      then Ok (VStr (repeat_string s (Z.to_nat n)))
      else Raise OverflowError
  | VList l =>
      if Z.abs n <=? maxsize
      then Ok (VList (List.concat (repeat l (Z.to_nat n))))
      else Raise OverflowError
  | _ => Raise TypeError
  end.

(** [a * b] *)
Definition mul (a b : value) : result value :=
  match as_number a, as_number b with
  | Some (NInt x), Some (NInt y) => Ok (VInt (x * y))
  | Some x, Some y =>
      bind (to_float x) (fun fx =>
      bind (to_float y) (fun fy => Ok (VFloat (fmul fx fy))))
  | Some (NInt n), None => repeat_seq b n
  | None, Some (NInt n) => repeat_seq a n
  | _, _ => Raise TypeError
  end.

(** [a / b] *)
Definition truediv (a b : value) : result float :=
  match as_number a, as_number b with
  | Some (NInt x), Some (NInt y) => int_true_divide x y
  | Some x, Some y =>
      bind (to_float x) (fun fx =>
      bind (to_float y) (fun fy =>
      if is_zero fy then Raise ZeroDivisionError else Ok (fdiv fx fy)))
  | _, _ => Raise TypeError
  end.

(** [x * f] for a number [x] and a [float] [f]. *)
Definition mul_float (x : number) (f : float) : result float :=
  bind (to_float x) (fun fx => Ok (fmul fx f)).

(** [table[key]] for a literal table. *)
Definition table_get {A : Type} (table : list (string * A)) (key : string) : result A :=
  match lookup key table with
  | Some a => Ok a
  | None => Raise KeyError
  end.

(** [round(v, 2)] *)
Definition round2 (v : value) : result value :=
  match v with
  | VBool b => Ok (VInt (Z.b2z b))
  | VInt n => Ok (VInt n)
  | VFloat f => Ok (VFloat (float_round2 f))
  | _ => Raise TypeError
  end.

(** Ordering of [v] against the [int] constant [k]; [None] for a NaN. *)
Definition compare_int (v : value) (k : Z) : result (option comparison) :=
  match as_number v with
  | Some (NInt n) => Ok (Some (n ?= k))
  | Some (NFloat f) => Ok (float_compare_int f k)
  | None => Raise TypeError
  end.

(** The four orderings read off a comparison; all fail on a NaN. *)
Definition is_lt (c : option comparison) : bool :=
  match c with Some Lt => true | _ => false end.
Definition is_le (c : option comparison) : bool :=
  match c with Some Lt | Some Eq => true | _ => false end.
Definition is_gt (c : option comparison) : bool :=
  match c with Some Gt => true | _ => false end.
Definition is_ge (c : option comparison) : bool :=
  match c with Some Gt | Some Eq => true | _ => false end.

(** [v < k], [v <= k], [v >= k] (also written [k <= v]) *)
Definition lt_int (v : value) (k : Z) : result bool :=
  bind (compare_int v k) (fun c => Ok (is_lt c)).
Definition le_int (v : value) (k : Z) : result bool :=
  bind (compare_int v k) (fun c => Ok (is_le c)).
Definition ge_int (v : value) (k : Z) : result bool :=
  bind (compare_int v k) (fun c => Ok (is_ge c)).

End Py.

Import Py.

(** ** Text constants *)

Definition nl : string := String (ascii_of_nat 10) EmptyString.
Definition dq : string := String (ascii_of_nat 34) EmptyString.

(** The float literals of the source. *)
Definition c0_5 : float := decimal false 5 (-1).
Definition c0_3 : float := decimal false 3 (-1).
Definition c0_2 : float := decimal false 2 (-1).
Definition c0_8 : float := decimal false 8 (-1).
Definition c0_7 : float := decimal false 7 (-1).
Definition c0_6 : float := decimal false 6 (-1).
Definition c0_75 : float := decimal false 75 (-2).

(** ** The class [HealthMonitorAI] *)

(** [validation_results] of [validate_data]. *)
Record validation_results : Type := {
  num_users : Z;
  fields_check : list (string * string);
  errors : list string
}.

(** [results["calculations"]] of [calculate_metrics]. *)
Record calculations : Type := {
  predicted_activity : value;
  heart_rate_category : string;
  environmental_quality : string;
  temperature_impact : string;
  normalized_activity : float;
  heart_component : float;
  env_component : float;
  composite_fitness_score : float;
  recommendation : string;
  status : string
}.

(** [results] of [calculate_metrics]. *)
Record metrics : Type := {
  input_data : value;
  calcs : calculations
}.

(** The calls [process_data] makes on the engine and the renderer. *)
Inductive call : Type :=
| CallMetrics (user_data : value)
| CallReport (m : metrics).

(** [self.required_fields] *)
Definition required_fields : list string :=
  [ "user_id"; "current_steps"; "heart_rate";
    "ambient_temperature"; "environmental_index";
    "activity_intensity_factor" ].

(** *** validate_data *)

(** The fields of [required_fields] that are [not in record]. *)
Fixpoint missing_fields_of (record : value) (fields : list string)
  : result (list string) :=
  match fields with
  | [] => Ok []
  | field :: rest =>
      present <- contains record field ;;
      missing <- missing_fields_of record rest ;;
      Ok (if present then missing else field :: missing)
  end.

(** [try: ... except (ValueError, TypeError): invalid_fields.append(...)];
    the body computes whether the field is to be appended. *)
Definition except_value_type (body : result bool) : result bool :=
  match body with
  | Ok invalid => Ok invalid
  | Raise ValueError => Ok true
  | Raise TypeError => Ok true
  | Raise e => Raise e
  end.

(** [try: n = int(record[field]); if n <= 0: append] for [current_steps] and
    [heart_rate]. *)
Definition invalid_positive_int (record : value) (field : string) : result bool :=
  except_value_type
    (v <- getitem record field ;;
     n <- int_of v ;;
     Ok (n <=? 0)).

(** [try: float(record["ambient_temperature"])] *)
Definition invalid_temperature (record : value) : result bool :=
  except_value_type
    (v <- getitem record "ambient_temperature" ;;
     _ <- float_of v ;;
     Ok false).

(** [try: env_index = float(...); if env_index < 0 or env_index > 100: append] *)
Definition invalid_env_index (record : value) : result bool :=
  except_value_type
    (v <- getitem record "environmental_index" ;;
     env_index <- float_of v ;;
     Ok (is_lt (float_compare_int env_index 0)
         || is_gt (float_compare_int env_index 100))).

(** [try: intensity = float(...); if intensity <= 0: append] *)
Definition invalid_intensity (record : value) : result bool :=
  except_value_type
    (v <- getitem record "activity_intensity_factor" ;;
     intensity <- float_of v ;;
     Ok (is_le (float_compare_int intensity 0))).

(** What a check appends to [invalid_fields]. *)
Definition flag (invalid : bool) (field : string) : list string :=
  if invalid then [field] else [].

(** The type and value checks of one record with all fields present:
    [invalid_fields]. *)
Definition invalid_fields_of (record : value) : result (list string) :=
  user_id <- getitem record "user_id" ;;
  i2 <- invalid_positive_int record "current_steps" ;;
  i3 <- invalid_positive_int record "heart_rate" ;;
  i4 <- invalid_temperature record ;;
  i5 <- invalid_env_index record ;;
  i6 <- invalid_intensity record ;;
  Ok (flag (negb (isinstance_str user_id)) "user_id"
      ++ flag i2 "current_steps"
      ++ flag i3 "heart_rate"
      ++ flag i4 "ambient_temperature"
      ++ flag i5 "environmental_index"
      ++ flag i6 "activity_intensity_factor").

(** The two error messages. *)
Definition missing_error (missing_fields : list string) (row_num : Z) : string :=
  "ERROR: Missing required field(s): " +++ join ", " missing_fields
  +++ " in row " +++ str_of_int row_num +++ ".".

Definition invalid_error (invalid_fields : list string) (row_num : Z) : string :=
  "ERROR: Invalid value for the field(s): " +++ join ", " invalid_fields
  +++ " in row " +++ str_of_int row_num +++ ". Please correct and resubmit.".

(** One turn of the loop over the records: the error strings it appends. *)
Definition check_record (record : value) (row_num : Z) : result (list string) :=
  missing_fields <- missing_fields_of record required_fields ;;
  match missing_fields with
  | _ :: _ => Ok [missing_error missing_fields row_num]
  | [] =>
      invalid_fields <- invalid_fields_of record ;;
      match invalid_fields with
      | _ :: _ => Ok [invalid_error invalid_fields row_num]
      | [] => Ok []
      end
  end.

(** [for i, record in enumerate(data)], from index [i]. *)
Fixpoint check_records (records : list value) (i : Z) : result (list string) :=
  match records with
  | [] => Ok []
  | record :: rest =>
      errs <- check_record record (i + 1) ;;
      more <- check_records rest (i + 1) ;;
      Ok (errs ++ more)
  end.

(** [all(field in record for record in data)] *)
Fixpoint all_contain (field : string) (records : list value) : result bool :=
  match records with
  | [] => Ok true
  | record :: rest =>
      present <- contains record field ;;
      if present then all_contain field rest else Ok false
  end.

(** [validation_results["fields_check"]], filled field by field. *)
Definition fields_check_of (records : list value) : result (list (string * string)) :=
  mapM (fun field =>
          every <- all_contain field records ;;
          Ok (field, if every then "present" else "missing"))
       required_fields.

(** [_generate_validation_report] *)
Definition _generate_validation_report (validation_results : validation_results)
  : string :=
  let report := "# Data Validation Report" +++ nl in
  let report := report +++ "## Data Structure Check:" +++ nl in
  let report := report +++ "- Number of users: "
                  +++ str_of_int (num_users validation_results) +++ nl in
  let report := report +++ "- Number of fields per record: "
                  +++ str_of_int (Z.of_nat (List.length required_fields))
                  +++ nl +++ nl in
  let report := report +++ "## Required Fields Check:" +++ nl in
  let report :=
    fold_left
      (fun report fs =>
         let valid_status :=
           if (snd fs =? "present")%string then "valid" else "invalid" in
         report +++ "- " +++ fst fs +++ ": " +++ valid_status +++ nl)
      (fields_check validation_results) report in
  let report := report +++ nl +++ "## Validation Summary:" +++ nl in
  match errors validation_results with
  | [] =>
      report +++ "Data validation is successful! Would you like to proceed with analysis or provide another dataset?"
  | errs =>
      fold_left (fun report error => report +++ "- " +++ error +++ nl) errs report
  end.

(** [validate_data]: the verdict, the report and [validation_results]. *)
Definition validate_data (data : value)
  : result (bool * string * validation_results) :=
  n <- len data ;;
  if n =? 0
  then Ok (false, "ERROR: No data provided.",
           {| num_users := n; fields_check := []; errors := [] |})
  else
    records <- iter data ;;
    errs <- check_records records 0 ;;
    checks <- fields_check_of records ;;
    let validation_results :=
      {| num_users := n; fields_check := checks; errors := errs |} in
    let validation_passed := (Z.of_nat (List.length errs) =? 0) in
    let validation_report := _generate_validation_report validation_results in
    Ok (validation_passed, validation_report, validation_results).

(** *** calculate_metrics *)

(** The two literal tables; the factor of the best category is the [int] 1. *)
Definition heart_rate_factors : list (string * number) :=
  [ ("Optimal", NInt 1); ("Below Optimal", NFloat c0_8);
    ("Above Optimal", NFloat c0_7) ].

Definition env_factors : list (string * number) :=
  [ ("Good", NInt 1); ("Moderate", NFloat c0_8); ("Poor", NFloat c0_6) ].

(** [if heart_rate < 60: ... elif 60 <= heart_rate <= 100: ... else: ...] *)
Definition classify_heart_rate (heart_rate : value) : result string :=
  below <- lt_int heart_rate 60 ;;
  if below then Ok "Below Optimal"
  else
    lo <- ge_int heart_rate 60 ;;
    if lo
    then hi <- le_int heart_rate 100 ;;
         Ok (if hi then "Optimal" else "Above Optimal")
    else Ok "Above Optimal".

(** [if env_index >= 75: ... elif env_index >= 50: ... else: ...] *)
Definition classify_env_index (env_index : value) : result string :=
  good <- ge_int env_index 75 ;;
  if good then Ok "Good"
  else
    moderate <- ge_int env_index 50 ;;
    Ok (if moderate then "Moderate" else "Poor").

(** [if 15 <= temp <= 25: ... elif temp < 15: ... else: ...] *)
Definition classify_temp (temp : value) : result string :=
  lo <- ge_int temp 15 ;;
  ideal <- (if lo then le_int temp 25 else Ok false) ;;
  if ideal then Ok "Ideal Temperature"
  else
    cold <- lt_int temp 15 ;;
    Ok (if cold then "Too Cold" else "Too Hot").

(** [calculate_metrics]; the composite score is summed and compared before
    any rounding, the rounded values go into the result. *)
Definition calculate_metrics (user_data : value) : result metrics :=
  input <- copy user_data ;;
  (* 1. Predicted Activity Calculation *)
  current_steps <- getitem user_data "current_steps" ;;
  activity_intensity_factor <- getitem user_data "activity_intensity_factor" ;;
  predicted <- mul current_steps activity_intensity_factor ;;
  predicted_rounded <- round2 predicted ;;
  (* 2. Heart Rate Category *)
  heart_rate <- getitem user_data "heart_rate" ;;
  hr_category <- classify_heart_rate heart_rate ;;
  (* 3. Environmental Quality Category *)
  env_index <- getitem user_data "environmental_index" ;;
  env_quality <- classify_env_index env_index ;;
  (* 4. Ambient Temperature Impact *)
  temp <- getitem user_data "ambient_temperature" ;;
  temp_impact <- classify_temp temp ;;
  (* 5. Composite Fitness Score *)
  heart_rate_factor <- table_get heart_rate_factors hr_category ;;
  env_factor <- table_get env_factors env_quality ;;
  quotient <- truediv predicted (VInt 10000) ;;
  let normalized := fmul quotient c0_5 in
  heart <- mul_float heart_rate_factor c0_3 ;;
  env <- mul_float env_factor c0_2 ;;
  let composite_score := fadd (fadd normalized heart) env in
  (* 6. Final Recommendation *)
  let optimal :=
    fleb c0_75 composite_score
    && (hr_category =? "Optimal")%string
    && (temp_impact =? "Ideal Temperature")%string in
  Ok {| input_data := input;
        calcs :=
          {| predicted_activity := predicted_rounded;
             heart_rate_category := hr_category;
             environmental_quality := env_quality;
             temperature_impact := temp_impact;
             normalized_activity := float_round2 normalized;
             heart_component := float_round2 heart;
             env_component := float_round2 env;
             composite_fitness_score := float_round2 composite_score;
             recommendation :=
               if optimal then "Continue current fitness plan"
               else "Adjust fitness plan";
             status := if optimal then "Optimal" else "Needs Adjustment" |} |}.

Section HealthMonitorAI.

(** The library routines the class calls.  [json_loads] is [json.loads] on a
    text that starts with an opening brace, whose value, when there is one, is
    a [dict]; [csv_reader s] is [list(csv.reader(io.StringIO(s)))]; [to_str]
    is [str()], as an f-string applies it to a value. *)
Variable json_loads : string -> result dict.
Variable csv_reader : string -> result (list (list string)).
Variable to_str : value -> string.

(** *** parse_input_data *)

(** [{headers[j]: row[j] for j in range(len(headers))}] *)
Definition make_record (headers row : list string) : dict :=
  fold_left (fun record kv => dict_set (fst kv) (VStr (snd kv)) record)
            (combine headers row) [].

(** [if field in record: try: record[field] = conv(record[field])
    except ValueError: pass] *)
Definition coerce_field (conv : value -> result value) (record : dict)
  (field : string) : result dict :=
  match lookup field record with
  | None => Ok record
  | Some v =>
      match conv v with
      | Ok w => Ok (dict_set field w record)
      | Raise ValueError => Ok record
      | Raise e => Raise e
      end
  end.

Fixpoint coerce_fields (conv : value -> result value) (fields : list string)
  (record : dict) : result dict :=
  match fields with
  | [] => Ok record
  | field :: rest =>
      record' <- coerce_field conv record field ;;
      coerce_fields conv rest record'
  end.

(** [int(v)] and [float(v)] as values. *)
Definition to_int_value (v : value) : result value :=
  n <- int_of v ;; Ok (VInt n).

Definition to_float_value (v : value) : result value :=
  f <- float_of v ;; Ok (VFloat f).

(** The columns converted to [int] and to [float]. *)
Definition int_columns : list string := [ "current_steps"; "heart_rate" ].

Definition float_columns : list string :=
  [ "ambient_temperature"; "environmental_index"; "activity_intensity_factor" ].

(** The record of one accepted row. *)
Definition row_record (headers row : list string) : result dict :=
  record <- coerce_fields to_int_value int_columns (make_record headers row) ;;
  coerce_fields to_float_value float_columns record.

(** [for i in range(1, len(csv_data))] *)
Fixpoint parse_rows (headers : list string) (rows : list (list string))
  : result (list value) :=
  match rows with
  | [] => Ok []
  | row :: rest =>
      if negb (List.length row =? List.length headers)%nat
      then parse_rows headers rest
      else
        record <- row_record headers row ;;
        records <- parse_rows headers rest ;;
        Ok (VDict record :: records)
  end.

(** The branch of a text that starts with an opening brace. *)
Definition parse_json (data_str : string) : result value :=
  data_dict <- json_loads data_str ;;
  if has_key "users" data_dict
  then getitem (VDict data_dict) "users"
  else Ok (VList [VDict data_dict]).

(** The branch of a text that contains a comma; fewer than two rows give the
    empty list. *)
Definition parse_csv (data_str : string) : result value :=
  csv_data <- csv_reader data_str ;;
  match csv_data with
  | header :: ((_ :: _) as rows) =>
      let headers := map strip header in
      records <- parse_rows headers rows ;;
      Ok (VList records)
  | _ => Ok (VList [])
  end.

(** The body of the [try] statement, on the trimmed text. *)
Definition parse_body (data_str : string) : result value :=
  if startswith data_str "{" then parse_json data_str
  else if is_substring "," data_str then parse_csv data_str
  else Ok (VList []).

(** [parse_input_data]: any exception of the body yields the empty list. *)
Definition parse_input_data (data_str : string) : value :=
  let data_str := strip data_str in
  match parse_body data_str with
  | Ok records => records
  | Raise _ => VList []
  end.

(** *** generate_report *)

(** [for field in self.required_fields: report += ...] *)
Definition input_lines (user_data : value) : result string :=
  lines <- mapM (fun field =>
                   v <- getitem user_data field ;;
                   Ok ("- " +++ field +++ ": " +++ to_str v +++ nl))
                required_fields ;;
  Ok (String.concat EmptyString lines).

(** [generate_report] *)
Definition generate_report (metrics : metrics) : result string :=
  let user_data := input_data metrics in
  let calcs := calcs metrics in
  let fstr (f : float) := to_str (VFloat f) in
  user_id <- getitem user_data "user_id" ;;
  let report := "# Health Monitoring Summary" +++ nl +++ nl in
  let report := report +++ "**User ID:** " +++ to_str user_id +++ nl +++ nl in
  let report := report +++ "---" +++ nl +++ nl in
  let report := report +++ "## Input Data:" +++ nl in
  lines <- input_lines user_data ;;
  let report := report +++ lines in
  let report := report +++ nl +++ "---" +++ nl +++ nl in
  let report := report +++ "## Detailed Calculations:" +++ nl +++ nl in
  let report := report +++ "1. Predicted Activity Calculation:" +++ nl in
  let report := report +++ " - Formula: $$ \text{Predicted Activity} = \text{current_steps} \times \text{activity_intensity_factor} $$" +++ nl in
  let report := report +++ " - Steps: Multiply current_steps by activity_intensity_factor." +++ nl in
  current_steps <- getitem user_data "current_steps" ;;
  activity_intensity_factor <- getitem user_data "activity_intensity_factor" ;;
  let report := report +++ " - Calculation: " +++ to_str current_steps
                  +++ " \times " +++ to_str activity_intensity_factor
                  +++ " = " +++ to_str (predicted_activity calcs) +++ nl in
  let report := report +++ " - Calculated Value: **"
                  +++ to_str (predicted_activity calcs) +++ " steps**"
                  +++ nl +++ nl in
  let report := report +++ "2. Heart Rate Category:" +++ nl in
  let report := report +++ " - IF heart_rate < 60, THEN " +++ dq +++ "Below Optimal" +++ dq +++ "." +++ nl in
  let report := report +++ " - ELSE IF heart_rate between 60 and 100, THEN " +++ dq +++ "Optimal" +++ dq +++ "." +++ nl in
  let report := report +++ " - ELSE, " +++ dq +++ "Above Optimal" +++ dq +++ "." +++ nl in
  heart_rate <- getitem user_data "heart_rate" ;;
  let report := report +++ " - Given heart_rate = " +++ to_str heart_rate +++ nl in
  let report := report +++ " - Result: **" +++ heart_rate_category calcs
                  +++ "**" +++ nl +++ nl in
  let report := report +++ "3. Environmental Quality Category:" +++ nl in
  let report := report +++ " - IF environmental_index ≥ 75, THEN " +++ dq +++ "Good" +++ dq +++ "." +++ nl in
  let report := report +++ " - ELSE IF environmental_index ≥ 50, THEN " +++ dq +++ "Moderate" +++ dq +++ "." +++ nl in
  let report := report +++ " - ELSE, " +++ dq +++ "Poor" +++ dq +++ "." +++ nl in
  environmental_index <- getitem user_data "environmental_index" ;;
  let report := report +++ " - Given environmental_index = "
                  +++ to_str environmental_index +++ nl in
  let report := report +++ " - Result: **" +++ environmental_quality calcs
                  +++ "**" +++ nl +++ nl in
  let report := report +++ "4. Ambient Temperature Impact:" +++ nl in
  let report := report +++ " - IF ambient_temperature between 15 and 25, THEN " +++ dq +++ "Ideal Temperature" +++ dq +++ "." +++ nl in
  let report := report +++ " - ELSE IF ambient_temperature < 15, THEN " +++ dq +++ "Too Cold" +++ dq +++ "." +++ nl in
  let report := report +++ " - ELSE, " +++ dq +++ "Too Hot" +++ dq +++ "." +++ nl in
  ambient_temperature <- getitem user_data "ambient_temperature" ;;
  let report := report +++ " - Given ambient_temperature = "
                  +++ to_str ambient_temperature +++ nl in
  let report := report +++ " - Result: **" +++ temperature_impact calcs
                  +++ "**" +++ nl +++ nl in
  let report := report +++ "5. Composite Fitness Score Calculation:" +++ nl in
  let report := report +++ " - Formula: $$ \text{Composite Fitness Score} = \left(\frac{\text{Predicted Activity}}{10000} \times 0.5\right) + \left(\text{Heart Rate Factor} \times 0.3\right) + \left(\text{Environmental Factor} \times 0.2\right) $$" +++ nl in
  heart_factor <- table_get heart_rate_factors (heart_rate_category calcs) ;;
  env_factor <- table_get env_factors (environmental_quality calcs) ;;
  let heart_factor_value := to_str (number_value heart_factor) in
  let env_factor_value := to_str (number_value env_factor) in
  let report := report +++ " - Steps:" +++ nl in
  let report := report +++ "   1. Normalized activity: $"
                  +++ to_str (predicted_activity calcs)
                  +++ " \div 10000 \times 0.5 = "
                  +++ fstr (normalized_activity calcs) +++ "$" +++ nl in
  let report := report +++ "   2. Heart Rate Factor: Heart rate category is "
                  +++ dq +++ heart_rate_category calcs +++ dq
                  +++ " which gives a factor of " +++ heart_factor_value +++ nl in
  let report := report +++ "      Heart component: $" +++ heart_factor_value
                  +++ " \times 0.3 = " +++ fstr (heart_component calcs)
                  +++ "$" +++ nl in
  let report := report +++ "   3. Environmental Factor: Environmental quality is "
                  +++ dq +++ environmental_quality calcs +++ dq
                  +++ " which gives a factor of " +++ env_factor_value +++ nl in
  let report := report +++ "      Environmental component: $" +++ env_factor_value
                  +++ " \times 0.2 = " +++ fstr (env_component calcs)
                  +++ "$" +++ nl in
  let report := report +++ "   4. Composite Fitness Score: $"
                  +++ fstr (normalized_activity calcs) +++ " + "
                  +++ fstr (heart_component calcs) +++ " + "
                  +++ fstr (env_component calcs) +++ " = "
                  +++ fstr (composite_fitness_score calcs) +++ "$" +++ nl in
  let report := report +++ " - Calculated Value: **"
                  +++ fstr (composite_fitness_score calcs) +++ "**"
                  +++ nl +++ nl in
  let report := report +++ "---" +++ nl +++ nl in
  let report := report +++ "## Final Recommendation:" +++ nl +++ nl in
  let report := report +++ "- Recommendation: **" +++ recommendation calcs
                  +++ "**" +++ nl in
  let report := report +++ "- Status: **" +++ status calcs +++ "**" +++ nl in
  Ok report.

(** *** process_data *)

(** The answer to an input that parses to nothing. *)
Definition format_error : string :=
  "ERROR: Invalid data format. Please provide data in CSV or JSON format.".

(** [for user_data in data]: the calls made and the reports collected. *)
Fixpoint process_records (records : list value) : list call * result (list string) :=
  match records with
  | [] => ([], Ok [])
  | user_data :: rest =>
      match calculate_metrics user_data with
      | Raise e => ([CallMetrics user_data], Raise e)
      | Ok metrics =>
          match generate_report metrics with
          | Raise e => ([CallMetrics user_data; CallReport metrics], Raise e)
          | Ok report =>
              let (log, results) := process_records rest in
              (CallMetrics user_data :: CallReport metrics :: log,
               reports <- results ;; Ok (report :: reports))
          end
      end
  end.

(** [process_data], with the log of the engine and renderer calls it made. *)
Definition process_data_log (data_str : string) : list call * result string :=
  let data := parse_input_data data_str in
  if negb (truthy data) then ([], Ok format_error)
  else
    match validate_data data with
    | Raise e => ([], Raise e)
    | Ok (valid, validation_report, _) =>
        if negb valid then ([], Ok validation_report)
        else
          match iter data with
          | Raise e => ([], Raise e)
          | Ok records =>
              let (log, results) := process_records records in
              (log,
               reports <- results ;;
               Ok (nl +++ nl +++ join (nl +++ nl +++ "---" +++ nl +++ nl) reports))
          end
    end.

(** [process_data] *)
Definition process_data (data_str : string) : result string :=
  snd (process_data_log data_str).

(** *** main *)

(** [sample_data]: a header line and ten rows, with no newline after the
    last. *)
Definition sample_data : string :=
  "user_id,current_steps,heart_rate,ambient_temperature,environmental_index,activity_intensity_factor"
  +++ nl +++ "U41,7100,75,20,80,1.1"
  +++ nl +++ "U42,8200,80,21,85,1.2"
  +++ nl +++ "U43,9000,90,19,70,1.0"
  +++ nl +++ "U44,10000,95,18,90,1.3"
  +++ nl +++ "U45,7500,65,22,75,1.1"
  +++ nl +++ "U46,8000,70,20,60,1.2"
  +++ nl +++ "U47,9500,85,23,80,1.0"
  +++ nl +++ "U48,8700,78,21,88,1.2"
  +++ nl +++ "U49,9100,92,24,77,1.1"
  +++ nl +++ "U50,9800,88,19,82,1.0".

(** [main]: the text it writes to the standard output, [print] ending each
    of its two texts with a newline; nothing is written when [process_data]
    raises. *)
Definition main : result string :=
  result <- process_data sample_data ;;
  Ok (nl +++ "Result:" +++ nl +++ result +++ nl).

End HealthMonitorAI.

(** * Specification vocabulary *)

(** The real number a finite binary64 denotes. *)
Definition real_of_float (f : float) : option Q :=
  match f with
  | S754_zero _ => Some (inject_Z 0)
  | S754_finite s m e =>
      let v := cond_Zopp s (Zpos m) in
      Some (if 0 <=? e then inject_Z (v * 2 ^ e) else Qmake v (Z.to_pos (2 ^ (- e))))
  | _ => None
  end.

(** The real number a numeric field denotes: an [int], or a finite [float]. *)
Definition real_of (x : number) : option Q :=
  match x with
  | NInt n => Some (inject_Z n)
  | NFloat f => if valid_binary prec emax f then real_of_float f else None
  end.

(** The Typed User Record of the specification. *)
Record user_record : Type := {
  user_id : string;
  current_steps : Z;
  heart_rate : Z;
  ambient_temperature : number;
  environmental_index : number;
  activity_intensity_factor : number
}.

(** The type and range rules on the five numeric fields. *)
Definition type_rules (u : user_record) : Prop :=
  0 < current_steps u /\
  0 < heart_rate u /\
  (exists t, real_of (ambient_temperature u) = Some t) /\
  (exists x, real_of (environmental_index u) = Some x /\ (0 <= x <= 100)%Q) /\
  (exists a, real_of (activity_intensity_factor u) = Some a /\ (0 < a)%Q).

(** A Typed User Record: the user id is a non-empty string, the step count
    and the heart rate are positive integers, the temperature is a real, the
    environmental index a real in [0, 100], the intensity factor a positive
    real. *)
Definition well_typed (u : user_record) : Prop :=
  user_id u <> EmptyString /\ type_rules u.

(** The mapping [d] holds the six fields of [u] (and possibly other keys). *)
Definition holds (d : dict) (u : user_record) : Prop :=
  lookup "user_id" d = Some (VStr (user_id u)) /\
  lookup "current_steps" d = Some (VInt (current_steps u)) /\
  lookup "heart_rate" d = Some (VInt (heart_rate u)) /\
  lookup "ambient_temperature" d = Some (number_value (ambient_temperature u)) /\
  lookup "environmental_index" d = Some (number_value (environmental_index u)) /\
  lookup "activity_intensity_factor" d
    = Some (number_value (activity_intensity_factor u)).

(** The record as a mapping with just the six fields. *)
Definition record_of (u : user_record) : dict :=
  [ ("user_id", VStr (user_id u));
    ("current_steps", VInt (current_steps u));
    ("heart_rate", VInt (heart_rate u));
    ("ambient_temperature", number_value (ambient_temperature u));
    ("environmental_index", number_value (environmental_index u));
    ("activity_intensity_factor", number_value (activity_intensity_factor u)) ].

(** The predicted activity can be computed in binary64: the conversion of
    [current_steps] to a [float] (for a [float] factor), or the true division
    of the integer product by 10000 (for an [int] factor), does not overflow. *)
Definition activity_computable (u : user_record) : Prop :=
  match activity_intensity_factor u with
  | NFloat _ => current_steps u < overflow_bound
  | NInt k => current_steps u * k < 10000 * overflow_bound
  end.

(** ** The rules of the specification, section 4.3

    Written after the specification's words, to be compared with what
    [calculate_metrics] computes. *)

(** Below 60: Below Optimal; 60 to 100 inclusive: Optimal; above 100: Above
    Optimal. *)
Definition spec_heart_rate_category (hr : Z) : string :=
  if hr <? 60 then "Below Optimal"
  else if hr <=? 100 then "Optimal"
  else "Above Optimal".

(** At least 75: Good; at least 50: Moderate; else Poor. *)
Definition spec_environmental_quality (x : Q) : string :=
  if Qle_bool 75 x then "Good"
  else if Qle_bool 50 x then "Moderate"
  else "Poor".

(** 15 to 25 inclusive: Ideal Temperature; below 15: Too Cold; else Too
    Hot. *)
Definition spec_temperature_impact (t : Q) : string :=
  if Qle_bool 15 t && Qle_bool t 25 then "Ideal Temperature"
  else if negb (Qle_bool 15 t) then "Too Cold"
  else "Too Hot".

(** The float 1.0. *)
Definition one : float := decimal false 1 0.

(** Optimal: 1.0; Below Optimal: 0.8; Above Optimal: 0.7. *)
Definition spec_heart_rate_factor (category : string) : float :=
  if (category =? "Optimal")%string then one
  else if (category =? "Below Optimal")%string then c0_8
  else c0_7.

(** Good: 1.0; Moderate: 0.8; Poor: 0.6. *)
Definition spec_env_factor (quality : string) : float :=
  if (quality =? "Good")%string then one
  else if (quality =? "Moderate")%string then c0_8
  else c0_6.

(** [round(p, 2)] on a number. *)
Definition rounded (p : value) : value :=
  match p with
  | VFloat f => VFloat (float_round2 f)
  | v => v
  end.

(** ** What [calculate_metrics] returns on a typed record *)

(** The composite fitness score before rounding, from the quotient
    [q = predicted_activity / 10000] and the two categories. *)
Definition composite_score (q : float) (hr_category env_quality : string) : float :=
  fadd (fadd (fmul q c0_5) (fmul (spec_heart_rate_factor hr_category) c0_3))
       (fmul (spec_env_factor env_quality) c0_2).

(** The calculations, given the predicted activity [p], the quotient
    [q = p / 10000] and the real values [x] and [t] of the environmental
    index and the temperature. *)
Definition typed_calcs (u : user_record) (p : value) (q : float) (x t : Q)
  : calculations :=
  let hr_category := spec_heart_rate_category (heart_rate u) in
  let env_quality := spec_environmental_quality x in
  let temp_impact := spec_temperature_impact t in
  let normalized := fmul q c0_5 in
  let heart := fmul (spec_heart_rate_factor hr_category) c0_3 in
  let env := fmul (spec_env_factor env_quality) c0_2 in
  let composite := composite_score q hr_category env_quality in
  let optimal :=
    fleb c0_75 composite
    && (hr_category =? "Optimal")%string
    && (temp_impact =? "Ideal Temperature")%string in
  {| predicted_activity := rounded p;
     heart_rate_category := hr_category;
     environmental_quality := env_quality;
     temperature_impact := temp_impact;
     normalized_activity := float_round2 normalized;
     heart_component := float_round2 heart;
     env_component := float_round2 env;
     composite_fitness_score := float_round2 composite;
     recommendation :=
       if optimal then "Continue current fitness plan" else "Adjust fitness plan";
     status := if optimal then "Optimal" else "Needs Adjustment" |}.

(** ** Concrete records *)

(** The record of the specification's scenario. *)
Definition u1 : user_record :=
  {| user_id := "U1"; current_steps := 10000; heart_rate := 70;
     ambient_temperature := NInt 20; environmental_index := NInt 80;
     activity_intensity_factor := NFloat one |}.

(** A typed record whose step count does not fit a binary64. *)
Definition u_huge : user_record :=
  {| user_id := "U1"; current_steps := 2 ^ 1024; heart_rate := 60;
     ambient_temperature := NInt 25; environmental_index := NInt 75;
     activity_intensity_factor := NFloat one |}.

(** A typed record whose composite score, 0.746, is reported as 0.75. *)
Definition u_edge : user_record :=
  {| user_id := "U2"; current_steps := 4920; heart_rate := 70;
     ambient_temperature := NInt 20; environmental_index := NInt 80;
     activity_intensity_factor := NFloat one |}.

(** A typed record with an integer factor whose product with the step count,
    divided by 10000, does not fit a binary64. *)
Definition u_huge_int : user_record :=
  {| user_id := "U1"; current_steps := 10000 * 2 ^ 1024; heart_rate := 70;
     ambient_temperature := NInt 20; environmental_index := NInt 80;
     activity_intensity_factor := NInt 1 |}.

(** The scenario's record as the comma-separated path types it: the three
    real fields are floats. *)
Definition u1_csv : user_record :=
  {| user_id := "U1"; current_steps := 10000; heart_rate := 70;
     ambient_temperature := NFloat (decimal false 20 0);
     environmental_index := NFloat (decimal false 80 0);
     activity_intensity_factor := NFloat one |}.

(** The heart-rate factor table of the specification. *)
Definition spec_heart_rate_factors : list (string * float) :=
  [ ("Optimal", one); ("Below Optimal", c0_8); ("Above Optimal", c0_7) ].

(** The environmental factor table of the specification. *)
Definition spec_env_factors : list (string * float) :=
  [ ("Good", one); ("Moderate", c0_8); ("Poor", c0_6) ].

(** The calculations the specification's scenario expects. *)
Definition u1_calcs : calculations :=
  {| predicted_activity := VFloat (decimal false 100000 (-1));
     heart_rate_category := "Optimal";
     environmental_quality := "Good";
     temperature_impact := "Ideal Temperature";
     normalized_activity := c0_5;
     heart_component := c0_3;
     env_component := c0_2;
     composite_fitness_score := decimal false 10 (-1);
     recommendation := "Continue current fitness plan";
     status := "Optimal" |}.

(** ** Instances of the library routines, for closed examples *)

(** [s.split(sep)] for a one-character separator. *)
Fixpoint split_on (sep : ascii) (s : string) : list string :=
  match s with
  | EmptyString => [EmptyString]
  | String c s' =>
      if Ascii.eqb c sep then EmptyString :: split_on sep s'
      else match split_on sep s' with
           | field :: fields => String c field :: fields
           | [] => [String c EmptyString]
           end
  end.

(** [csv.reader] on a text without quotes and carriage returns: one row per
    line, an empty line being the empty row, the fields of a row being what
    the commas separate. *)
Definition plain_csv (s : string) : result (list (list string)) :=
  Ok (map (fun line =>
             if (line =? EmptyString)%string then [] else split_on "," line)
          (split_on (ascii_of_nat 10) s)).

(** [str()] on the values whose text does not depend on the shortest
    representation of a float: strings and integers. *)
Definition plain_str (v : value) : string :=
  match v with
  | VStr s => s
  | VInt n => str_of_int n
  | VBool true => "True"
  | VBool false => "False"
  | VNone => "None"
  | _ => "?"
  end.

(** A user object whose [current_steps] is a string of digits. *)
Definition steps_as_text : dict :=
  [ ("user_id", VStr "U1"); ("current_steps", VStr "5000");
    ("heart_rate", VInt 70); ("ambient_temperature", VInt 20);
    ("environmental_index", VInt 80);
    ("activity_intensity_factor", VFloat one) ].

(** One member of a JSON object. *)
Definition json_member (key text : string) : string :=
  dq +++ key +++ dq +++ ": " +++ text.

(** The JSON text of [steps_as_text]. *)
Definition steps_as_text_json : string :=
  "{" +++ json_member "user_id" (dq +++ "U1" +++ dq) +++ ", "
  +++ json_member "current_steps" (dq +++ "5000" +++ dq) +++ ", "
  +++ json_member "heart_rate" "70" +++ ", "
  +++ json_member "ambient_temperature" "20" +++ ", "
  +++ json_member "environmental_index" "80" +++ ", "
  +++ json_member "activity_intensity_factor" "1.0" +++ "}".

(** [json.loads] on the one text above; any other text is refused. *)
Definition sample_json (s : string) : result dict :=
  if (s =? steps_as_text_json)%string then Ok steps_as_text
  else Raise ValueError.

(** A comma-separated batch whose step count has 309 digits. *)
Definition huge_steps_csv : string :=
  "user_id,current_steps,heart_rate,ambient_temperature,environmental_index,activity_intensity_factor"
  +++ nl +++ "U1,2" +++ repeat_string "0" 308 +++ ",70,20,80,1.0".

(** ** Vocabulary for the validator *)

(** The required fields a mapping lacks, in the order of [required_fields]. *)
Definition absent_fields (d : dict) : list string :=
  filter (fun field => negb (has_key field d)) required_fields.

(** The checks the validator enforces on a mapping with all six fields:
    [user_id] is a [str]; [int()] converts [current_steps] and [heart_rate]
    to positive integers; [float()] converts the other three fields, to a
    value not below 0 and not above 100 for [environmental_index], and to a
    value not at or below 0 for [activity_intensity_factor]. *)
Definition coercion_checks (d : dict) : Prop :=
  (exists s, lookup "user_id" d = Some (VStr s)) /\
  (exists v n, lookup "current_steps" d = Some v /\ int_of v = Ok n /\ 0 < n) /\
  (exists v n, lookup "heart_rate" d = Some v /\ int_of v = Ok n /\ 0 < n) /\
  (exists v f, lookup "ambient_temperature" d = Some v /\ float_of v = Ok f) /\
  (exists v f,
     lookup "environmental_index" d = Some v /\ float_of v = Ok f /\
     is_lt (float_compare_int f 0) = false /\
     is_gt (float_compare_int f 100) = false) /\
  (exists v f,
     lookup "activity_intensity_factor" d = Some v /\ float_of v = Ok f /\
     is_le (float_compare_int f 0) = false).

(** A mapping with numbers given as text, a fractional heart rate and an
    empty user id. *)
Definition coerced_record : dict :=
  [ ("user_id", VStr EmptyString); ("current_steps", VStr "5000");
    ("heart_rate", VFloat (decimal false 807 (-1)));
    ("ambient_temperature", VStr "21.5");
    ("environmental_index", VStr "80");
    ("activity_intensity_factor", VStr "1.2") ].

(** A batch with a valid first row and a second row whose heart rate is 0. *)
Definition mixed_batch_csv : string :=
  "user_id,current_steps,heart_rate,ambient_temperature,environmental_index,activity_intensity_factor"
  +++ nl +++ "U1,5000,70,20,80,1.0"
  +++ nl +++ "U2,6000,0,20,80,1.0".

(** [float()] converts the number: an [int] must be within the binary64
    range. *)
Definition float_convertible (x : number) : Prop :=
  match x with
  | NInt n => Z.abs n < overflow_bound
  | NFloat _ => True
  end.

(** A record of the batch that satisfies the type and range rules, with its
    integer-valued real fields within the binary64 range. *)
Definition valid_record (record : value) : Prop :=
  exists d u,
    record = VDict d /\ holds d u /\ type_rules u /\
    float_convertible (ambient_temperature u) /\
    float_convertible (activity_intensity_factor u).

(** A record that satisfies the type and range rules of the specification,
    its temperature being an integer beyond the binary64 range. *)
Definition u_hot : user_record :=
  {| user_id := "U1"; current_steps := 10000; heart_rate := 70;
     ambient_temperature := NInt (2 ^ 1024); environmental_index := NInt 80;
     activity_intensity_factor := NFloat one |}.

(** [0 <= float(n) <= 100] as the validator tests it. *)
Definition env_int_ok (n : nat) : bool :=
  match float_of_int (Z.of_nat n) with
  | Ok f => negb (is_lt (float_compare_int f 0))
            && negb (is_gt (float_compare_int f 100))
  | Raise _ => false
  end.

(** The conversion raises [OverflowError], which the validator does not
    catch. *)
Definition overflows {A : Type} (c : result A) : bool :=
  match c with
  | Raise OverflowError => true
  | _ => false
  end.

(** Some numeric field of the mapping makes [int()] or [float()] raise
    [OverflowError]: an infinite float where an integer is expected, or an
    integer beyond the binary64 range where a real is expected. *)
Definition conversion_overflows (d : dict) : bool :=
  existsb (fun field =>
             match lookup field d with
             | Some v => overflows (int_of v)
             | None => false
             end) int_columns
  || existsb (fun field =>
                match lookup field d with
                | Some v => overflows (float_of v)
                | None => false
                end) float_columns.

(** A record the loop of [validate_data] gets through: a mapping that lacks
    a required field, or whose conversions do not overflow. *)
Definition checkable (record : value) : Prop :=
  exists d, record = VDict d /\
            (absent_fields d = [] -> conversion_overflows d = false).

(** A batch whose first record lacks five fields and whose second record
    holds an infinite step count (as [json.loads] reads 1e999). *)
Definition batch_with_infinity : list value :=
  [ VDict [ ("user_id", VStr "U1") ];
    VDict [ ("user_id", VStr "U2"); ("current_steps", VFloat (S754_infinity false));
            ("heart_rate", VInt 70); ("ambient_temperature", VInt 20);
            ("environmental_index", VInt 80);
            ("activity_intensity_factor", VFloat one) ] ].

(** A batch whose second record lacks two fields, and whose third record has
    all fields and an invalid one. *)
Definition batch_with_gaps : list value :=
  [ VDict (record_of u1);
    VDict [ ("user_id", VStr "U2"); ("current_steps", VStr "many");
            ("heart_rate", VInt 70); ("environmental_index", VInt 80) ];
    VDict [ ("user_id", VStr "U3"); ("current_steps", VInt 0);
            ("heart_rate", VInt 70); ("ambient_temperature", VInt 20);
            ("environmental_index", VInt 80);
            ("activity_intensity_factor", VFloat one) ] ].

(** ** Vocabulary for the parser *)

(** The columns of a row rearranged: column [i] of the result is column
    [nth i p] of [row]. *)
Definition permute (p : list nat) (row : list string) : list string :=
  map (fun i => nth i row EmptyString) p.

(** The value a cell gets under a header name: the five numeric names are
    converted when the text parses, every other cell stays a string. *)
Definition coerced (key cell : string) : value :=
  if existsb (String.eqb key) int_columns then
    match int_of_string cell with
    | Ok n => VInt n
    | Raise _ => VStr cell
    end
  else if existsb (String.eqb key) float_columns then
    match float_of_string cell with
    | Ok f => VFloat f
    | Raise _ => VStr cell
    end
  else VStr cell.

(** The record maps the header name of each column to the cell of that
    column, and has no other key. *)
Definition keyed_by (headers row : list string) (record : dict) : Prop :=
  (forall j key cell,
     nth_error headers j = Some key -> nth_error row j = Some cell ->
     lookup key record = Some (coerced key cell)) /\
  (forall key, ~ In key headers -> lookup key record = None).

(** Two records are the same mapping: the order of the keys apart. *)
Definition same_mapping (record record' : dict) : Prop :=
  forall key, lookup key record = lookup key record'.

(** The rows the parser accepts: those with as many fields as the header. *)
Definition accepted_rows (header : list string) (rows : list (list string))
  : list (list string) :=
  filter (fun row => (List.length row =? List.length header)%nat) rows.

(** What a conversion leaves in a field: its result, or the field itself
    when it raises. *)
Definition try_conv (conv : value -> result value) (v : value) : value :=
  match conv v with
  | Ok w => w
  | Raise _ => v
  end.

(** The field, when present, holds a string. *)
Definition str_at (d : dict) (field : string) : Prop :=
  forall v, lookup field d = Some v -> exists cell, v = VStr cell.

(** On a string the conversion returns or raises [ValueError]. *)
Definition fails_by_value_error (conv : value -> result value) : Prop :=
  forall cell e, conv (VStr cell) = Raise e -> e = ValueError.

(** A comma-separated text with a repeated header name. *)
Definition twin_columns_csv : string := "a,a" +++ nl +++ "1,2".

(** The same text with its two columns exchanged. *)
Definition twin_columns_swapped_csv : string := "a,a" +++ nl +++ "2,1".

(** A comma-separated text with a padded header name, a full row and a short
    row. *)
Definition ragged_csv : string :=
  "user_id, current_steps" +++ nl +++ "U1,7100" +++ nl +++ "U2".

(** A comma-separated text with two full rows. *)
Definition two_rows_csv : string :=
  "user_id,current_steps" +++ nl +++ "U1,7100" +++ nl +++ "U2,8200".

(** The same text with its two columns exchanged. *)
Definition two_rows_swapped_csv : string :=
  "current_steps,user_id" +++ nl +++ "7100,U1" +++ nl +++ "8200,U2".

(** ** Tactics *)

(** Discharges [well_typed] and [type_rules] on a concrete record. *)
Ltac prove_well_typed :=
  unfold well_typed, type_rules; cbn;
  repeat match goal with
         | |- _ /\ _ => split
         | |- exists _, _ => eexists
         | |- Some _ = Some _ => reflexivity
         | |- (_ <= _)%Q => unfold Qle; cbn; lia
         | |- (_ < _)%Q => unfold Qlt; cbn; lia
         | |- _ <> _ => discriminate
         | |- (_ < _)%Z => reflexivity
         end.

(** ** Vocabulary for the further properties *)

(** An error string of [validate_data] for the row [row_num]: one of the two
    messages, naming a non-empty selection of the required fields in the
    order of [required_fields]. *)
Definition row_error (row_num : Z) (e : string) : Prop :=
  exists keep,
    let fields := filter keep required_fields in
    fields <> [] /\
    (e = missing_error fields row_num \/ e = invalid_error fields row_num).

(** The report of a validation that passed, for a batch of [n] records. *)
Definition success_report (n : Z) : string :=
  "# Data Validation Report" +++ nl
  +++ "## Data Structure Check:" +++ nl
  +++ "- Number of users: " +++ str_of_int n +++ nl
  +++ "- Number of fields per record: 6" +++ nl
  +++ nl
  +++ "## Required Fields Check:" +++ nl
  +++ "- user_id: valid" +++ nl
  +++ "- current_steps: valid" +++ nl
  +++ "- heart_rate: valid" +++ nl
  +++ "- ambient_temperature: valid" +++ nl
  +++ "- environmental_index: valid" +++ nl
  +++ "- activity_intensity_factor: valid" +++ nl
  +++ nl
  +++ "## Validation Summary:" +++ nl
  +++ "Data validation is successful! Would you like to proceed with analysis or provide another dataset?".

(** A record with one of its three real fields replaced by a NaN, or left as
    it is. *)
Definition nan_variant (record record' : value) : Prop :=
  record' = record \/
  exists d field,
    record = VDict d /\ In field float_columns /\
    record' = VDict (dict_set field (VFloat S754_nan) d).

(** A value with neither a length nor a membership test: [None], a [bool],
    an [int] or a [float]. *)
Definition unsized (v : value) : bool :=
  match v with
  | VNone | VBool _ | VInt _ | VFloat _ => true
  | _ => false
  end.

(** The scenario's record with an environmental index of 101. *)
Definition u_env_101 : user_record :=
  {| user_id := "U1"; current_steps := 10000; heart_rate := 70;
     ambient_temperature := NInt 20; environmental_index := NInt 101;
     activity_intensity_factor := NFloat one |}.

(** A text of whitespace characters only. *)
Fixpoint blank (s : string) : bool :=
  match s with
  | EmptyString => true
  | String c s' => is_space c && blank s'
  end.

(** A header line alone. *)
Definition header_only_csv : string := "user_id,current_steps".

(** A JSON text whose [users] member is the number 5. *)
Definition users_number_json : string :=
  "{" +++ json_member "users" "5" +++ "}".

(** [json.loads] on that text; any other text is refused. *)
Definition users_number (s : string) : result dict :=
  if (s =? users_number_json)%string then Ok [ ("users", VInt 5) ]
  else Raise ValueError.

(** The five fields [calculate_metrics] reads. *)
Definition numeric_fields : list string := int_columns ++ float_columns.

(** The heart component each category gets, as reported (rounded to two
    decimals). *)
Definition heart_components : list (string * float) :=
  [ ("Optimal", c0_3); ("Below Optimal", decimal false 24 (-2));
    ("Above Optimal", decimal false 21 (-2)) ].

(** The environmental component each quality gets, as reported. *)
Definition env_components : list (string * float) :=
  [ ("Good", c0_2); ("Moderate", decimal false 16 (-2));
    ("Poor", decimal false 12 (-2)) ].

(** The scenario's record with a NaN in each of its real fields. *)
Definition nan_record : dict :=
  [ ("user_id", VStr "U1"); ("current_steps", VInt 10000);
    ("heart_rate", VInt 70); ("ambient_temperature", VFloat S754_nan);
    ("environmental_index", VFloat S754_nan);
    ("activity_intensity_factor", VFloat S754_nan) ].

(** A record on which validator, engine and renderer all return: a mapping
    that holds a Typed User Record whose predicted activity is computable and
    whose integer-valued reals convert to a [float]. *)
Definition computable_record (record : value) : Prop :=
  exists d u,
    record = VDict d /\ holds d u /\ well_typed u /\ activity_computable u /\
    float_convertible (ambient_temperature u) /\
    float_convertible (activity_intensity_factor u).

(** The separator [process_data] puts between two reports. *)
Definition separator : string := nl +++ nl +++ "---" +++ nl +++ nl.

(** The calls [process_data] makes for the records and their metrics. *)
Definition calls_of (records : list value) (ms : list metrics) : list call :=
  flat_map (fun rm => [CallMetrics (fst rm); CallReport (snd rm)])
           (combine records ms).

(** A row of [sample_data] as the comma-separated path types it: the step
    count and the heart rate are [int]s, the three other numbers [float]s
    (the intensity factor given in tenths). *)
Definition sample_user (id : string) (steps hr temp env tenths : Z) : user_record :=
  {| user_id := id; current_steps := steps; heart_rate := hr;
     ambient_temperature := NFloat (decimal false temp 0);
     environmental_index := NFloat (decimal false env 0);
     activity_intensity_factor := NFloat (decimal false tenths (-1)) |}.

(** The ten users of [sample_data]. *)
Definition sample_users : list user_record :=
  [ sample_user "U41" 7100 75 20 80 11;
    sample_user "U42" 8200 80 21 85 12;
    sample_user "U43" 9000 90 19 70 10;
    sample_user "U44" 10000 95 18 90 13;
    sample_user "U45" 7500 65 22 75 11;
    sample_user "U46" 8000 70 20 60 12;
    sample_user "U47" 9500 85 23 80 10;
    sample_user "U48" 8700 78 21 88 12;
    sample_user "U49" 9100 92 24 77 11;
    sample_user "U50" 9800 88 19 82 10 ].

(** The first lines of a report. *)
Definition report_header (user_id : string) : string :=
  "# Health Monitoring Summary" +++ nl +++ nl
  +++ "**User ID:** " +++ user_id +++ nl +++ nl
  +++ "---" +++ nl +++ nl
  +++ "## Input Data:" +++ nl.

(** The last lines of a report. *)
Definition report_footer (recommendation status : string) : string :=
  "---" +++ nl +++ nl
  +++ "## Final Recommendation:" +++ nl +++ nl
  +++ "- Recommendation: **" +++ recommendation +++ "**" +++ nl
  +++ "- Status: **" +++ status +++ "**" +++ nl.

(** The last section of a validation report: the success message, or the
    error strings in order, one per line. *)
Definition summary_section (errs : list string) : string :=
  "## Validation Summary:" +++ nl
  +++ match errs with
      | [] => "Data validation is successful! Would you like to proceed with analysis or provide another dataset?"
      | _ => String.concat EmptyString (map (fun e => "- " +++ e +++ nl) errs)
      end.

(** A record whose five numeric fields hold numbers of the types the
    comma-separated path gives them ([int] for the step count, [float] for
    the intensity factor), the step count being within the binary64 range. *)
Definition numeric_record (d : dict) : Prop :=
  (exists n, lookup "current_steps" d = Some (VInt n) /\ Z.abs n < overflow_bound) /\
  (exists f, lookup "activity_intensity_factor" d = Some (VFloat f)) /\
  (exists v x, lookup "heart_rate" d = Some v /\ as_number v = Some x) /\
  (exists v x, lookup "environmental_index" d = Some v /\ as_number v = Some x) /\
  (exists v x, lookup "ambient_temperature" d = Some v /\ as_number v = Some x).

(** A comma-separated text whose header repeats a name. *)
Definition repeated_header_csv : string :=
  "user_id,user_id" +++ nl +++ "U1,U2" +++ nl +++ "U3".

(** A record as the comma-separated path builds it: every value is what
    [coerced] makes of a cell under its key. *)
Definition csv_typed (d : dict) : Prop :=
  forall key v, lookup key d = Some v -> exists cell, v = coerced key cell.

(** The scenario's record as a comma-separated text. *)
Definition scenario_csv : string :=
  "user_id,current_steps,heart_rate,ambient_temperature,environmental_index,activity_intensity_factor"
  +++ nl +++ "U1,10000,70,20,80,1.0".

(** * Lemmas *)

Lemma holds_record_of u : holds (record_of u) u.
Proof. repeat split. Qed.

(** ** Comparisons against the real value *)

Lemma float_compare_int_real f q k :
  real_of_float f = Some q ->
  float_compare_int f k = Some (q ?= inject_Z k)%Q.
Proof.
  destruct f as [s | s | | s m e]; simpl; try discriminate.
  - intros [= <-]. unfold Qcompare; simpl. now rewrite Z.mul_1_r.
  - intros [= <-]. f_equal.
    destruct (0 <=? e) eqn:He.
    + unfold Qcompare; simpl. now rewrite !Z.mul_1_r.
    + unfold Qcompare; simpl Qnum; simpl Qden.
      rewrite Z.mul_1_r. rewrite Z2Pos.id; [reflexivity|].
      apply Z.pow_pos_nonneg; lia.
Qed.

Lemma compare_int_real x q k :
  real_of x = Some q ->
  compare_int (number_value x) k = Ok (Some (q ?= inject_Z k)%Q).
Proof.
  destruct x as [n | f]; simpl.
  - intros [= <-]. unfold compare_int; simpl. f_equal. f_equal.
    unfold Qcompare; simpl. now rewrite !Z.mul_1_r.
  - destruct (valid_binary prec emax f); [|discriminate].
    intros H. unfold compare_int; simpl. f_equal.
    now apply float_compare_int_real.
Qed.

Lemma is_ge_Qle q k :
  is_ge (Some (q ?= inject_Z k)%Q) = Qle_bool (inject_Z k) q.
Proof.
  unfold Qle_bool, Qcompare, is_ge. simpl.
  rewrite Z.mul_1_r. rewrite Z.leb_compare.
  rewrite (Z.compare_antisym (Qnum q)).
  destruct (Qnum q ?= k * Z.pos (Qden q)); reflexivity.
Qed.

Lemma is_le_Qle q k :
  is_le (Some (q ?= inject_Z k)%Q) = Qle_bool q (inject_Z k).
Proof.
  unfold Qle_bool, Qcompare, is_le. simpl.
  rewrite Z.mul_1_r. rewrite Z.leb_compare.
  destruct (Qnum q ?= k * Z.pos (Qden q)); reflexivity.
Qed.

Lemma is_lt_Qle q k :
  is_lt (Some (q ?= inject_Z k)%Q) = negb (Qle_bool (inject_Z k) q).
Proof.
  rewrite <- is_ge_Qle. destruct (q ?= inject_Z k)%Q; reflexivity.
Qed.

Lemma classify_heart_rate_int n :
  classify_heart_rate (VInt n) = Ok (spec_heart_rate_category n).
Proof.
  unfold classify_heart_rate, spec_heart_rate_category, lt_int, ge_int, le_int,
    compare_int; simpl.
  rewrite Z.ltb_compare, Z.leb_compare.
  destruct (n ?= 60) eqn:E60; simpl; try reflexivity;
    destruct (n ?= 100) eqn:E100; simpl; try reflexivity.
Qed.

Lemma classify_env_index_real x q :
  real_of x = Some q ->
  classify_env_index (number_value x) = Ok (spec_environmental_quality q).
Proof.
  intros H. unfold classify_env_index, spec_environmental_quality, ge_int.
  rewrite !(compare_int_real _ _ _ H); cbn [bind].
  rewrite !is_ge_Qle.
  change (inject_Z 75) with 75%Q. change (inject_Z 50) with 50%Q.
  destruct (Qle_bool 75 q); [reflexivity|].
  destruct (Qle_bool 50 q); reflexivity.
Qed.

Lemma classify_temp_real x q :
  real_of x = Some q ->
  classify_temp (number_value x) = Ok (spec_temperature_impact q).
Proof.
  intros H. unfold classify_temp, spec_temperature_impact, ge_int, le_int, lt_int.
  rewrite !(compare_int_real _ _ _ H); cbn [bind].
  rewrite is_ge_Qle, is_lt_Qle.
  change (inject_Z 15) with 15%Q.
  destruct (Qle_bool 15 q); cbn [bind negb andb].
  - rewrite is_le_Qle. change (inject_Z 25) with 25%Q.
    destruct (Qle_bool q 25); reflexivity.
  - reflexivity.
Qed.

Lemma float_of_int_10000 :
  float_of_int 10000 = Ok (S754_finite false 5497558138880000 (-39)).
Proof. vm_compute. reflexivity. Qed.

Lemma heart_factor_ok hr :
  exists x,
    table_get heart_rate_factors (spec_heart_rate_category hr) = Ok x /\
    mul_float x c0_3
    = Ok (fmul (spec_heart_rate_factor (spec_heart_rate_category hr)) c0_3).
Proof.
  unfold spec_heart_rate_category.
  destruct (hr <? 60); [|destruct (hr <=? 100)];
    eexists; (split; [vm_compute; reflexivity|]); vm_compute; reflexivity.
Qed.

Lemma env_factor_ok x :
  exists y,
    table_get env_factors (spec_environmental_quality x) = Ok y /\
    mul_float y c0_2
    = Ok (fmul (spec_env_factor (spec_environmental_quality x)) c0_2).
Proof.
  unfold spec_environmental_quality.
  destruct (Qle_bool 75 x); [|destruct (Qle_bool 50 x)];
    eexists; (split; [vm_compute; reflexivity|]); vm_compute; reflexivity.
Qed.

Opaque overflow_bound.

Lemma mul_typed u :
  activity_computable u ->
  0 < current_steps u ->
  (exists a, real_of (activity_intensity_factor u) = Some a /\ (0 < a)%Q) ->
  exists p q,
    mul (VInt (current_steps u)) (number_value (activity_intensity_factor u)) = Ok p /\
    round2 p = Ok (rounded p) /\
    truediv p (VInt 10000) = Ok q.
Proof.
  unfold activity_computable. intros Hc Hs (a & Ha & Hpos).
  destruct (activity_intensity_factor u) as [k | f]; cbn [number_value real_of] in *.
  - injection Ha as <-.
    assert (0 < k) by (unfold Qlt in Hpos; simpl in Hpos; lia).
    exists (VInt (current_steps u * k)).
    unfold truediv, int_true_divide, mul; cbn [as_number round2 rounded].
    assert (Hp : 0 < current_steps u * k) by lia.
    destruct (current_steps u * k) as [|p|p] eqn:E; try lia.
    cbn [Z.abs].
    replace (Z.pos p <? 10000 * overflow_bound) with true
      by (symmetry; apply Z.ltb_lt; exact Hc).
    eexists; repeat split.
  - unfold mul; simpl. unfold float_of_int.
    replace (Z.abs (current_steps u) <? overflow_bound) with true
      by (symmetry; apply Z.ltb_lt; lia).
    cbn [bind]. eexists; eexists; split; [reflexivity|]. split; [reflexivity|].
    unfold truediv. cbn [as_number to_float bind].
    rewrite float_of_int_10000. cbn [bind is_zero]. reflexivity.
Qed.

Lemma calculate_metrics_typed d u :
  holds d u -> well_typed u -> activity_computable u ->
  exists p q x t,
    mul (VInt (current_steps u)) (number_value (activity_intensity_factor u)) = Ok p /\
    truediv p (VInt 10000) = Ok q /\
    real_of (environmental_index u) = Some x /\
    real_of (ambient_temperature u) = Some t /\
    calculate_metrics (VDict d)
    = Ok {| input_data := VDict d; calcs := typed_calcs u p q x t |}.
Proof.
  intros (Hid & Hsteps & Hhr & Htemp & Henv & Hact)
         (_ & Hpos & _ & (t & Ht) & (x & Hx & _) & Ha) Hc.
  destruct (mul_typed u Hc Hpos Ha) as (p & q & Hmul & Hround & Hdiv).
  destruct (heart_factor_ok (heart_rate u)) as (hf & Hhf & Hheart).
  destruct (env_factor_ok x) as (ef & Hef & Henvc).
  exists p, q, x, t. repeat (split; [assumption|]).
  unfold calculate_metrics. cbn [copy getitem bind].
  rewrite Hsteps, Hact. cbn [bind]. rewrite Hmul. cbn [bind].
  rewrite Hround. cbn [bind]. rewrite Hhr. cbn [bind].
  rewrite classify_heart_rate_int. cbn [bind].
  rewrite Henv. cbn [bind]. rewrite (classify_env_index_real _ _ Hx). cbn [bind].
  rewrite Htemp. cbn [bind]. rewrite (classify_temp_real _ _ Ht). cbn [bind].
  rewrite Hhf. cbn [bind]. rewrite Hef. cbn [bind]. rewrite Hdiv. cbn [bind].
  rewrite Hheart. cbn [bind]. rewrite Henvc. cbn [bind].
  reflexivity.
Qed.

Lemma u1_well_typed : well_typed u1.
Proof. prove_well_typed. Qed.

Lemma u_huge_well_typed : well_typed u_huge.
Proof. prove_well_typed. Qed.

Lemma u_edge_well_typed : well_typed u_edge.
Proof. prove_well_typed. Qed.

Lemma u1_computable : activity_computable u1.
Proof. vm_compute. reflexivity. Qed.

Lemma u1_csv_well_typed : well_typed u1_csv.
Proof. prove_well_typed. Qed.

Lemma u_huge_int_well_typed : well_typed u_huge_int.
Proof. prove_well_typed. Qed.

Lemma spec_heart_rate_factor_lookup hr :
  lookup (spec_heart_rate_category hr) spec_heart_rate_factors
  = Some (spec_heart_rate_factor (spec_heart_rate_category hr)).
Proof.
  unfold spec_heart_rate_category.
  destruct (hr <? 60); [|destruct (hr <=? 100)]; reflexivity.
Qed.

Lemma spec_env_factor_lookup x :
  lookup (spec_environmental_quality x) spec_env_factors
  = Some (spec_env_factor (spec_environmental_quality x)).
Proof.
  unfold spec_environmental_quality.
  destruct (Qle_bool 75 x); [|destruct (Qle_bool 50 x)]; reflexivity.
Qed.

Lemma Qle_bool_false x y : (y < x)%Q -> Qle_bool x y = false.
Proof.
  intros H. destruct (Qle_bool x y) eqn:E; [|reflexivity].
  apply Qle_bool_iff in E. exfalso. exact (Qlt_not_le _ _ H E).
Qed.

Lemma Qle_bool_true x y : (x <= y)%Q -> Qle_bool x y = true.
Proof. apply Qle_bool_iff. Qed.

(** ** The driver *)

Lemma length_zero_iff_empty (s : string) :
  (Z.of_nat (String.length s) =? 0) = (s =? EmptyString)%string.
Proof. destruct s; reflexivity. Qed.

(** A batch on which the validator has recorded an error is not empty. *)
Lemma validate_errors_truthy data passed report details :
  validate_data data = Ok (passed, report, details) ->
  errors details <> [] ->
  truthy data = true.
Proof.
  unfold validate_data. intros H Herr.
  destruct data as [ | b | n | f | s | l | d]; try discriminate H;
    cbn [len bind] in H.
  - destruct s; [|reflexivity].
    cbn in H. injection H as <- <- <-. now elim Herr.
  - destruct l; [|reflexivity].
    cbn in H. injection H as <- <- <-. now elim Herr.
  - destruct d; [|reflexivity].
    cbn in H. injection H as <- <- <-. now elim Herr.
Qed.

(** ** The validator, record by record *)

Lemma bind_ok {A B : Type} (c : result A) (k : A -> result B) (b : B) :
  bind c k = Ok b <-> exists a, c = Ok a /\ k a = Ok b.
Proof.
  destruct c as [a | e]; cbn.
  - split; [intros H; now exists a | intros (a' & [= <-] & H); exact H].
  - split; [discriminate | intros (a' & H & _); discriminate H].
Qed.

Lemma missing_fields_of_dict d fields :
  missing_fields_of (VDict d) fields
  = Ok (filter (fun field => negb (has_key field d)) fields).
Proof.
  induction fields as [|f fields IH]; [reflexivity|].
  cbn [missing_fields_of contains bind filter]. rewrite IH. cbn [bind].
  now destruct (has_key f d).
Qed.

Lemma except_false body :
  except_value_type body = Ok false <-> body = Ok false.
Proof.
  destruct body as [[|] | []]; cbn; split; intros H; try discriminate H; reflexivity.
Qed.

Lemma invalid_positive_int_false d field :
  invalid_positive_int (VDict d) field = Ok false <->
  exists v n, lookup field d = Some v /\ int_of v = Ok n /\ 0 < n.
Proof.
  unfold invalid_positive_int. rewrite except_false. cbn [getitem].
  destruct (lookup field d) as [v|]; cbn [bind].
  - destruct (int_of v) as [n|e] eqn:E; cbn [bind].
    + split.
      * intros [= H]. exists v, n.
        split; [reflexivity|]. split; [exact E|]. now apply Z.leb_gt.
      * intros (v' & n' & [= <-] & Hn & H). rewrite E in Hn.
        injection Hn as <-. f_equal. now apply Z.leb_gt.
    + split; [discriminate|]. intros (v' & n' & [= <-] & H & _).
      rewrite E in H. discriminate H.
  - split; [discriminate|]. intros (v' & n' & H & _). discriminate H.
Qed.

Lemma invalid_temperature_false d :
  invalid_temperature (VDict d) = Ok false <->
  exists v f, lookup "ambient_temperature" d = Some v /\ float_of v = Ok f.
Proof.
  unfold invalid_temperature. rewrite except_false. cbn [getitem].
  destruct (lookup "ambient_temperature" d) as [v|]; cbn [bind].
  - destruct (float_of v) as [f|e] eqn:E; cbn [bind].
    + split; [intros _; now exists v, f | reflexivity].
    + split; [discriminate|]. intros (v' & f' & [= <-] & H).
      rewrite E in H. discriminate H.
  - split; [discriminate|]. intros (v' & f' & H & _). discriminate H.
Qed.

Lemma invalid_env_index_false d :
  invalid_env_index (VDict d) = Ok false <->
  exists v f,
    lookup "environmental_index" d = Some v /\ float_of v = Ok f /\
    is_lt (float_compare_int f 0) = false /\
    is_gt (float_compare_int f 100) = false.
Proof.
  unfold invalid_env_index. rewrite except_false. cbn [getitem].
  destruct (lookup "environmental_index" d) as [v|]; cbn [bind].
  - destruct (float_of v) as [f|e] eqn:E; cbn [bind].
    + split.
      * intros [= H]. apply orb_false_iff in H. exists v, f. tauto.
      * intros (v' & f' & [= <-] & Hf & H1 & H2). rewrite E in Hf.
        injection Hf as <-. now rewrite H1, H2.
    + split; [discriminate|]. intros (v' & f' & [= <-] & H & _).
      rewrite E in H. discriminate H.
  - split; [discriminate|]. intros (v' & f' & H & _). discriminate H.
Qed.

Lemma invalid_intensity_false d :
  invalid_intensity (VDict d) = Ok false <->
  exists v f,
    lookup "activity_intensity_factor" d = Some v /\ float_of v = Ok f /\
    is_le (float_compare_int f 0) = false.
Proof.
  unfold invalid_intensity. rewrite except_false. cbn [getitem].
  destruct (lookup "activity_intensity_factor" d) as [v|]; cbn [bind].
  - destruct (float_of v) as [f|e] eqn:E; cbn [bind].
    + split.
      * intros [= H]. now exists v, f.
      * intros (v' & f' & [= <-] & Hf & H). rewrite E in Hf.
        injection Hf as <-. now rewrite H.
    + split; [discriminate|]. intros (v' & f' & [= <-] & H & _).
      rewrite E in H. discriminate H.
  - split; [discriminate|]. intros (v' & f' & H & _). discriminate H.
Qed.

Lemma flag_nil invalid field : flag invalid field = [] <-> invalid = false.
Proof. destruct invalid; cbn; split; intros H; try discriminate H; reflexivity. Qed.

Lemma invalid_fields_of_nil d :
  invalid_fields_of (VDict d) = Ok [] <-> coercion_checks d.
Proof.
  unfold coercion_checks.
  rewrite <- (invalid_positive_int_false d "current_steps").
  rewrite <- (invalid_positive_int_false d "heart_rate").
  rewrite <- invalid_temperature_false, <- invalid_env_index_false,
    <- invalid_intensity_false.
  unfold invalid_fields_of. cbn [getitem].
  destruct (lookup "user_id" d) as [uid|]; cbn [bind].
  - split.
    + intros H.
      apply bind_ok in H as (i2 & H2 & H). apply bind_ok in H as (i3 & H3 & H).
      apply bind_ok in H as (i4 & H4 & H). apply bind_ok in H as (i5 & H5 & H).
      apply bind_ok in H as (i6 & H6 & H). injection H as H.
      repeat (apply app_eq_nil in H as [?%flag_nil H]).
      apply flag_nil in H. subst.
      destruct uid; try discriminate. repeat split; try assumption. now eexists.
    + intros ((s & [= ->]) & H2 & H3 & H4 & H5 & H6).
      rewrite H2, H3, H4, H5, H6. reflexivity.
  - split; [discriminate|]. intros ((s & H) & _). discriminate H.
Qed.

Lemma check_record_accepts d row_num :
  check_record (VDict d) row_num = Ok [] <->
  absent_fields d = [] /\ coercion_checks d.
Proof.
  unfold check_record. rewrite missing_fields_of_dict. cbn [bind].
  fold (absent_fields d). rewrite <- invalid_fields_of_nil.
  destruct (absent_fields d) as [|f fs].
  - destruct (invalid_fields_of (VDict d)) as [[|g gs] | e]; cbn [bind].
    + tauto.
    + split; [discriminate|]. intros [_ H]. discriminate H.
    + split; [discriminate|]. intros [_ H]. discriminate H.
  - split; [discriminate|]. intros [H _]. discriminate H.
Qed.

(** ** Rounding a positive integer to binary64 *)

Lemma shr_1_nonneg r :
  0 <= shr_m r -> shr_m (shr_1 r) = shr_m r / 2 /\ 0 <= shr_m (shr_1 r).
Proof.
  destruct r as [m rb sb]; cbn [shr_m shr_1].
  destruct m as [|[p|p|]|p]; intros H; try lia; cbn [shr_m].
  - split; [reflexivity|lia].
  - rewrite Pos2Z.inj_xI. split; [|lia].
    apply Z.div_unique with (r := 1); lia.
  - rewrite Pos2Z.inj_xO. split; [|lia].
    apply Z.div_unique with (r := 0); lia.
  - split; [reflexivity|lia].
Qed.

Lemma shr_iter_nonneg n : forall r,
  0 <= shr_m r ->
  shr_m (SpecFloat.iter_pos shr_1 n r) = shr_m r / 2 ^ Zpos n /\
  0 <= shr_m (SpecFloat.iter_pos shr_1 n r).
Proof.
  induction n as [n IH | n IH | ]; intros r Hr; cbn [SpecFloat.iter_pos].
  - destruct (shr_1_nonneg r Hr) as [E1 N1].
    destruct (IH _ N1) as [E2 N2]. destruct (IH _ N2) as [E3 N3].
    split; [|exact N3]. rewrite E3, E2, E1.
    rewrite !Z.div_div by (try apply Z.pow_pos_nonneg; lia).
    f_equal. change (Z.pos n~1) with (2 * Z.pos n + 1).
    replace (2 * Z.pos n + 1) with (1 + Z.pos n + Z.pos n) by lia.
    rewrite !Z.pow_add_r by lia. lia.
  - destruct (IH _ Hr) as [E2 N2]. destruct (IH _ N2) as [E3 N3].
    split; [|exact N3]. rewrite E3, E2.
    rewrite !Z.div_div by (try apply Z.pow_pos_nonneg; lia).
    f_equal. change (Z.pos n~0) with (2 * Z.pos n).
    replace (2 * Z.pos n) with (Z.pos n + Z.pos n) by lia.
    rewrite Z.pow_add_r by lia. reflexivity.
  - apply shr_1_nonneg. exact Hr.
Qed.

Lemma digits2_pos_lower m : 2 ^ (Zpos (digits2_pos m) - 1) <= Zpos m.
Proof.
  induction m as [m IH | m IH | ]; cbn [digits2_pos].
  - rewrite Pos2Z.inj_succ. replace (Z.succ (Zpos (digits2_pos m)) - 1)
      with (1 + (Zpos (digits2_pos m) - 1)) by lia.
    rewrite Z.pow_add_r by lia. lia.
  - rewrite Pos2Z.inj_succ. replace (Z.succ (Zpos (digits2_pos m)) - 1)
      with (1 + (Zpos (digits2_pos m) - 1)) by lia.
    rewrite Z.pow_add_r by lia. lia.
  - reflexivity.
Qed.

Lemma shr_record_of_loc_m m l : shr_m (shr_record_of_loc m l) = m.
Proof. destruct l as [|[ | | ]]; reflexivity. Qed.

(** Shifting a positive mantissa to its format exponent leaves it positive,
    as long as the exponent is not below the least one. *)
Lemma shr_fexp_pos m e l :
  0 < m -> emin prec emax <= e ->
  0 < shr_m (fst (shr_fexp prec emax m e l)) /\
  e <= snd (shr_fexp prec emax m e l).
Proof.
  intros Hm He. unfold shr_fexp, shr.
  destruct m as [|p|p]; try lia. cbn [Zdigits2].
  pose proof (digits2_pos_lower p) as Hd.
  set (d := Zpos (digits2_pos p)) in *.
  assert (Hn : fexp prec emax (d + e) - e < d).
  { unfold fexp, emin, prec, emax in *. lia. }
  destruct (fexp prec emax (d + e) - e) as [|n|n] eqn:En; cbn [fst snd].
  - rewrite shr_record_of_loc_m. lia.
  - assert (H0 : 0 <= shr_m (shr_record_of_loc (Zpos p) l))
      by (rewrite shr_record_of_loc_m; lia).
    destruct (shr_iter_nonneg n _ H0) as [E _]. rewrite E, shr_record_of_loc_m.
    split; [|lia]. apply Z.div_str_pos. split; [apply Z.pow_pos_nonneg; lia|].
    eapply Z.le_trans; [|exact Hd]. apply Z.pow_le_mono_r; lia.
  - rewrite shr_record_of_loc_m. lia.
Qed.

Lemma round_nearest_even_pos m l : 0 < m -> 0 < round_nearest_even m l.
Proof.
  intros H. destruct l as [|[ | | ]]; cbn [round_nearest_even]; try lia.
  destruct (Z.even m); lia.
Qed.

Lemma binary_round_aux_pos m e l :
  0 < m -> emin prec emax <= e ->
  binary_round_aux prec emax false m e l = S754_infinity false \/
  exists m' e', binary_round_aux prec emax false m e l = S754_finite false m' e'.
Proof.
  intros Hm He. unfold binary_round_aux.
  destruct (shr_fexp_pos m e l Hm He) as [H1 H1e].
  destruct (shr_fexp prec emax m e l) as [mrs' e'] eqn:E1. cbn [fst snd] in *.
  pose proof (round_nearest_even_pos (shr_m mrs') (loc_of_shr_record mrs') H1) as H2.
  assert (He' : emin prec emax <= e') by lia.
  destruct (shr_fexp_pos _ e' loc_Exact H2 He') as [H3 _].
  destruct (shr_fexp prec emax _ e' loc_Exact) as [mrs'' e''] eqn:E2.
  cbn [fst snd] in *.
  destruct (shr_m mrs'') as [|q|q]; try lia.
  destruct (e'' <=? emax - prec); [right; now do 2 eexists | now left].
Qed.

Lemma float_of_int_pos n f :
  0 < n -> float_of_int n = Ok f ->
  f = S754_infinity false \/ exists m e, f = S754_finite false m e.
Proof.
  intros Hn. unfold float_of_int.
  destruct (Z.abs n <? overflow_bound); [|discriminate]. intros [= <-].
  destruct n as [|p|p]; try lia. cbn [binary_normalize]. unfold binary_round.
  destruct (shl_align p 0 (fexp prec emax (Zpos (digits2_pos p) + 0)))
    as [mz ez] eqn:E.
  apply binary_round_aux_pos; [lia|].
  unfold shl_align in E.
  destruct (fexp prec emax (Zpos (digits2_pos p) + 0) - 0) eqn:E';
    injection E as <- <-; unfold fexp, emin, prec, emax in *; lia.
Qed.

Lemma positive_float_not_le f :
  f = S754_infinity false \/ (exists m e, f = S754_finite false m e) ->
  is_le (float_compare_int f 0) = false.
Proof.
  intros [-> | (m & e & ->)]; [reflexivity|].
  cbn [float_compare_int cond_Zopp]. destruct (0 <=? e) eqn:He.
  - assert (0 < Zpos m * 2 ^ e).
    { apply Z.mul_pos_pos; [lia|]. apply Z.pow_pos_nonneg; [lia|]. now apply Z.leb_le. }
    destruct (Zpos m * 2 ^ e ?= 0) eqn:C; try reflexivity.
    + apply Z.compare_eq in C. lia.
    + rewrite Z.compare_lt_iff in C. lia.
  - reflexivity.
Qed.

(** ** The validator on a batch *)

Lemma env_int_range n f :
  0 <= n <= 100 -> float_of_int n = Ok f ->
  is_lt (float_compare_int f 0) = false /\
  is_gt (float_compare_int f 100) = false.
Proof.
  intros Hn Hf.
  assert (Hall : forallb env_int_ok (seq 0 101) = true) by (vm_compute; reflexivity).
  rewrite forallb_forall in Hall.
  assert (Hin : In (Z.to_nat n) (seq 0 101)) by (apply in_seq; lia).
  specialize (Hall _ Hin). unfold env_int_ok in Hall.
  rewrite Z2Nat.id in Hall by lia. rewrite Hf in Hall.
  apply andb_true_iff in Hall as [H1 H2].
  split; [now apply negb_true_iff in H1 | now apply negb_true_iff in H2].
Qed.

Lemma float_of_convertible x :
  float_convertible x -> exists f, float_of (number_value x) = Ok f.
Proof.
  destruct x as [n | f]; cbn [float_convertible number_value float_of].
  - intros H. unfold float_of_int.
    replace (Z.abs n <? overflow_bound) with true
      by (symmetry; now apply Z.ltb_lt).
    now eexists.
  - intros _. now eexists.
Qed.

Lemma overflow_bound_large : 100 < overflow_bound.
Proof. vm_compute. reflexivity. Qed.

Lemma holds_absent_fields d u : holds d u -> absent_fields d = [].
Proof.
  intros (H1 & H2 & H3 & H4 & H5 & H6).
  unfold absent_fields, required_fields. cbn [filter].
  unfold has_key. now rewrite H1, H2, H3, H4, H5, H6.
Qed.

Lemma valid_record_checks d u :
  holds d u -> type_rules u ->
  float_convertible (ambient_temperature u) ->
  float_convertible (activity_intensity_factor u) ->
  coercion_checks d.
Proof.
  intros (H1 & H2 & H3 & H4 & H5 & H6)
         (Hs & Hh & (t & Ht) & (x & Hx & Hx0 & Hx100) & (a & Ha & Hapos)) Ct Ca.
  unfold coercion_checks.
  split; [eexists; exact H1|].
  split.
  { exists (VInt (current_steps u)), (current_steps u).
    split; [exact H2|]. split; [reflexivity | exact Hs]. }
  split.
  { exists (VInt (heart_rate u)), (heart_rate u).
    split; [exact H3|]. split; [reflexivity | exact Hh]. }
  split.
  { destruct (float_of_convertible _ Ct) as (f & Hf).
    do 2 eexists. split; [exact H4 | exact Hf]. }
  split.
  - destruct (environmental_index u) as [n | f] eqn:E;
      cbn [number_value real_of] in *.
    + injection Hx as <-.
      assert (Hn : 0 <= n <= 100).
      { unfold Qle in Hx0, Hx100. cbn in Hx0, Hx100. lia. }
      assert (Hc : Z.abs n < overflow_bound)
        by (pose proof overflow_bound_large; lia).
      destruct (float_of_convertible (NInt n) Hc) as (f & Hf).
      exists (VInt n), f. split; [exact H5|]. split; [exact Hf|].
      now apply env_int_range with (n := n).
    + destruct (valid_binary prec emax f); [|discriminate].
      exists (VFloat f), f. split; [exact H5|]. split; [reflexivity|].
      rewrite (float_compare_int_real f x 0 Hx).
      rewrite (float_compare_int_real f x 100 Hx).
      change (inject_Z 0) with 0%Q. change (inject_Z 100) with 100%Q.
      split.
      * destruct (x ?= 0)%Q eqn:C; try reflexivity.
        apply Qlt_alt in C. exfalso. exact (Qlt_not_le _ _ C Hx0).
      * destruct (x ?= 100)%Q eqn:C; try reflexivity.
        apply Qgt_alt in C. exfalso. exact (Qlt_not_le _ _ C Hx100).
  - destruct (activity_intensity_factor u) as [k | f] eqn:E;
      cbn [number_value real_of] in *.
    + injection Ha as <-.
      assert (Hk : 0 < k) by (unfold Qlt in Hapos; cbn in Hapos; lia).
      destruct (float_of_convertible (NInt k) Ca) as (f & Hf).
      exists (VInt k), f. split; [exact H6|]. split; [exact Hf|].
      apply positive_float_not_le. now apply float_of_int_pos with (n := k).
    + destruct (valid_binary prec emax f); [|discriminate].
      exists (VFloat f), f. split; [exact H6|]. split; [reflexivity|].
      rewrite (float_compare_int_real f a 0 Ha).
      change (inject_Z 0) with 0%Q.
      apply Qgt_alt in Hapos. now rewrite Hapos.
Qed.

Lemma check_records_accepted records : forall i,
  Forall (fun record => forall row_num, check_record record row_num = Ok []) records ->
  check_records records i = Ok [].
Proof.
  induction records as [|record rest IH]; intros i H; [reflexivity|].
  cbn [check_records]. inversion H as [|? ? Hr Hrest]; subst.
  rewrite Hr. cbn [bind]. rewrite (IH _ Hrest). reflexivity.
Qed.

Lemma all_contain_dicts field records :
  Forall (fun record => exists d, record = VDict d) records ->
  exists every, all_contain field records = Ok every.
Proof.
  induction 1 as [|record rest (d & ->) _ IH]; [now eexists|].
  cbn [all_contain contains bind]. destruct (has_key field d); [exact IH | now eexists].
Qed.

Lemma mapM_ok {A B : Type} (f : A -> result B) (l : list A) :
  (forall a, In a l -> exists b, f a = Ok b) -> exists bs, mapM f l = Ok bs.
Proof.
  induction l as [|a l IH]; intros H; [now eexists|].
  cbn [mapM]. destruct (H a (or_introl eq_refl)) as (b & ->). cbn [bind].
  destruct IH as (bs & ->); [intros a' Ha'; apply H; now right|].
  now eexists.
Qed.

Lemma fields_check_of_dicts records :
  Forall (fun record => exists d, record = VDict d) records ->
  exists checks, fields_check_of records = Ok checks.
Proof.
  intros H. unfold fields_check_of. apply mapM_ok. intros field _.
  destruct (all_contain_dicts field records H) as (every & ->). now eexists.
Qed.

(** ** Missing fields *)

Lemma append_assoc (a b c : string) : (a +++ b) +++ c = a +++ (b +++ c).
Proof. induction a as [|x a IH]; cbn; [reflexivity | now rewrite IH]. Qed.

Lemma int_of_raises v e :
  int_of v = Raise e -> e = ValueError \/ e = TypeError \/ e = OverflowError.
Proof.
  destruct v as [ | b | n | f | s | l | d]; cbn; try discriminate;
    try (intros [= <-]; tauto).
  - destruct f; cbn; try discriminate; intros [= <-]; tauto.
  - unfold int_of_string. destruct (signed_digits (strip s)); [discriminate|].
    intros [= <-]; tauto.
Qed.

Lemma float_of_raises v e :
  float_of v = Raise e -> e = ValueError \/ e = TypeError \/ e = OverflowError.
Proof.
  destruct v as [ | b | n | f | s | l | d]; cbn; try discriminate;
    try (intros [= <-]; tauto).
  - unfold float_of_int. destruct (_ <? _); [discriminate | intros [= <-]; tauto].
  - unfold float_of_int. destruct (_ <? _); [discriminate | intros [= <-]; tauto].
  - unfold float_of_string. destruct (split_sign (strip s)) as [neg body].
    destruct (_ || _); [discriminate|].
    destruct (_ =? _)%string; [discriminate|].
    destruct (number_of_string body) as [[m x]|]; [discriminate|].
    intros [= <-]; tauto.
Qed.

(** A guarded conversion returns unless the conversion overflows. *)
Lemma except_returns {A : Type} (c : result A) (k : A -> bool) :
  (forall e, c = Raise e -> e = ValueError \/ e = TypeError \/ e = OverflowError) ->
  overflows c = false ->
  exists invalid, except_value_type (x <- c ;; Ok (k x)) = Ok invalid.
Proof.
  intros Hr Ho. destruct c as [a | e]; cbn; [eexists; reflexivity|].
  destruct (Hr e eq_refl) as [-> | [-> | ->]]; cbn;
    first [discriminate Ho | eexists; reflexivity].
Qed.

Lemma invalid_fields_of_returns d :
  absent_fields d = [] -> conversion_overflows d = false ->
  exists invalid_fields, invalid_fields_of (VDict d) = Ok invalid_fields.
Proof.
  unfold absent_fields, required_fields, conversion_overflows, int_columns,
    float_columns, has_key.
  cbn [filter existsb]. intros Habs Hov.
  destruct (lookup "user_id" d) as [uid|] eqn:E1; [|discriminate Habs].
  destruct (lookup "current_steps" d) as [v2|] eqn:E2; [|discriminate Habs].
  destruct (lookup "heart_rate" d) as [v3|] eqn:E3; [|discriminate Habs].
  destruct (lookup "ambient_temperature" d) as [v4|] eqn:E4; [|discriminate Habs].
  destruct (lookup "environmental_index" d) as [v5|] eqn:E5; [|discriminate Habs].
  destruct (lookup "activity_intensity_factor" d) as [v6|] eqn:E6;
    [|discriminate Habs].
  repeat (apply orb_false_iff in Hov as [Hov ?]).
  repeat match goal with H : _ || _ = false |- _ =>
           apply orb_false_iff in H as [? ?] end.
  unfold invalid_fields_of, invalid_positive_int, invalid_temperature,
    invalid_env_index, invalid_intensity. cbn [getitem].
  rewrite E1, E2, E3, E4, E5, E6. cbn [bind].
  destruct (except_returns (int_of v2) (fun n => n <=? 0) (int_of_raises v2))
    as (i2 & ->); [assumption|].
  destruct (except_returns (int_of v3) (fun n => n <=? 0) (int_of_raises v3))
    as (i3 & ->); [assumption|].
  destruct (except_returns (float_of v4) (fun _ => false) (float_of_raises v4))
    as (i4 & ->); [assumption|].
  destruct (except_returns (float_of v5)
              (fun f => is_lt (float_compare_int f 0)
                        || is_gt (float_compare_int f 100))
              (float_of_raises v5)) as (i5 & ->); [assumption|].
  destruct (except_returns (float_of v6)
              (fun f => is_le (float_compare_int f 0))
              (float_of_raises v6)) as (i6 & ->); [assumption|].
  cbn [bind]. now eexists.
Qed.

(** What one turn of the loop appends for a checkable record. *)
Lemma check_record_checkable d row_num :
  (absent_fields d = [] -> conversion_overflows d = false) ->
  exists errs,
    check_record (VDict d) row_num = Ok errs /\
    (absent_fields d <> [] -> errs = [missing_error (absent_fields d) row_num]).
Proof.
  intros H. unfold check_record. rewrite missing_fields_of_dict. cbn [bind].
  fold (absent_fields d). destruct (absent_fields d) as [|f fs] eqn:E.
  - destruct (invalid_fields_of_returns d E (H eq_refl)) as (fields & ->).
    cbn [bind]. destruct fields; eexists; (split; [reflexivity|]);
      intros Hne; now elim Hne.
  - eexists. split; [reflexivity|]. intros _. reflexivity.
Qed.

Lemma check_records_checkable records : forall i,
  Forall checkable records ->
  exists per_record,
    check_records records i = Ok (List.concat per_record) /\
    List.length per_record = List.length records /\
    forall j d,
      nth_error records j = Some (VDict d) -> absent_fields d <> [] ->
      nth_error per_record j
      = Some [missing_error (absent_fields d) (i + Z.of_nat j + 1)].
Proof.
  induction records as [|record rest IH]; intros i H.
  - exists []. split; [reflexivity|]. split; [reflexivity|].
    intros [|j] d Hj; discriminate Hj.
  - inversion H as [|? ? (d0 & -> & Hd0) Hrest]; subst.
    destruct (check_record_checkable d0 (i + 1) Hd0) as (errs & Hc & Hm).
    destruct (IH (i + 1) Hrest) as (per & Hper & Hlen & Hnth).
    exists (errs :: per). cbn [check_records]. rewrite Hc. cbn [bind].
    rewrite Hper. cbn [bind List.concat].
    split; [reflexivity|]. split; [cbn [List.length]; now rewrite Hlen|].
    intros [|j] d Hj Habs; cbn [nth_error] in *.
    + injection Hj as <-. rewrite (Hm Habs). do 3 f_equal. lia.
    + rewrite (Hnth j d Hj Habs). do 3 f_equal. lia.
Qed.

Lemma fold_left_appends (f : string -> string) errs : forall pre,
  exists suffix,
    fold_left (fun report error => report +++ f error) errs pre = pre +++ suffix.
Proof.
  induction errs as [|e errs IH]; intros pre; cbn [fold_left].
  - exists EmptyString. induction pre as [|c pre IHp]; cbn; [reflexivity|].
    now rewrite <- IHp.
  - destruct (IH (pre +++ f e)) as (suffix & ->).
    exists (f e +++ suffix). apply append_assoc.
Qed.

Lemma fold_left_lists (f : string -> string) errs e : forall pre,
  In e errs ->
  exists before after,
    fold_left (fun report error => report +++ f error) errs pre
    = before +++ f e +++ after.
Proof.
  induction errs as [|e' errs IH]; intros pre Hin; [now elim Hin|].
  cbn [fold_left]. destruct Hin as [-> | Hin].
  - destruct (fold_left_appends f errs (pre +++ f e)) as (suffix & ->).
    exists pre, suffix. apply append_assoc.
  - exact (IH _ Hin).
Qed.

Lemma report_shape details :
  errors details <> [] ->
  exists pre,
    _generate_validation_report details
    = fold_left (fun report error => report +++ "- " +++ error +++ nl)
                (errors details) pre.
Proof.
  intros Hne. unfold _generate_validation_report.
  destruct (errors details) as [|e0 errs]; [now elim Hne|].
  eexists. reflexivity.
Qed.

(** Every recorded error is a line of the report. *)
Lemma report_lists_errors details e :
  In e (errors details) ->
  exists before after,
    _generate_validation_report details = before +++ "- " +++ e +++ nl +++ after.
Proof.
  intros Hin.
  assert (Hne : errors details <> []) by (intros E; rewrite E in Hin; exact Hin).
  destruct (report_shape details Hne) as (pre & ->).
  destruct (fold_left_lists (fun error => "- " +++ error +++ nl)
              (errors details) e pre Hin) as (before & after & H).
  exists before, after. rewrite H. f_equal.
  rewrite !append_assoc. reflexivity.
Qed.

(** ** Association lists *)

Lemma lookup_dict_set key k v (d : dict) :
  lookup key (dict_set k v d) = if (k =? key)%string then Some v else lookup key d.
Proof.
  induction d as [|[k0 w] d IH]; cbn [dict_set lookup]; [reflexivity|].
  destruct (String.eqb_spec k0 k) as [-> | Hne]; cbn [lookup].
  - destruct (k =? key)%string; reflexivity.
  - rewrite IH. destruct (String.eqb_spec k0 key) as [-> | Hne'].
    + destruct (String.eqb_spec k key) as [-> | _]; [now elim Hne | reflexivity].
    + reflexivity.
Qed.

Lemma lookup_app {A : Type} key (l1 l2 : list (string * A)) :
  lookup key (l1 ++ l2)
  = match lookup key l1 with Some v => Some v | None => lookup key l2 end.
Proof.
  induction l1 as [|[k v] l1 IH]; cbn [app lookup]; [reflexivity|].
  destruct (k =? key)%string; [reflexivity | exact IH].
Qed.

Lemma lookup_in {A : Type} key (v : A) (l : list (string * A)) :
  NoDup (map fst l) -> In (key, v) l -> lookup key l = Some v.
Proof.
  induction l as [|[k w] l IH]; cbn [map fst lookup]; intros Hnd Hin;
    [now elim Hin|].
  inversion Hnd as [|? ? Hk Hnd']; subst.
  destruct Hin as [[= -> ->] | Hin].
  - now rewrite String.eqb_refl.
  - destruct (String.eqb_spec k key) as [-> | _]; [|now apply IH].
    elim Hk. change key with (fst (key, v)). now apply in_map.
Qed.

Lemma lookup_none {A : Type} key (l : list (string * A)) :
  ~ In key (map fst l) -> lookup key l = None.
Proof.
  induction l as [|[k w] l IH]; cbn [map fst lookup]; intros Hin; [reflexivity|].
  destruct (String.eqb_spec k key) as [-> | _].
  - elim Hin. now left.
  - apply IH. intros H. apply Hin. now right.
Qed.

(** The comprehension keeps, for each key, the last cell that carries it. *)
Lemma lookup_fold_set key (kvs : list (string * string)) : forall d : dict,
  lookup key
    (fold_left (fun record kv => dict_set (fst kv) (VStr (snd kv)) record) kvs d)
  = match lookup key (rev kvs) with
    | Some cell => Some (VStr cell)
    | None => lookup key d
    end.
Proof.
  induction kvs as [|[k c] kvs IH]; intros d; cbn [fold_left rev]; [reflexivity|].
  rewrite IH, lookup_app, lookup_dict_set. cbn [lookup fst snd].
  destruct (lookup key (rev kvs)); [reflexivity|].
  destruct (k =? key)%string; reflexivity.
Qed.

Lemma map_fst_combine {A B : Type} (l : list A) (l' : list B) :
  List.length l = List.length l' -> map fst (combine l l') = l.
Proof.
  revert l'. induction l as [|a l IH]; intros [|b l'] H; try discriminate H;
    cbn [combine map fst]; [reflexivity|].
  f_equal. apply IH. now injection H.
Qed.

Lemma in_combine_nth {A B : Type} (l : list A) (l' : list B) j a b :
  nth_error l j = Some a -> nth_error l' j = Some b -> In (a, b) (combine l l').
Proof.
  revert l l'. induction j as [|j IH]; intros [|x l] [|y l'] Ha Hb;
    try discriminate; cbn [nth_error combine] in *.
  - injection Ha as ->. injection Hb as ->. now left.
  - right. now apply IH.
Qed.

Lemma make_record_lookup headers row :
  NoDup headers -> List.length headers = List.length row ->
  (forall j key cell,
     nth_error headers j = Some key -> nth_error row j = Some cell ->
     lookup key (make_record headers row) = Some (VStr cell)) /\
  (forall key, ~ In key headers -> lookup key (make_record headers row) = None).
Proof.
  intros Hnd Hlen. unfold make_record. split.
  - intros j key cell Hk Hc. rewrite lookup_fold_set.
    rewrite (lookup_in key cell); [reflexivity| |].
    + rewrite map_rev, map_fst_combine by exact Hlen.
      apply NoDup_rev. exact Hnd.
    + apply -> in_rev. eapply in_combine_nth; eassumption.
  - intros key Hin. rewrite lookup_fold_set.
    rewrite lookup_none; [reflexivity|].
    rewrite map_rev, map_fst_combine by exact Hlen.
    intros H. apply Hin. now apply in_rev.
Qed.

(** ** Opportunistic coercion *)

Lemma to_int_value_fails : fails_by_value_error to_int_value.
Proof.
  intros cell e. unfold to_int_value. cbn [int_of]. unfold int_of_string.
  destruct (signed_digits (strip cell)); cbn [bind]; [discriminate|].
  now intros [= <-].
Qed.

Lemma to_float_value_fails : fails_by_value_error to_float_value.
Proof.
  intros cell e. unfold to_float_value. cbn [float_of]. unfold float_of_string.
  destruct (split_sign (strip cell)) as [neg body].
  destruct (_ || _); cbn [bind]; [discriminate|].
  destruct (_ =? _)%string; cbn [bind]; [discriminate|].
  destruct (number_of_string body) as [[m x]|]; cbn [bind]; [discriminate|].
  now intros [= <-].
Qed.

Lemma coerce_field_lookup conv d field :
  fails_by_value_error conv -> str_at d field ->
  exists d',
    coerce_field conv d field = Ok d' /\
    forall key,
      lookup key d'
      = if (field =? key)%string
        then option_map (try_conv conv) (lookup key d)
        else lookup key d.
Proof.
  intros Hconv Hstr. unfold coerce_field.
  destruct (lookup field d) as [v|] eqn:E.
  - destruct (Hstr v E) as (cell & ->).
    destruct (conv (VStr cell)) as [w | e] eqn:Ec.
    + eexists. split; [reflexivity|]. intros key. rewrite lookup_dict_set.
      destruct (String.eqb_spec field key) as [<- | _]; [|reflexivity].
      rewrite E. cbn [option_map]. unfold try_conv. now rewrite Ec.
    + rewrite (Hconv cell e Ec). eexists. split; [reflexivity|]. intros key.
      destruct (String.eqb_spec field key) as [<- | _]; [|reflexivity].
      rewrite E. cbn [option_map]. unfold try_conv. now rewrite Ec.
  - eexists. split; [reflexivity|]. intros key.
    destruct (String.eqb_spec field key) as [<- | _]; [|reflexivity].
    now rewrite E.
Qed.

Lemma coerce_fields_lookup conv fields : forall d,
  fails_by_value_error conv -> NoDup fields ->
  (forall field, In field fields -> str_at d field) ->
  exists d',
    coerce_fields conv fields d = Ok d' /\
    forall key,
      lookup key d'
      = if existsb (String.eqb key) fields
        then option_map (try_conv conv) (lookup key d)
        else lookup key d.
Proof.
  induction fields as [|field fields IH]; intros d Hconv Hnd Hstr.
  - exists d. split; reflexivity.
  - inversion Hnd as [|? ? Hnotin Hnd']; subst.
    destruct (coerce_field_lookup conv d field Hconv (Hstr field (or_introl eq_refl)))
      as (d1 & H1 & L1).
    destruct (IH d1 Hconv Hnd') as (d2 & H2 & L2).
    { intros f Hf v. rewrite L1.
      destruct (String.eqb_spec field f) as [<- | _]; [now elim Hnotin|].
      apply Hstr. now right. }
    exists d2. cbn [coerce_fields]. rewrite H1. cbn [bind].
    split; [exact H2|]. intros key. rewrite L2, L1. cbn [existsb].
    rewrite (String.eqb_sym key field).
    destruct (String.eqb_spec field key) as [<- | Hne]; cbn [orb].
    + replace (existsb (String.eqb field) fields) with false; [reflexivity|].
      symmetry. apply not_true_is_false. intros H.
      apply existsb_exists in H as (x & Hx & Heq).
      apply String.eqb_eq in Heq. subst x. now elim Hnotin.
    + reflexivity.
Qed.

Lemma try_conv_int cell :
  try_conv to_int_value (VStr cell)
  = match int_of_string cell with Ok n => VInt n | Raise _ => VStr cell end.
Proof.
  unfold try_conv, to_int_value. cbn [int_of].
  now destruct (int_of_string cell).
Qed.

Lemma try_conv_float cell :
  try_conv to_float_value (VStr cell)
  = match float_of_string cell with Ok f => VFloat f | Raise _ => VStr cell end.
Proof.
  unfold try_conv, to_float_value. cbn [float_of].
  now destruct (float_of_string cell).
Qed.

(** The record of an accepted row, under distinct header names. *)
Lemma row_record_keyed headers row :
  NoDup headers -> List.length headers = List.length row ->
  exists record, row_record headers row = Ok record /\ keyed_by headers row record.
Proof.
  intros Hnd Hlen.
  destruct (make_record_lookup headers row Hnd Hlen) as [Hin Hout].
  assert (Hstr : forall field, str_at (make_record headers row) field).
  { intros field v Hv. destruct (in_dec string_dec field headers) as [Hf | Hf].
    - apply In_nth_error in Hf as (j & Hj).
      assert (Hc : exists cell, nth_error row j = Some cell).
      { destruct (nth_error row j) as [cell|] eqn:E; [now eexists|].
        apply nth_error_None in E.
        assert (nth_error headers j <> None) by (rewrite Hj; discriminate).
        apply nth_error_Some in H. lia. }
      destruct Hc as (cell & Hc). rewrite (Hin j field cell Hj Hc) in Hv.
      injection Hv as <-. now eexists.
    - rewrite (Hout field Hf) in Hv. discriminate Hv. }
  unfold row_record.
  destruct (coerce_fields_lookup to_int_value int_columns (make_record headers row)
              to_int_value_fails) as (d1 & H1 & L1).
  { unfold int_columns. repeat constructor; cbn; intuition discriminate. }
  { intros field _. apply Hstr. }
  rewrite H1. cbn [bind].
  destruct (coerce_fields_lookup to_float_value float_columns d1
              to_float_value_fails) as (d2 & H2 & L2).
  { unfold float_columns. repeat constructor; cbn; intuition discriminate. }
  { intros field Hf v. rewrite L1.
    replace (existsb (String.eqb field) int_columns) with false.
    - apply Hstr.
    - unfold float_columns in Hf. cbn in Hf.
      destruct Hf as [<- | [<- | [<- | []]]]; reflexivity. }
  exists d2. split; [exact H2|]. split.
  - intros j key cell Hk Hc. rewrite L2, L1, (Hin j key cell Hk Hc).
    unfold coerced.
    destruct (existsb (String.eqb key) int_columns) eqn:Ei.
    + cbn [option_map]. rewrite try_conv_int.
      replace (existsb (String.eqb key) float_columns) with false.
      * reflexivity.
      * unfold int_columns in Ei. cbn in Ei.
        apply orb_true_iff in Ei as [Ei | Ei].
        -- apply String.eqb_eq in Ei. now subst key.
        -- apply orb_true_iff in Ei as [Ei | Ei]; [|discriminate].
           apply String.eqb_eq in Ei. now subst key.
    + destruct (existsb (String.eqb key) float_columns); cbn [option_map];
        [apply f_equal, try_conv_float | reflexivity].
  - intros key Hk. rewrite L2, L1, (Hout key Hk).
    destruct (existsb _ float_columns), (existsb _ int_columns); reflexivity.
Qed.

(** ** Rows and columns *)

Lemma parse_rows_keyed headers rows :
  NoDup headers ->
  exists records,
    parse_rows headers rows = Ok (map VDict records) /\
    Forall2 (fun record row => keyed_by headers row record) records
            (filter (fun row => (List.length row =? List.length headers)%nat) rows).
Proof.
  intros Hnd. induction rows as [|row rows (records & Hp & Hk)].
  - exists []. split; [reflexivity | constructor].
  - cbn [parse_rows filter].
    destruct (Nat.eqb_spec (List.length row) (List.length headers)) as [Hlen | Hlen];
      cbn [negb].
    + destruct (row_record_keyed headers row Hnd (eq_sym Hlen)) as (record & Hr & Hkey).
      exists (record :: records). rewrite Hr. cbn [bind]. rewrite Hp. cbn [bind map].
      split; [reflexivity | now constructor].
    + exists records. split; assumption.
Qed.

Lemma map_nth_seq {A : Type} (l : list A) (d : A) : forall pre,
  map (fun i => nth i (pre ++ l) d) (seq (List.length pre) (List.length l)) = l.
Proof.
  induction l as [|a l IH]; intros pre; cbn [List.length seq map]; [reflexivity|].
  rewrite app_nth2 by lia. rewrite Nat.sub_diag. cbn [nth]. f_equal.
  specialize (IH (pre ++ [a])). rewrite <- app_assoc in IH. cbn [app] in IH.
  rewrite length_app in IH. cbn [List.length] in IH.
  rewrite Nat.add_1_r in IH. exact IH.
Qed.

Lemma permute_permutation p row :
  Permutation p (seq 0 (List.length row)) -> Permutation (permute p row) row.
Proof.
  intros Hp. unfold permute.
  apply Permutation_map with (f := fun i => nth i row EmptyString) in Hp.
  pose proof (map_nth_seq row EmptyString []) as E.
  cbn [app List.length] in E. rewrite E in Hp. exact Hp.
Qed.

Lemma permute_length p row : List.length (permute p row) = List.length p.
Proof. unfold permute. apply length_map. Qed.

Lemma strip_empty : strip EmptyString = EmptyString.
Proof. reflexivity. Qed.

Lemma permute_map_strip p row :
  map strip (permute p row) = permute p (map strip row).
Proof.
  unfold permute. rewrite map_map. apply map_ext. intros i.
  rewrite <- strip_empty at 2. symmetry. apply map_nth.
Qed.

(** Rearranging header and row alike rearranges the pairs of name and cell. *)
Lemma combine_permute p headers row :
  List.length headers = List.length row ->
  Permutation p (seq 0 (List.length headers)) ->
  Permutation (combine (permute p headers) (permute p row)) (combine headers row).
Proof.
  intros Hlen Hp.
  assert (E : forall q,
             combine (permute q headers) (permute q row)
             = map (fun i => (nth i headers EmptyString, nth i row EmptyString)) q).
  { induction q as [|i q IH]; cbn [permute map combine]; [reflexivity|].
    f_equal. exact IH. }
  rewrite E.
  assert (Hall : map (fun i => (nth i headers EmptyString, nth i row EmptyString))
                     (seq 0 (List.length headers))
                 = combine headers row).
  { pose proof (map_nth_seq (combine headers row) (EmptyString, EmptyString) [])
      as E'.
    cbn [app List.length] in E'.
    rewrite length_combine, <- Hlen, Nat.min_id in E'.
    etransitivity; [|exact E']. apply map_ext. intros i. symmetry.
    apply combine_nth. exact Hlen. }
  rewrite <- Hall. now apply Permutation_map.
Qed.

Lemma in_combine_nth_inv {A B : Type} (l : list A) (l' : list B) a b :
  In (a, b) (combine l l') ->
  exists j, nth_error l j = Some a /\ nth_error l' j = Some b.
Proof.
  revert l'. induction l as [|x l IH]; intros [|y l'] H; cbn [combine] in H;
    try now elim H.
  destruct H as [[= -> ->] | H].
  - now exists 0%nat.
  - destruct (IH l' H) as (j & Ha & Hb). now exists (S j).
Qed.

(** A record keyed by the header is keyed by any rearrangement of it. *)
Lemma keyed_by_permute p headers row record :
  List.length headers = List.length row ->
  Permutation p (seq 0 (List.length headers)) ->
  keyed_by (permute p headers) (permute p row) record ->
  keyed_by headers row record.
Proof.
  intros Hlen Hp [Hin Hout]. split.
  - intros j key cell Hk Hc.
    assert (H : In (key, cell) (combine (permute p headers) (permute p row))).
    { eapply Permutation_in.
      - apply Permutation_sym, combine_permute; eassumption.
      - eapply in_combine_nth; eassumption. }
    apply in_combine_nth_inv in H as (j' & Hk' & Hc').
    exact (Hin j' key cell Hk' Hc').
  - intros key Hk. apply Hout. intros H. apply Hk.
    eapply Permutation_in; [|exact H]. now apply permute_permutation.
Qed.

Lemma keyed_by_same_mapping headers row record record' :
  List.length headers = List.length row ->
  keyed_by headers row record -> keyed_by headers row record' ->
  same_mapping record record'.
Proof.
  intros Hlen [Hin Hout] [Hin' Hout'] key.
  destruct (in_dec string_dec key headers) as [Hk | Hk].
  - apply In_nth_error in Hk as (j & Hj).
    destruct (nth_error row j) as [cell|] eqn:E.
    + now rewrite (Hin j key cell Hj E), (Hin' j key cell Hj E).
    + apply nth_error_None in E.
      assert (nth_error headers j <> None) by (rewrite Hj; discriminate).
      apply nth_error_Some in H. lia.
  - now rewrite (Hout key Hk), (Hout' key Hk).
Qed.

Lemma Forall2_through {A A' B : Type} (P : A -> B -> Prop) (Q : A' -> B -> Prop)
  (R : A -> A' -> Prop) (f : B -> B) (rows : list B) :
  (forall a a' row, In row rows -> P a row -> Q a' (f row) -> R a a') ->
  forall l l', Forall2 P l rows -> Forall2 Q l' (map f rows) -> Forall2 R l l'.
Proof.
  induction rows as [|row rows IH]; intros H l l' HP HQ.
  - inversion HP; subst. inversion HQ; subst. constructor.
  - inversion HP as [|a ? l0 ? Pa HP']; subst.
    cbn [map] in HQ. inversion HQ as [|a' ? l0' ? Qa HQ']; subst.
    constructor.
    + apply (H a a' row); [now left | assumption | assumption].
    + apply IH; [|assumption|assumption].
      intros x x' r Hr. apply H. now right.
Qed.

Lemma filter_all {A : Type} (f : A -> bool) (l : list A) :
  Forall (fun a => f a = true) l -> filter f l = l.
Proof.
  induction 1 as [|a l Ha _ IH]; cbn [filter]; [reflexivity|].
  now rewrite Ha, IH.
Qed.

(** ** The comma-separated branch *)

Section CsvBranch.

Variable json_loads : string -> result dict.
Variable csv_reader : string -> result (list (list string)).

(** What the comma-separated branch returns. *)
Lemma parse_csv_keyed data_str header rows :
  startswith (strip data_str) "{" = false ->
  is_substring "," (strip data_str) = true ->
  csv_reader (strip data_str) = Ok (header :: rows) ->
  NoDup (map strip header) ->
  exists records,
    parse_input_data json_loads csv_reader data_str = VList (map VDict records) /\
    Forall2 (fun record row => keyed_by (map strip header) row record)
            records (accepted_rows header rows).
Proof.
  intros Hb Hc Hcsv Hnd.
  unfold parse_input_data, parse_body, parse_csv. rewrite Hb, Hc, Hcsv. cbn [bind].
  destruct (parse_rows_keyed (map strip header) rows Hnd) as (records & Hp & Hk).
  assert (Hacc : filter (fun row => (List.length row
                                     =? List.length (map strip header))%nat) rows
                 = accepted_rows header rows).
  { unfold accepted_rows. apply filter_ext. intros row. now rewrite length_map. }
  rewrite Hacc in Hk.
  destruct rows as [|row rows].
  - exists []. split; [reflexivity|]. constructor.
  - rewrite Hp. cbn [bind]. exists records. split; [reflexivity | exact Hk].
Qed.

End CsvBranch.

(** * The claims *)

(** ** C1: the final recommendation *)

(** C1 (as stated, refuted).  Two typed records on which the claim fails: on
    [u_huge] [calculate_metrics] raises [OverflowError] and returns no
    recommendation at all; on [u_edge] the reported composite fitness score is
    0.75, the heart-rate category is Optimal and the temperature impact is
    Ideal Temperature, yet the recommendation is "Adjust fitness plan". *)
Lemma C1_counterexample :
  (well_typed u_huge /\
   calculate_metrics (VDict (record_of u_huge)) = Raise OverflowError) /\
  (well_typed u_edge /\
   exists m,
     calculate_metrics (VDict (record_of u_edge)) = Ok m /\
     composite_fitness_score (calcs m) = c0_75 /\
     fleb c0_75 (composite_fitness_score (calcs m)) = true /\
     heart_rate_category (calcs m) = "Optimal" /\
     temperature_impact (calcs m) = "Ideal Temperature" /\
     recommendation (calcs m) = "Adjust fitness plan" /\
     status (calcs m) = "Needs Adjustment").
Proof.
  split; split.
  - exact u_huge_well_typed.
  - vm_compute. reflexivity.
  - exact u_edge_well_typed.
  - eexists. split; [vm_compute; reflexivity|]. cbn [calcs composite_fitness_score
      heart_rate_category temperature_impact recommendation status].
    repeat split; vm_compute; reflexivity.
Qed.

(** C1 (amended).  For every typed user record whose predicted activity is
    computable in binary64, [calculate_metrics] returns the recommendation
    "Continue current fitness plan" with status "Optimal" if and only if the
    composite score before rounding (the sum the code compares, not the
    rounded [composite_fitness_score] it reports) is at least 0.75, the
    heart-rate category is Optimal and the temperature impact is Ideal
    Temperature; in every other case it returns "Adjust fitness plan" with
    status "Needs Adjustment". *)
Theorem C1_recommendation d u :
  holds d u -> well_typed u -> activity_computable u ->
  exists m p q,
    calculate_metrics (VDict d) = Ok m /\
    mul (VInt (current_steps u)) (number_value (activity_intensity_factor u)) = Ok p /\
    truediv p (VInt 10000) = Ok q /\
    let composite :=
      composite_score q (heart_rate_category (calcs m))
                      (environmental_quality (calcs m)) in
    let conditions :=
      fleb c0_75 composite = true /\
      heart_rate_category (calcs m) = "Optimal" /\
      temperature_impact (calcs m) = "Ideal Temperature" in
    composite_fitness_score (calcs m) = float_round2 composite /\
    (recommendation (calcs m) = "Continue current fitness plan" /\
     status (calcs m) = "Optimal" <-> conditions) /\
    (~ conditions ->
     recommendation (calcs m) = "Adjust fitness plan" /\
     status (calcs m) = "Needs Adjustment").
Proof.
  intros Hd Hw Hc.
  destruct (calculate_metrics_typed d u Hd Hw Hc)
    as (p & q & x & t & Hmul & Hdiv & _ & _ & Hm).
  eexists; exists p, q. split; [exact Hm|]. split; [exact Hmul|]. split; [exact Hdiv|].
  cbn [calcs typed_calcs heart_rate_category environmental_quality
       temperature_impact composite_fitness_score recommendation status].
  split; [reflexivity|].
  set (c := fleb c0_75 _).
  set (h := spec_heart_rate_category _).
  set (ti := spec_temperature_impact _).
  destruct c; cbn [andb];
    destruct (String.eqb_spec h "Optimal") as [Hh | Hh]; cbn [andb];
    destruct (String.eqb_spec ti "Ideal Temperature") as [Hti | Hti];
    (split; [split|]);
    try (intros [? ?]); try (intros (? & ? & ?)); try intros ?;
    repeat split; try congruence; try discriminate; try tauto.
Qed.

Lemma C1_recommendation_witness :
  exists m p q,
    calculate_metrics (VDict (record_of u1)) = Ok m /\
    mul (VInt (current_steps u1)) (number_value (activity_intensity_factor u1)) = Ok p /\
    truediv p (VInt 10000) = Ok q /\
    let composite :=
      composite_score q (heart_rate_category (calcs m))
                      (environmental_quality (calcs m)) in
    let conditions :=
      fleb c0_75 composite = true /\
      heart_rate_category (calcs m) = "Optimal" /\
      temperature_impact (calcs m) = "Ideal Temperature" in
    composite_fitness_score (calcs m) = float_round2 composite /\
    (recommendation (calcs m) = "Continue current fitness plan" /\
     status (calcs m) = "Optimal" <-> conditions) /\
    (~ conditions ->
     recommendation (calcs m) = "Adjust fitness plan" /\
     status (calcs m) = "Needs Adjustment").
Proof.
  exact (C1_recommendation (record_of u1) u1 (holds_record_of u1)
           u1_well_typed u1_computable).
Defined.

(** ** C2: the composite fitness score *)

(** C2 (as stated, refuted).  A typed record on which no score is computed:
    the integer product of steps and factor is too large for the true division
    by 10000, and [calculate_metrics] raises [OverflowError]. *)
Lemma C2_counterexample :
  well_typed u_huge_int /\
  calculate_metrics (VDict (record_of u_huge_int)) = Raise OverflowError.
Proof. split; [exact u_huge_int_well_typed | vm_compute; reflexivity]. Qed.

(** C2 (amended).  For every typed user record whose predicted activity is
    computable in binary64, [calculate_metrics] computes predicted_activity =
    current_steps * activity_intensity_factor, normalized_activity =
    (predicted_activity / 10000) * 0.5, heart_component = factor * 0.3 with
    factors Optimal 1.0, Below Optimal 0.8, Above Optimal 0.7, env_component =
    factor * 0.2 with factors Good 1.0, Moderate 0.8, Poor 0.6, and the
    composite as their sum; the predicted activity, each component and the
    total are each rounded to two decimals on their own, from the unrounded
    values.  The scenario record U1 yields predicted_activity 10000.0,
    normalized_activity 0.5, heart_component 0.3, env_component 0.2,
    composite_fitness_score 1.0, "Continue current fitness plan", "Optimal",
    whether its real fields arrive as integers or as floats. *)
Theorem C2_composite_formula :
  (forall d u,
     holds d u -> well_typed u -> activity_computable u ->
     exists m p q hf ef,
       calculate_metrics (VDict d) = Ok m /\
       mul (VInt (current_steps u)) (number_value (activity_intensity_factor u))
       = Ok p /\
       truediv p (VInt 10000) = Ok q /\
       lookup (heart_rate_category (calcs m)) spec_heart_rate_factors = Some hf /\
       lookup (environmental_quality (calcs m)) spec_env_factors = Some ef /\
       round2 p = Ok (predicted_activity (calcs m)) /\
       normalized_activity (calcs m) = float_round2 (fmul q c0_5) /\
       heart_component (calcs m) = float_round2 (fmul hf c0_3) /\
       env_component (calcs m) = float_round2 (fmul ef c0_2) /\
       composite_fitness_score (calcs m)
       = float_round2 (fadd (fadd (fmul q c0_5) (fmul hf c0_3)) (fmul ef c0_2))) /\
  calculate_metrics (VDict (record_of u1))
  = Ok {| input_data := VDict (record_of u1); calcs := u1_calcs |} /\
  calculate_metrics (VDict (record_of u1_csv))
  = Ok {| input_data := VDict (record_of u1_csv); calcs := u1_calcs |}.
Proof.
  split; [|split; vm_compute; reflexivity].
  intros d u Hd Hw Hc.
  assert (Hpos : 0 < current_steps u) by apply Hw.
  assert (Ha : exists a, real_of (activity_intensity_factor u) = Some a /\ (0 < a)%Q)
    by apply Hw.
  destruct (calculate_metrics_typed d u Hd Hw Hc)
    as (p & q & x & t & Hmul & Hdiv & _ & _ & Hm).
  destruct (mul_typed u Hc Hpos Ha) as (p' & q' & Hmul' & Hround & _).
  rewrite Hmul in Hmul'. injection Hmul' as <-.
  eexists; exists p, q. do 2 eexists.
  split; [exact Hm|]. split; [exact Hmul|]. split; [exact Hdiv|].
  cbn [calcs typed_calcs heart_rate_category environmental_quality
       predicted_activity normalized_activity heart_component env_component
       composite_fitness_score].
  split; [apply spec_heart_rate_factor_lookup|].
  split; [apply spec_env_factor_lookup|].
  split; [exact Hround|].
  repeat split.
Qed.

Lemma C2_composite_formula_witness :
  exists m p q hf ef,
    calculate_metrics (VDict (record_of u1_csv)) = Ok m /\
    mul (VInt (current_steps u1_csv))
        (number_value (activity_intensity_factor u1_csv)) = Ok p /\
    truediv p (VInt 10000) = Ok q /\
    lookup (heart_rate_category (calcs m)) spec_heart_rate_factors = Some hf /\
    lookup (environmental_quality (calcs m)) spec_env_factors = Some ef /\
    round2 p = Ok (predicted_activity (calcs m)) /\
    normalized_activity (calcs m) = float_round2 (fmul q c0_5) /\
    heart_component (calcs m) = float_round2 (fmul hf c0_3) /\
    env_component (calcs m) = float_round2 (fmul ef c0_2) /\
    composite_fitness_score (calcs m)
    = float_round2 (fadd (fadd (fmul q c0_5) (fmul hf c0_3)) (fmul ef c0_2)).
Proof.
  apply (proj1 C2_composite_formula (record_of u1_csv) u1_csv).
  - apply holds_record_of.
  - exact u1_csv_well_typed.
  - vm_compute. reflexivity.
Defined.

(** ** C3: the classification boundaries *)

(** C3 (as stated, refuted).  A typed record with heart_rate 60,
    environmental_index 75 and ambient_temperature 25 that is not classified:
    its step count does not convert to a binary64 and [calculate_metrics]
    raises [OverflowError] before any category is chosen. *)
Lemma C3_counterexample :
  well_typed u_huge /\
  heart_rate u_huge = 60 /\
  calculate_metrics (VDict (record_of u_huge)) = Raise OverflowError.
Proof.
  split; [exact u_huge_well_typed|]. split; [reflexivity|].
  vm_compute. reflexivity.
Qed.

(** C3 (amended).  For every typed user record whose predicted activity is
    computable in binary64, [calculate_metrics] classifies at the stated
    boundaries: heart_rate 60 and 100 are Optimal, 101 is Above Optimal, below
    60 is Below Optimal; environmental_index 75 is Good, 74.999 is Moderate,
    below 50 is Poor; ambient_temperature 25, and the whole range 15..25, is
    Ideal Temperature, 25.01 is Too Hot, below 15 is Too Cold. *)
Theorem C3_boundaries d u :
  holds d u -> well_typed u -> activity_computable u ->
  exists m x t,
    calculate_metrics (VDict d) = Ok m /\
    real_of (environmental_index u) = Some x /\
    real_of (ambient_temperature u) = Some t /\
    let hr := heart_rate u in
    let category := heart_rate_category (calcs m) in
    let quality := environmental_quality (calcs m) in
    let impact := temperature_impact (calcs m) in
    (hr = 60 -> category = "Optimal") /\
    (hr = 100 -> category = "Optimal") /\
    (hr = 101 -> category = "Above Optimal") /\
    (hr < 60 -> category = "Below Optimal") /\
    (60 <= hr <= 100 -> category = "Optimal") /\
    (100 < hr -> category = "Above Optimal") /\
    (x == 75 -> quality = "Good")%Q /\
    (environmental_index u = NFloat (decimal false 74999 (-3)) ->
     quality = "Moderate") /\
    (x < 50 -> quality = "Poor")%Q /\
    (75 <= x -> quality = "Good")%Q /\
    (50 <= x < 75 -> quality = "Moderate")%Q /\
    (t == 25 -> impact = "Ideal Temperature")%Q /\
    (15 <= t <= 25 -> impact = "Ideal Temperature")%Q /\
    (ambient_temperature u = NFloat (decimal false 2501 (-2)) ->
     impact = "Too Hot") /\
    (t < 15 -> impact = "Too Cold")%Q /\
    (25 < t -> impact = "Too Hot")%Q.
Proof.
  intros Hd Hw Hc.
  destruct (calculate_metrics_typed d u Hd Hw Hc)
    as (p & q & x & t & _ & _ & Hx & Ht & Hm).
  eexists; exists x, t. split; [exact Hm|]. split; [exact Hx|]. split; [exact Ht|].
  cbn [calcs typed_calcs heart_rate_category environmental_quality
       temperature_impact].
  unfold spec_heart_rate_category, spec_environmental_quality,
    spec_temperature_impact.
  assert (Hgood : (75 <= x)%Q -> Qle_bool 75 x = true) by apply Qle_bool_true.
  assert (Hnot75 : (x < 75)%Q -> Qle_bool 75 x = false) by apply Qle_bool_false.
  assert (Hmod : (50 <= x)%Q -> Qle_bool 50 x = true) by apply Qle_bool_true.
  assert (Hnot50 : (x < 50)%Q -> Qle_bool 50 x = false) by apply Qle_bool_false.
  assert (Hlo : (15 <= t)%Q -> Qle_bool 15 t = true) by apply Qle_bool_true.
  assert (Hnot15 : (t < 15)%Q -> Qle_bool 15 t = false) by apply Qle_bool_false.
  assert (Hhi : (t <= 25)%Q -> Qle_bool t 25 = true) by apply Qle_bool_true.
  assert (Hnot25 : (25 < t)%Q -> Qle_bool t 25 = false) by apply Qle_bool_false.
  repeat split.
  - intros ->. reflexivity.
  - intros ->. reflexivity.
  - intros ->. reflexivity.
  - intros H. apply Z.ltb_lt in H. now rewrite H.
  - intros [H1 H2]. apply Z.ltb_ge in H1. apply Z.leb_le in H2. now rewrite H1, H2.
  - intros H. assert (H1 : 60 <= heart_rate u) by lia.
    apply Z.ltb_ge in H1. apply Z.leb_gt in H. now rewrite H1, H.
  - intros H. rewrite Hgood; [reflexivity|]. rewrite H. apply Qle_refl.
  - intros H. rewrite H in Hx. vm_compute in Hx. injection Hx as <-.
    vm_compute. reflexivity.
  - intros H. rewrite Hnot75, Hnot50; [reflexivity|exact H|].
    eapply Qlt_trans; [exact H|]. reflexivity.
  - intros H. now rewrite Hgood.
  - intros [H1 H2]. now rewrite Hnot75, Hmod.
  - intros H. rewrite Hlo, Hhi; [reflexivity| |]; rewrite H;
      [apply Qle_refl|unfold Qle; cbn; lia].
  - intros [H1 H2]. now rewrite Hlo, Hhi.
  - intros H. rewrite H in Ht. vm_compute in Ht. injection Ht as <-.
    vm_compute. reflexivity.
  - intros H. now rewrite Hnot15.
  - intros H. rewrite Hlo, Hnot25; [reflexivity|exact H|].
    apply Qlt_le_weak. eapply Qlt_trans; [|exact H]. reflexivity.
Qed.

Lemma C3_boundaries_witness :
  exists m x t,
    calculate_metrics (VDict (record_of u_edge)) = Ok m /\
    real_of (environmental_index u_edge) = Some x /\
    real_of (ambient_temperature u_edge) = Some t /\
    let hr := heart_rate u_edge in
    let category := heart_rate_category (calcs m) in
    let quality := environmental_quality (calcs m) in
    let impact := temperature_impact (calcs m) in
    (hr = 60 -> category = "Optimal") /\
    (hr = 100 -> category = "Optimal") /\
    (hr = 101 -> category = "Above Optimal") /\
    (hr < 60 -> category = "Below Optimal") /\
    (60 <= hr <= 100 -> category = "Optimal") /\
    (100 < hr -> category = "Above Optimal") /\
    (x == 75 -> quality = "Good")%Q /\
    (environmental_index u_edge = NFloat (decimal false 74999 (-3)) ->
     quality = "Moderate") /\
    (x < 50 -> quality = "Poor")%Q /\
    (75 <= x -> quality = "Good")%Q /\
    (50 <= x < 75 -> quality = "Moderate")%Q /\
    (t == 25 -> impact = "Ideal Temperature")%Q /\
    (15 <= t <= 25 -> impact = "Ideal Temperature")%Q /\
    (ambient_temperature u_edge = NFloat (decimal false 2501 (-2)) ->
     impact = "Too Hot") /\
    (t < 15 -> impact = "Too Cold")%Q /\
    (25 < t -> impact = "Too Hot")%Q.
Proof.
  apply (C3_boundaries (record_of u_edge) u_edge).
  - apply holds_record_of.
  - exact u_edge_well_typed.
  - vm_compute. reflexivity.
Defined.

(** ** C4: validated input on which the engine fails *)

(** C4 (the code at two failing inputs).  A JSON user object whose
    [current_steps] is the string "5000" passes [validate_data], whose check
    is [int("5000") > 0], and then makes [calculate_metrics] raise [TypeError]
    at [current_steps * activity_intensity_factor]; [process_data] raises with
    it.  A comma-separated batch whose step count has 309 digits passes
    [validate_data] too and makes [calculate_metrics] raise [OverflowError]. *)
Theorem C4_validated_input_fails :
  (exists report details,
     validate_data (VList [VDict steps_as_text]) = Ok (true, report, details)) /\
  calculate_metrics (VDict steps_as_text) = Raise TypeError /\
  process_data sample_json plain_csv plain_str steps_as_text_json
  = Raise TypeError /\
  (exists report details,
     validate_data (parse_input_data sample_json plain_csv huge_steps_csv)
     = Ok (true, report, details)) /\
  process_data sample_json plain_csv plain_str huge_steps_csv
  = Raise OverflowError.
Proof.
  split; [do 2 eexists; vm_compute; reflexivity|].
  split; [vm_compute; reflexivity|].
  split; [vm_compute; reflexivity|].
  split; [do 2 eexists; vm_compute; reflexivity|].
  vm_compute; reflexivity.
Qed.

(** ** C5: all-or-nothing validation *)

Section Atomicity.

Variable json_loads : string -> result dict.
Variable csv_reader : string -> result (list (list string)).
Variable to_str : value -> string.

(** C5.  Validation is all-or-nothing over the batch: whenever
    [validate_data] returns passed = false for the parsed batch because it
    recorded an error for at least one record, [process_data] returns exactly
    the validation report and makes no call to [calculate_metrics] or
    [generate_report], for any record of the batch. *)
Theorem C5_all_or_nothing data_str report details :
  validate_data (parse_input_data json_loads csv_reader data_str)
  = Ok (false, report, details) ->
  errors details <> [] ->
  process_data_log json_loads csv_reader to_str data_str = ([], Ok report) /\
  process_data json_loads csv_reader to_str data_str = Ok report.
Proof.
  intros Hv Herr.
  assert (Hlog : process_data_log json_loads csv_reader to_str data_str
                 = ([], Ok report)).
  { unfold process_data_log.
    rewrite (validate_errors_truthy _ _ _ _ Hv Herr). cbn [negb].
    rewrite Hv. reflexivity. }
  split; [exact Hlog|]. unfold process_data. now rewrite Hlog.
Qed.

End Atomicity.

Lemma C5_all_or_nothing_witness :
  exists report,
    process_data_log sample_json plain_csv plain_str mixed_batch_csv
    = ([], Ok report) /\
    process_data sample_json plain_csv plain_str mixed_batch_csv = Ok report.
Proof.
  eexists.
  eapply (C5_all_or_nothing sample_json plain_csv plain_str).
  - vm_compute. reflexivity.
  - discriminate.
Defined.

(** ** C6: missing required fields *)

(** C6 (the code at a failing input, and where the claim holds).
    [batch_with_infinity] has a record that lacks five of the required fields,
    yet [validate_data] returns no verdict for it: the second record makes
    [int()] raise [OverflowError], which [except (ValueError, TypeError)] does
    not catch.  On every batch of mappings in which no complete record makes a
    conversion overflow, the claim holds: [validate_data] returns
    passed = false, and each record that lacks required fields contributes
    exactly one error string, naming its absent fields and its row number,
    which is a line of the report; its type and range checks are skipped. *)
Theorem C6_missing_fields :
  validate_data (VList batch_with_infinity) = Raise OverflowError /\
  forall records,
    Forall checkable records ->
    Exists (fun record => exists d, record = VDict d /\ absent_fields d <> [])
           records ->
    exists report details per_record,
      validate_data (VList records) = Ok (false, report, details) /\
      errors details = List.concat per_record /\
      List.length per_record = List.length records /\
      forall j d,
        nth_error records j = Some (VDict d) -> absent_fields d <> [] ->
        let message :=
          "ERROR: Missing required field(s): " +++ join ", " (absent_fields d)
          +++ " in row " +++ str_of_int (Z.of_nat j + 1) +++ "." in
        nth_error per_record j = Some [message] /\
        In message (errors details) /\
        exists before after,
          report = before +++ "- " +++ message +++ nl +++ after.
Proof.
  split; [vm_compute; reflexivity|].
  intros records Hall Hex.
  assert (Hdicts : Forall (fun record => exists d, record = VDict d) records).
  { eapply Forall_impl; [|exact Hall]. intros r (d & -> & _). now exists d. }
  destruct (check_records_checkable records 0 Hall) as (per & Hper & Hlen & Hnth).
  destruct (fields_check_of_dicts records Hdicts) as (checks & Hfc).
  assert (Hin : forall j d,
             nth_error records j = Some (VDict d) -> absent_fields d <> [] ->
             In (missing_error (absent_fields d) (Z.of_nat j + 1))
                (List.concat per)).
  { intros j d Hj Habs. apply in_concat.
    exists [missing_error (absent_fields d) (Z.of_nat j + 1)].
    split; [|now left]. apply nth_error_In with (n := j).
    rewrite (Hnth j d Hj Habs). reflexivity. }
  assert (Hne : List.concat per <> []).
  { apply Exists_exists in Hex as (r & Hr & d & -> & Habs).
    apply In_nth_error in Hr as (j & Hj).
    intros E. specialize (Hin j d Hj Habs). rewrite E in Hin. exact Hin. }
  unfold validate_data. cbn [len bind iter].
  destruct records as [|r rest].
  { apply Exists_exists in Hex as (r & Hr & _). now elim Hr. }
  replace (Z.of_nat (List.length (r :: rest)) =? 0) with false
    by (symmetry; apply Z.eqb_neq; cbn [List.length]; lia).
  rewrite Hper. cbn [bind]. rewrite Hfc. cbn [bind].
  replace (Z.of_nat (List.length (List.concat per)) =? 0) with false.
  2:{ symmetry. apply Z.eqb_neq. destruct (List.concat per); [now elim Hne|].
      cbn [List.length]. lia. }
  do 2 eexists. exists per. split; [reflexivity|]. cbn [errors].
  split; [reflexivity|]. split; [exact Hlen|].
  intros j d Hj Habs. cbv zeta.
  change ("ERROR: Missing required field(s): " +++ join ", " (absent_fields d)
          +++ " in row " +++ str_of_int (Z.of_nat j + 1) +++ ".")
    with (missing_error (absent_fields d) (Z.of_nat j + 1)).
  split; [exact (Hnth j d Hj Habs)|]. split; [exact (Hin j d Hj Habs)|].
  apply report_lists_errors. cbn [errors]. exact (Hin j d Hj Habs).
Qed.

Lemma C6_missing_fields_witness :
  exists report details,
    validate_data (VList batch_with_gaps) = Ok (false, report, details) /\
    In "ERROR: Missing required field(s): ambient_temperature, activity_intensity_factor in row 2."
       (errors details) /\
    List.length (errors details) = 2%nat.
Proof.
  destruct (proj2 C6_missing_fields batch_with_gaps)
    as (report & details & per & Hv & Herr & Hlen & Hrows).
  - repeat constructor; eexists; (split; [reflexivity|]);
      intros _; vm_compute; reflexivity.
  - apply Exists_cons_tl, Exists_cons_hd. eexists. split; [reflexivity|].
    vm_compute. discriminate.
  - exists report, details. split; [exact Hv|].
    split.
    + refine (proj1 (proj2 (Hrows 1%nat _ eq_refl _))). vm_compute. discriminate.
    + assert (E : validate_data (VList batch_with_gaps)
                  = Ok (false, report, details)) by exact Hv.
      vm_compute in E. injection E as _ <-. reflexivity.
Defined.

(** ** C7: well-typed batches pass *)

(** C7 (as stated, refuted).  A one-record batch that satisfies every type
    and range rule, its ambient temperature being the integer 2^1024:
    [validate_data] does not return, [float()] raises [OverflowError], which
    the [except (ValueError, TypeError)] clause lets through. *)
Lemma C7_counterexample :
  type_rules u_hot /\
  holds (record_of u_hot) u_hot /\
  validate_data (VList [VDict (record_of u_hot)]) = Raise OverflowError.
Proof.
  split; [|split; [apply holds_record_of | vm_compute; reflexivity]].
  unfold type_rules; cbn;
    repeat match goal with
           | |- _ /\ _ => split
           | |- exists _, _ => eexists
           | |- Some _ = Some _ => reflexivity
           | |- (_ <= _)%Q => unfold Qle; cbn; lia
           | |- (_ < _)%Q => unfold Qlt; cbn; lia
           | |- (_ < _)%Z => reflexivity
           end.
Qed.

(** C7 (amended).  For every non-empty batch whose records each contain all
    six required fields with values satisfying the type and range rules
    (user_id a string, current_steps and heart_rate positive integers,
    ambient_temperature a real, environmental_index a real in [0, 100],
    activity_intensity_factor a positive real), a real given as an integer
    being of magnitude below 2^1024 - 2^970, [validate_data] returns
    passed = true and an empty list of error strings. *)
Theorem C7_valid_batch_passes records :
  records <> [] ->
  Forall valid_record records ->
  exists report details,
    validate_data (VList records) = Ok (true, report, details) /\
    errors details = [].
Proof.
  intros Hne Hall.
  assert (Hdicts : Forall (fun record => exists d, record = VDict d) records).
  { eapply Forall_impl; [|exact Hall]. intros r (d & u & -> & _). now exists d. }
  assert (Hchecks : check_records records 0 = Ok []).
  { apply check_records_accepted. eapply Forall_impl; [|exact Hall].
    intros r (d & u & -> & Hd & Hu & Ct & Ca) row_num.
    apply check_record_accepts. split.
    - exact (holds_absent_fields d u Hd).
    - exact (valid_record_checks d u Hd Hu Ct Ca). }
  destruct (fields_check_of_dicts records Hdicts) as (checks & Hfc).
  unfold validate_data. cbn [len bind iter].
  destruct records as [|r rest]; [now elim Hne|].
  replace (Z.of_nat (List.length (r :: rest)) =? 0) with false
    by (symmetry; apply Z.eqb_neq; cbn [List.length]; lia).
  rewrite Hchecks. cbn [bind]. rewrite Hfc. cbn [bind].
  do 2 eexists. split; reflexivity.
Qed.

Lemma C7_valid_batch_passes_witness :
  exists report details,
    validate_data (VList [VDict (record_of u1); VDict (record_of u1_csv)])
    = Ok (true, report, details) /\
    errors details = [].
Proof.
  apply C7_valid_batch_passes; [discriminate|].
  repeat constructor.
  - exists (record_of u1), u1. split; [reflexivity|].
    split; [apply holds_record_of|]. split; [apply u1_well_typed|].
    split; [vm_compute; reflexivity | exact I].
  - exists (record_of u1_csv), u1_csv. split; [reflexivity|].
    split; [apply holds_record_of|]. split; [apply u1_csv_well_typed|].
    split; exact I.
Defined.

(** ** C8: records keyed by header name *)

Section HeaderKeys.

Variable json_loads : string -> result dict.
Variable csv_reader : string -> result (list (list string)).

(** C8 (amended).  Delimited-text parsing keys values by header name, not by
    position, when the trimmed header names are pairwise distinct: every row
    with as many fields as the header yields a record that maps each trimmed
    header name to the cell of its column (converted to a number for the five
    numeric names when the text parses) and has no other key; every other row
    yields no record and no error; and rearranging the header columns, each
    row rearranged the same way, yields the same sequence of records. *)
Theorem C8_keyed_by_header data_str header rows :
  startswith (strip data_str) "{" = false ->
  is_substring "," (strip data_str) = true ->
  csv_reader (strip data_str) = Ok (header :: rows) ->
  NoDup (map strip header) ->
  (exists records,
     parse_input_data json_loads csv_reader data_str = VList (map VDict records) /\
     Forall2 (fun record row => keyed_by (map strip header) row record)
             records (accepted_rows header rows)) /\
  (forall data_str' p,
     Forall (fun row => List.length row = List.length header) rows ->
     Permutation p (seq 0 (List.length header)) ->
     startswith (strip data_str') "{" = false ->
     is_substring "," (strip data_str') = true ->
     csv_reader (strip data_str') = Ok (permute p header :: map (permute p) rows) ->
     exists records records',
       parse_input_data json_loads csv_reader data_str = VList (map VDict records) /\
       parse_input_data json_loads csv_reader data_str' = VList (map VDict records') /\
       List.length records = List.length rows /\
       Forall2 same_mapping records records').
Proof.
  intros Hb Hc Hcsv Hnd.
  destruct (parse_csv_keyed json_loads csv_reader data_str header rows Hb Hc Hcsv Hnd)
    as (records & Hparse & Hkeyed).
  split; [now exists records|].
  intros data_str' p Harity Hp Hb' Hc' Hcsv'.
  assert (Hplen : List.length p = List.length header).
  { rewrite (Permutation_length Hp). apply length_seq. }
  assert (Hp' : Permutation p (seq 0 (List.length (map strip header))))
    by now rewrite length_map.
  assert (Hnd' : NoDup (map strip (permute p header))).
  { rewrite permute_map_strip.
    eapply Permutation_NoDup; [|exact Hnd].
    apply Permutation_sym, permute_permutation. exact Hp'. }
  destruct (parse_csv_keyed json_loads csv_reader data_str' (permute p header)
              (map (permute p) rows)
              Hb' Hc' Hcsv' Hnd') as (records' & Hparse' & Hkeyed').
  assert (Hacc : accepted_rows header rows = rows).
  { apply filter_all. eapply Forall_impl; [|exact Harity].
    intros row Hrow. now apply Nat.eqb_eq. }
  assert (Hacc' : accepted_rows (permute p header) (map (permute p) rows)
                  = map (permute p) rows).
  { apply filter_all. apply Forall_map. apply Forall_forall. intros row _.
    apply Nat.eqb_eq. now rewrite !permute_length. }
  rewrite Hacc in Hkeyed. rewrite Hacc' in Hkeyed'.
  exists records, records'. split; [exact Hparse|]. split; [exact Hparse'|].
  split; [exact (Forall2_length Hkeyed)|].
  eapply Forall2_through; [|exact Hkeyed|exact Hkeyed'].
  intros record record' row Hrow Hk Hk'.
  assert (Hlen : List.length (map strip header) = List.length row).
  { rewrite length_map. symmetry.
    exact (proj1 (Forall_forall _ rows) Harity row Hrow). }
  apply (keyed_by_same_mapping (map strip header) row); [exact Hlen | exact Hk |].
  apply (keyed_by_permute p); [exact Hlen | exact Hp' |].
  now rewrite <- permute_map_strip.
Qed.

End HeaderKeys.

(** C8 (as stated, refuted).  With a header name that occurs twice, position
    matters: the record keeps the cell of the last column that carries the
    name, so exchanging the two columns of header and row changes the record,
    and the record does not map the name to the cell of its first column. *)
Lemma C8_counterexample :
  plain_csv twin_columns_csv = Ok [ ["a"; "a"]; ["1"; "2"] ] /\
  plain_csv twin_columns_swapped_csv
  = Ok [ permute [1; 0]%nat ["a"; "a"]; permute [1; 0]%nat ["1"; "2"] ] /\
  Permutation [1; 0]%nat (seq 0 2) /\
  parse_input_data sample_json plain_csv twin_columns_csv
  = VList [ VDict [ ("a", VStr "2") ] ] /\
  parse_input_data sample_json plain_csv twin_columns_swapped_csv
  = VList [ VDict [ ("a", VStr "1") ] ] /\
  ~ same_mapping [ ("a", VStr "2") ] [ ("a", VStr "1") ].
Proof.
  split; [reflexivity|]. split; [reflexivity|].
  split; [apply perm_swap|]. split; [reflexivity|]. split; [reflexivity|].
  intros H. specialize (H "a"). discriminate H.
Qed.

Lemma C8_keyed_by_header_witness :
  (exists records,
     parse_input_data sample_json plain_csv ragged_csv = VList (map VDict records) /\
     Forall2 (fun record row => keyed_by ["user_id"; "current_steps"] row record)
             records [ ["U1"; "7100"] ]) /\
  (exists records records',
     parse_input_data sample_json plain_csv two_rows_csv
     = VList (map VDict records) /\
     parse_input_data sample_json plain_csv two_rows_swapped_csv
     = VList (map VDict records') /\
     List.length records = 2%nat /\
     Forall2 same_mapping records records').
Proof.
  split.
  - refine (proj1 (C8_keyed_by_header sample_json plain_csv ragged_csv
                     ["user_id"; " current_steps"] [ ["U1"; "7100"]; ["U2"] ]
                     eq_refl eq_refl eq_refl _)).
    repeat constructor; cbn; intuition discriminate.
  - refine (proj2 (C8_keyed_by_header sample_json plain_csv two_rows_csv
                     ["user_id"; "current_steps"]
                     [ ["U1"; "7100"]; ["U2"; "8200"] ]
                     eq_refl eq_refl eq_refl _)
                  two_rows_swapped_csv [1; 0]%nat _ _ eq_refl eq_refl eq_refl).
    + repeat constructor; cbn; intuition discriminate.
    + repeat constructor.
    + apply perm_swap.
Defined.

(** ** C9: unparseable input *)

Section FormatError.

Variable json_loads : string -> result dict.
Variable csv_reader : string -> result (list (list string)).
Variable to_str : value -> string.

(** C9.  An input that, once trimmed, neither starts with an opening brace
    nor contains a comma, or whose parsing raises an exception, is parsed to
    the empty sequence; and whenever the parse result is empty,
    [process_data] returns the fixed format error and calls neither the
    engine nor the renderer. *)
Theorem C9_format_error data_str :
  (startswith (strip data_str) "{" = false /\
   is_substring "," (strip data_str) = false \/
   (exists e, parse_body json_loads csv_reader (strip data_str) = Raise e) ->
   parse_input_data json_loads csv_reader data_str = VList []) /\
  (parse_input_data json_loads csv_reader data_str = VList [] ->
   process_data_log json_loads csv_reader to_str data_str
   = ([], Ok "ERROR: Invalid data format. Please provide data in CSV or JSON format.") /\
   process_data json_loads csv_reader to_str data_str
   = Ok "ERROR: Invalid data format. Please provide data in CSV or JSON format.").
Proof.
  split.
  - unfold parse_input_data. intros [[Hb Hc] | [e He]].
    + unfold parse_body. now rewrite Hb, Hc.
    + now rewrite He.
  - intros H. unfold process_data, process_data_log. rewrite H. split; reflexivity.
Qed.

End FormatError.

Lemma C9_format_error_witness :
  parse_input_data sample_json plain_csv "  no data here  " = VList [] /\
  process_data sample_json plain_csv plain_str "  no data here  "
  = Ok "ERROR: Invalid data format. Please provide data in CSV or JSON format.".
Proof.
  destruct (C9_format_error sample_json plain_csv plain_str "  no data here  ")
    as [Hparse Hprocess].
  assert (H : parse_input_data sample_json plain_csv "  no data here  " = VList []).
  { apply Hparse. left. split; reflexivity. }
  split; [exact H|]. exact (proj2 (Hprocess H)).
Defined.

(** ** C10: coercion checks *)

(** C10.  The type checks of [validate_data] are coercion checks: a record
    that contains all six fields is accepted (the loop appends no error for
    it) exactly when [user_id] is a [str], [int()] converts [current_steps]
    and [heart_rate] to positive integers, and [float()] converts the three
    other fields within their bounds.  So numbers given as parseable text
    (current_steps = "5000"), a fractional heart rate (80.7, truncated to 80
    for the test only) and the empty user id are all accepted, as on
    [coerced_record], for which the whole batch passes. *)
Theorem C10_coercion_checks d row_num :
  absent_fields d = [] ->
  (check_record (VDict d) row_num = Ok [] <-> coercion_checks d) /\
  (forall text n, int_of_string text = Ok n -> 0 < n ->
     invalid_positive_int (VDict (dict_set "current_steps" (VStr text) d))
       "current_steps" = Ok false) /\
  int_of (VFloat (decimal false 807 (-1))) = Ok 80 /\
  check_record (VDict coerced_record) row_num = Ok [] /\
  exists report details,
    validate_data (VList [VDict coerced_record]) = Ok (true, report, details) /\
    errors details = [].
Proof.
  intros Habsent. split; [|split; [|split; [|split]]].
  - rewrite check_record_accepts. tauto.
  - intros text n Hn Hpos. apply invalid_positive_int_false.
    exists (VStr text), n. repeat split; try assumption.
    clear. induction d as [|[k w] d' IH]; cbn.
    + reflexivity.
    + destruct (k =? "current_steps")%string eqn:E; cbn; rewrite E;
        [reflexivity | exact IH].
  - vm_compute. reflexivity.
  - apply check_record_accepts. split; [reflexivity|].
    unfold coercion_checks, coerced_record; cbn [lookup String.eqb Ascii.eqb Bool.eqb].
    repeat split; repeat eexists; vm_compute; reflexivity.
  - do 2 eexists. split; vm_compute; reflexivity.
Qed.

Lemma C10_coercion_checks_witness :
  coercion_checks coerced_record.
Proof.
  apply (proj1 (C10_coercion_checks coerced_record 1 eq_refl)).
  vm_compute. reflexivity.
Defined.

(** * Further properties of the methods *)

(** ** The verdict and the error strings of [validate_data] *)

Lemma length_chars s : List.length (chars s) = String.length s.
Proof.
  unfold chars. rewrite length_map. induction s; cbn; congruence.
Qed.

Lemma len_iter data n :
  len data = Ok n ->
  exists records, iter data = Ok records /\ Z.of_nat (List.length records) = n.
Proof.
  destruct data; cbn; try discriminate; intros [= <-]; eexists; split;
    try reflexivity; now rewrite ?length_map, ?length_chars.
Qed.

Lemma check_records_nth records : forall i errs,
  check_records records i = Ok errs ->
  exists per_record,
    errs = List.concat per_record /\
    List.length per_record = List.length records /\
    forall j record,
      nth_error records j = Some record ->
      exists e, nth_error per_record j = Some e /\
                check_record record (i + Z.of_nat j + 1) = Ok e.
Proof.
  induction records as [|r rest IH]; intros i errs H.
  - cbn in H. injection H as <-. exists []. repeat split.
    intros [|j] record Hj; discriminate.
  - cbn [check_records] in H.
    apply bind_ok in H as (e & He & H).
    apply bind_ok in H as (more & Hm & H). injection H as <-.
    destruct (IH _ _ Hm) as (per & -> & Hlen & Hnth).
    exists (e :: per). split; [reflexivity|]. split; [cbn; congruence|].
    intros [|j] record Hj; cbn in Hj.
    + injection Hj as <-. exists e. split; [reflexivity|].
      now replace (i + Z.of_nat 0 + 1) with (i + 1) by lia.
    + destruct (Hnth j record Hj) as (e' & He' & Hc).
      exists e'. split; [exact He'|].
      now replace (i + Z.of_nat (S j) + 1) with (i + 1 + Z.of_nat j + 1) by lia.
Qed.

Lemma missing_fields_filter record fields missing :
  missing_fields_of record fields = Ok missing ->
  missing = filter (fun field => match contains record field with
                                 | Ok true => false
                                 | _ => true
                                 end) fields /\
  forall field, In field fields -> exists b, contains record field = Ok b.
Proof.
  revert missing. induction fields as [|f rest IH]; intros missing H.
  - cbn in H. injection H as <-. split; [reflexivity|]. intros ? [].
  - cbn [missing_fields_of] in H.
    apply bind_ok in H as (present & Hp & H).
    apply bind_ok in H as (m & Hm & H). injection H as <-.
    destruct (IH _ Hm) as [-> Hall]. split.
    + cbn [filter]. rewrite Hp. now destruct present.
    + intros field [<- | Hin]; [now exists present | now apply Hall].
Qed.

Lemma filter_flags (b1 b2 b3 b4 b5 b6 : bool) :
  flag b1 "user_id" ++ flag b2 "current_steps" ++ flag b3 "heart_rate"
  ++ flag b4 "ambient_temperature" ++ flag b5 "environmental_index"
  ++ flag b6 "activity_intensity_factor"
  = filter (fun field =>
              (field =? "user_id")%string && b1
              || (field =? "current_steps")%string && b2
              || (field =? "heart_rate")%string && b3
              || (field =? "ambient_temperature")%string && b4
              || (field =? "environmental_index")%string && b5
              || (field =? "activity_intensity_factor")%string && b6)
           required_fields.
Proof. now destruct b1, b2, b3, b4, b5, b6. Qed.

Lemma invalid_fields_filter record fields :
  invalid_fields_of record = Ok fields ->
  exists keep, fields = filter keep required_fields.
Proof.
  unfold invalid_fields_of. intros H.
  apply bind_ok in H as (u & _ & H).
  apply bind_ok in H as (i2 & _ & H).
  apply bind_ok in H as (i3 & _ & H).
  apply bind_ok in H as (i4 & _ & H).
  apply bind_ok in H as (i5 & _ & H).
  apply bind_ok in H as (i6 & _ & H).
  injection H as <-. eexists. apply filter_flags.
Qed.

Lemma check_record_errors record row_num errs :
  check_record record row_num = Ok errs ->
  errs = [] \/ exists e, errs = [e] /\ row_error row_num e.
Proof.
  unfold check_record. intros H.
  apply bind_ok in H as (missing & Hm & H).
  destruct missing as [|f fs] eqn:E.
  - apply bind_ok in H as (invalid & Hi & H).
    destruct invalid as [|g gs] eqn:E'.
    + injection H as <-. now left.
    + injection H as <-. right. eexists. split; [reflexivity|].
      destruct (invalid_fields_filter _ _ Hi) as (keep & Hk).
      exists keep. cbv zeta. rewrite <- Hk. split; [discriminate | now right].
  - injection H as <-. right. eexists. split; [reflexivity|].
    destruct (missing_fields_filter _ _ _ Hm) as [Hk _].
    eexists. cbv zeta. rewrite <- Hk. split; [discriminate | now left].
Qed.

Lemma length_concat_le {A : Type} (l : list (list A)) :
  Forall (fun x => (List.length x <= 1)%nat) l ->
  (List.length (List.concat l) <= List.length l)%nat.
Proof.
  induction 1; cbn; [lia|]. rewrite length_app. lia.
Qed.

(** X1.  Whenever [validate_data] returns, the user count it records is the
    length of the batch, and the verdict is "passed" exactly when no error
    string was collected and the batch is not empty.  The empty batch is the
    one case that fails with an empty error list: its report is the fixed
    text "ERROR: No data provided." and its presence table is empty. *)
Theorem validate_data_verdict data passed report details :
  validate_data data = Ok (passed, report, details) ->
  len data = Ok (num_users details) /\
  (passed = true <-> errors details = [] /\ num_users details <> 0) /\
  (num_users details = 0 ->
   report = "ERROR: No data provided." /\
   fields_check details = [] /\ errors details = []).
Proof.
  unfold validate_data. intros H.
  apply bind_ok in H as (n & Hn & H).
  destruct (n =? 0) eqn:E.
  - injection H as <- <- <-. cbn. apply Z.eqb_eq in E. subst n.
    repeat split; try easy; try (intros [_ ?]; lia).
  - apply bind_ok in H as (records & Hr & H).
    apply bind_ok in H as (errs & He & H).
    apply bind_ok in H as (checks & Hc & H).
    injection H as <- <- <-. cbn. apply Z.eqb_neq in E.
    split; [exact Hn|]. split; [|lia].
    destruct errs; cbn; split; try easy; try (intros [? _]; discriminate).
Qed.

Lemma validate_data_verdict_witness :
  exists report details,
    validate_data (VList batch_with_gaps) = Ok (false, report, details) /\
    len (VList batch_with_gaps) = Ok (num_users details) /\
    (false = true <-> errors details = [] /\ num_users details <> 0) /\
    (num_users details = 0 ->
     report = "ERROR: No data provided." /\
     fields_check details = [] /\ errors details = []).
Proof.
  do 2 eexists. split; [vm_compute; reflexivity|].
  apply (validate_data_verdict (VList batch_with_gaps) false).
  vm_compute. reflexivity.
Defined.

(** X2.  Whenever [validate_data] returns, its error list is made of the
    records' contributions in row order, and each record contributes either
    nothing or exactly one error string: the missing-field message or the
    invalid-value message for its row number (counted from 1), naming a
    non-empty selection of the required fields in their fixed order.  So
    there are never more error strings than records. *)
Theorem validate_data_one_error_per_row data passed report details :
  validate_data data = Ok (passed, report, details) ->
  exists per_record,
    errors details = List.concat per_record /\
    Z.of_nat (List.length per_record) = num_users details /\
    (forall j errs,
       nth_error per_record j = Some errs ->
       errs = [] \/ exists e, errs = [e] /\ row_error (Z.of_nat j + 1) e) /\
    Z.of_nat (List.length (errors details)) <= num_users details.
Proof.
  unfold validate_data. intros H.
  apply bind_ok in H as (n & Hn & H).
  destruct (n =? 0) eqn:E.
  - injection H as <- <- <-. cbn. apply Z.eqb_eq in E. subst n.
    exists []. repeat split; try easy. intros [|j] errs Hj; discriminate.
  - apply bind_ok in H as (records & Hr & H).
    apply bind_ok in H as (errs & He & H).
    apply bind_ok in H as (checks & Hc & H).
    injection H as <- <- <-. cbn.
    destruct (len_iter _ _ Hn) as (records' & Hr' & Hlen).
    rewrite Hr in Hr'. injection Hr' as <-.
    destruct (check_records_nth _ _ _ He) as (per & -> & Hl & Hnth).
    assert (Hshape : forall j errs,
               nth_error per j = Some errs ->
               errs = [] \/ exists e, errs = [e] /\ row_error (Z.of_nat j + 1) e).
    { intros j errs Hj.
      assert (Hlt : (j < List.length records)%nat).
      { rewrite <- Hl. apply nth_error_Some. congruence. }
      destruct (nth_error records j) as [r|] eqn:Er;
        [|apply nth_error_None in Er; lia].
      destruct (Hnth j r Er) as (e & He' & Hc').
      rewrite Hj in He'. injection He' as <-.
      exact (check_record_errors _ _ _ Hc'). }
    exists per. split; [reflexivity|]. split; [lia|]. split; [exact Hshape|].
    rewrite <- Hlen, <- Hl. apply inj_le, length_concat_le.
    apply Forall_forall. intros errs Hin.
    apply In_nth_error in Hin as (j & Hj).
    destruct (Hshape j errs Hj) as [-> | (e & -> & _)]; cbn; lia.
Qed.

Lemma validate_data_one_error_per_row_witness :
  exists report details per_record,
    validate_data (VList batch_with_gaps) = Ok (false, report, details) /\
    errors details = List.concat per_record /\
    Z.of_nat (List.length per_record) = num_users details /\
    (forall j errs,
       nth_error per_record j = Some errs ->
       errs = [] \/ exists e, errs = [e] /\ row_error (Z.of_nat j + 1) e) /\
    Z.of_nat (List.length (errors details)) <= num_users details.
Proof.
  destruct (validate_data (VList batch_with_gaps)) as [[[passed report] details]|]
    eqn:E; [|vm_compute in E; discriminate].
  assert (Hp : passed = false) by (vm_compute in E; congruence).
  subst passed.
  destruct (validate_data_one_error_per_row _ _ _ _ E) as (per & H).
  exists report, details, per. split; [reflexivity | exact H].
Defined.

(** ** The presence table, and the report of a batch that passed *)

Lemma mapM_Forall2 {A B : Type} (f : A -> result B) (l : list A) : forall bs,
  mapM f l = Ok bs -> Forall2 (fun a b => f a = Ok b) l bs.
Proof.
  induction l as [|a l IH]; intros bs H; cbn in H.
  - injection H as <-. constructor.
  - apply bind_ok in H as (b & Hb & H).
    apply bind_ok in H as (bs' & Hbs & H). injection H as <-.
    constructor; [exact Hb | now apply IH].
Qed.

Lemma check_records_nil records : forall i,
  check_records records i = Ok [] ->
  Forall (fun record => exists row_num, check_record record row_num = Ok [])
         records.
Proof.
  induction records as [|r rest IH]; intros i H; [constructor|].
  cbn [check_records] in H.
  apply bind_ok in H as (e & He & H).
  apply bind_ok in H as (more & Hm & H). injection H as H.
  apply app_eq_nil in H as [-> ->].
  constructor; [now exists (i + 1) | now apply (IH (i + 1))].
Qed.

Lemma check_record_nil_contains record row_num field :
  check_record record row_num = Ok [] ->
  In field required_fields -> contains record field = Ok true.
Proof.
  unfold check_record. intros H Hin.
  apply bind_ok in H as (missing & Hm & H).
  destruct missing; [|discriminate].
  destruct (missing_fields_filter _ _ _ Hm) as [Hf Hret].
  destruct (Hret field Hin) as ([|] & Hb); [exact Hb|].
  exfalso.
  assert (Hin' : In field (filter (fun field => match contains record field with
                                              | Ok true => false
                                              | _ => true
                                              end) required_fields)).
  { apply filter_In. split; [exact Hin|]. now rewrite Hb. }
  rewrite <- Hf in Hin'. exact Hin'.
Qed.

Lemma all_contain_true field records :
  Forall (fun record => contains record field = Ok true) records ->
  all_contain field records = Ok true.
Proof.
  induction 1 as [|r rest Hr _ IH]; cbn; [reflexivity|].
  now rewrite Hr; cbn.
Qed.

Lemma all_contain_forallb field ds :
  all_contain field (map VDict ds) = Ok (forallb (has_key field) ds).
Proof.
  induction ds as [|d ds IH]; cbn; [reflexivity|].
  destruct (has_key field d); cbn; [exact IH | reflexivity].
Qed.

Lemma lookup_Forall2 {A : Type} (f : string -> A) keys : forall kvs key,
  Forall2 (fun k kv => kv = (k, f k)) keys kvs ->
  In key keys -> lookup key kvs = Some (f key).
Proof.
  induction keys as [|k keys IH]; intros kvs key H Hin; [destruct Hin|].
  inversion H as [|? kv ? kvs' Hkv Hrest]; subst. cbn.
  destruct (String.eqb_spec k key) as [-> | Hne]; [reflexivity|].
  destruct Hin as [-> | Hin]; [now elim Hne | now apply IH].
Qed.

Lemma fields_check_of_inv records checks :
  fields_check_of records = Ok checks ->
  Forall2 (fun field fs =>
             exists every,
               all_contain field records = Ok every /\
               fs = (field, if every then "present" else "missing"))
          required_fields checks.
Proof.
  intros H. apply mapM_Forall2 in H.
  eapply Forall2_impl; [|exact H]. cbn. intros field fs Hf.
  apply bind_ok in Hf as (every & He & Hf). injection Hf as <-.
  now exists every.
Qed.

Lemma Forall2_map_fst {A B : Type} (P : A -> A * B -> Prop) l l' :
  Forall2 P l l' -> (forall a b, P a b -> fst b = a) -> map fst l' = l.
Proof.
  induction 1; intros HP; cbn; [reflexivity|].
  f_equal; [now apply HP | now apply IHForall2].
Qed.

Lemma Forall2_Forall_r {A B : Type} (P : A -> B -> Prop) (Q : B -> Prop) l l' :
  Forall2 P l l' -> (forall a b, In a l -> P a b -> Q b) -> Forall Q l'.
Proof.
  induction 1; intros HP; constructor.
  - eapply HP; [now left | eassumption].
  - apply IHForall2. intros a b Hin. apply HP. now right.
Qed.

Lemma Forall2_eq_map {A B : Type} (f : A -> B) l l' :
  Forall2 (fun a b => b = f a) l l' -> l' = map f l.
Proof. induction 1; cbn; congruence. Qed.

Lemma passed_fields_check records i checks :
  check_records records i = Ok [] ->
  fields_check_of records = Ok checks ->
  checks = map (fun field => (field, "present")) required_fields.
Proof.
  intros He Hc. apply fields_check_of_inv in Hc.
  apply Forall2_eq_map.
  assert (Hall : forall field, In field required_fields ->
                               all_contain field records = Ok true).
  { intros field Hin. apply all_contain_true.
    eapply Forall_impl; [|exact (check_records_nil _ _ He)].
    cbn. intros r (row & Hr).
    exact (check_record_nil_contains _ _ _ Hr Hin). }
  revert Hc Hall. generalize required_fields.
  intros fields Hc. induction Hc as [|f fs fields' checks' (every & He' & ->) _ IH];
    intros Hall; constructor.
  - rewrite (Hall f (or_introl eq_refl)) in He'. now injection He' as <-.
  - apply IH. intros field Hin. apply Hall. now right.
Qed.

(** X3.  Whenever [validate_data] returns on a non-empty batch, the presence
    table lists exactly the six required fields, in their fixed order, each
    marked "present" or "missing"; on a batch of mappings a field is
    "present" exactly when every record has the key.  A batch that passed
    has every field marked "present": a missing key always costs the
    verdict. *)
Theorem validate_data_presence_table data passed report details :
  validate_data data = Ok (passed, report, details) ->
  num_users details <> 0 ->
  map fst (fields_check details) = required_fields /\
  Forall (fun fs => snd fs = "present" \/ snd fs = "missing")
         (fields_check details) /\
  (passed = true ->
   Forall (fun fs => snd fs = "present") (fields_check details)) /\
  (forall ds field,
     data = VList (map VDict ds) -> In field required_fields ->
     lookup field (fields_check details)
     = Some (if forallb (has_key field) ds then "present" else "missing")).
Proof.
  unfold validate_data. intros H Hn.
  apply bind_ok in H as (n & Hlen & H).
  destruct (n =? 0) eqn:E.
  { injection H as <- <- <-. cbn in Hn. apply Z.eqb_eq in E. lia. }
  apply bind_ok in H as (records & Hr & H).
  apply bind_ok in H as (errs & He & H).
  apply bind_ok in H as (checks & Hc & H).
  injection H as <- <- <-. cbn [fields_check errors num_users] in *.
  pose proof (fields_check_of_inv _ _ Hc) as Hinv.
  split; [|split; [|split]].
  - eapply Forall2_map_fst; [exact Hinv|].
    now intros a b (every & _ & ->).
  - eapply Forall2_Forall_r; [exact Hinv|].
    intros a b _ (every & _ & ->). destruct every; cbn; tauto.
  - intros Hp. destruct errs; [|discriminate].
    rewrite (passed_fields_check _ _ _ He Hc).
    apply Forall_forall. intros fs Hin.
    apply in_map_iff in Hin as (f & <- & _). reflexivity.
  - intros ds field -> Hin. cbn in Hr. injection Hr as <-.
    apply (lookup_Forall2
             (fun f => if forallb (has_key f) ds then "present" else "missing")
             required_fields);
      [|exact Hin].
    eapply Forall2_impl; [|exact Hinv]. cbn.
    intros f fs (every & Hev & ->).
    rewrite all_contain_forallb in Hev. now injection Hev as <-.
Qed.

Lemma validate_data_presence_table_witness :
  exists report details,
    validate_data (VList batch_with_gaps) = Ok (false, report, details) /\
    map fst (fields_check details) = required_fields /\
    lookup "ambient_temperature" (fields_check details) = Some "missing" /\
    lookup "heart_rate" (fields_check details) = Some "present".
Proof.
  destruct (validate_data (VList batch_with_gaps)) as [[[passed report] details]|]
    eqn:E; [|vm_compute in E; discriminate].
  assert (Hp : passed = false) by (vm_compute in E; congruence).
  subst passed.
  assert (Hn : num_users details <> 0)
    by (vm_compute in E; injection E as _ <-; discriminate).
  destruct (validate_data_presence_table _ _ _ _ E Hn) as (Hk & _ & _ & Hl).
  exists report, details. split; [reflexivity|]. split; [exact Hk|].
  split.
  - exact (Hl (map (fun record => match record with VDict d => d | _ => [] end)
                   batch_with_gaps)
              "ambient_temperature" eq_refl
              (or_intror (or_intror (or_intror (or_introl eq_refl))))).
  - exact (Hl (map (fun record => match record with VDict d => d | _ => [] end)
                   batch_with_gaps)
              "heart_rate" eq_refl (or_intror (or_intror (or_introl eq_refl)))).
Defined.

(** X4.  The report of a batch that passed depends on nothing but the number
    of records: it is the fixed text [success_report], with the user count,
    the constant field count 6, six lines "valid" and the success message. *)
Theorem validate_data_success_report data report details :
  validate_data data = Ok (true, report, details) ->
  report = success_report (num_users details).
Proof.
  unfold validate_data. intros H.
  apply bind_ok in H as (n & Hlen & H).
  destruct (n =? 0) eqn:E; [discriminate|].
  apply bind_ok in H as (records & Hr & H).
  apply bind_ok in H as (errs & He & H).
  apply bind_ok in H as (checks & Hc & H).
  injection H as Hp <- <-. cbn [num_users].
  destruct errs; [|discriminate].
  rewrite (passed_fields_check _ _ _ He Hc).
  unfold _generate_validation_report, success_report.
  cbn [num_users fields_check errors map required_fields fold_left fst snd
       String.eqb Ascii.eqb Bool.eqb List.length Z.of_nat Pos.of_succ_nat Pos.succ].
  change (str_of_int 6) with "6".
  rewrite !append_assoc. reflexivity.
Qed.

Lemma validate_data_success_report_witness :
  exists report details,
    validate_data (VList [VDict (record_of u1); VDict (record_of u1_csv)])
    = Ok (true, report, details) /\
    report = success_report 2.
Proof.
  destruct (validate_data (VList [VDict (record_of u1); VDict (record_of u1_csv)]))
    as [[[passed report] details]|] eqn:E; [|vm_compute in E; discriminate].
  assert (Hp : passed = true) by (vm_compute in E; congruence).
  subst passed.
  assert (Hn : num_users details = 2)
    by (vm_compute in E; injection E as _ <-; reflexivity).
  exists report, details. split; [reflexivity|].
  rewrite <- Hn. exact (validate_data_success_report _ _ _ E).
Defined.

(** ** Range checks, NaN, and records that are no mappings *)

Lemma validate_data_list records errs checks :
  records <> [] ->
  check_records records 0 = Ok errs ->
  fields_check_of records = Ok checks ->
  let details := {| num_users := Z.of_nat (List.length records);
                    fields_check := checks; errors := errs |} in
  validate_data (VList records)
  = Ok (Z.of_nat (List.length errs) =? 0,
        _generate_validation_report details, details).
Proof.
  intros Hne He Hc. unfold validate_data. cbn [len iter bind].
  replace (Z.of_nat (List.length records) =? 0) with false
    by (symmetry; apply Z.eqb_neq; destruct records; [easy | cbn; lia]).
  rewrite He, Hc. reflexivity.
Qed.

Lemma checkable_dict records :
  Forall checkable records ->
  Forall (fun record => exists d, record = VDict d) records.
Proof.
  apply Forall_impl. intros r (d & -> & _). now exists d.
Qed.

Lemma invalid_env_index_cited d fields :
  invalid_fields_of (VDict d) = Ok fields ->
  invalid_env_index (VDict d) = Ok true ->
  In "environmental_index" fields.
Proof.
  unfold invalid_fields_of. intros H E.
  apply bind_ok in H as (u & _ & H).
  apply bind_ok in H as (i2 & _ & H).
  apply bind_ok in H as (i3 & _ & H).
  apply bind_ok in H as (i4 & _ & H).
  apply bind_ok in H as (i5 & H5 & H).
  apply bind_ok in H as (i6 & _ & H).
  injection H as <-. rewrite E in H5. injection H5 as <-.
  rewrite !in_app_iff. do 4 right. left. now left.
Qed.

Lemma out_of_range_compare f q :
  real_of_float f = Some q -> (q < 0 \/ 100 < q)%Q ->
  is_lt (float_compare_int f 0) || is_gt (float_compare_int f 100) = true.
Proof.
  intros Hf Hq.
  rewrite (float_compare_int_real f q 0 Hf), (float_compare_int_real f q 100 Hf).
  apply orb_true_iff. destruct Hq as [Hq | Hq]; [left | right].
  - assert (Hc : (q ?= inject_Z 0)%Q = Lt) by now apply Qlt_alt.
    now rewrite Hc.
  - assert (Hc : (q ?= inject_Z 100)%Q = Gt) by now apply Qgt_alt.
    now rewrite Hc.
Qed.

(** X5.  In a batch of mappings none of whose complete records makes a
    conversion overflow, a record with all six fields whose
    [environmental_index] converts to a float below 0 or above 100 makes
    validation fail, and the error string of its row is the invalid-value
    message, which names [environmental_index] and is a line of the
    report. *)
Theorem validate_data_env_index_range records j d v f q :
  Forall checkable records ->
  nth_error records j = Some (VDict d) ->
  absent_fields d = [] ->
  lookup "environmental_index" d = Some v ->
  float_of v = Ok f ->
  real_of_float f = Some q -> (q < 0 \/ 100 < q)%Q ->
  exists report details fields,
    validate_data (VList records) = Ok (false, report, details) /\
    In "environmental_index" fields /\
    let message :=
      "ERROR: Invalid value for the field(s): " +++ join ", " fields
      +++ " in row " +++ str_of_int (Z.of_nat j + 1)
      +++ ". Please correct and resubmit." in
    In message (errors details) /\
    exists before after, report = before +++ "- " +++ message +++ nl +++ after.
Proof.
  intros Hall Hj Habs Hv Hf Hq Hrange.
  destruct (check_records_checkable records 0 Hall) as (per & He & _ & _).
  destruct (check_records_nth _ _ _ He) as (per' & Hcat & _ & Hnth).
  destruct (Hnth j _ Hj) as (e & Hje & Hc).
  destruct (fields_check_of_dicts records (checkable_dict _ Hall)) as (checks & Hchk).
  assert (Hov : conversion_overflows d = false).
  { pose proof (proj1 (Forall_forall _ _) Hall (VDict d) (nth_error_In _ _ Hj))
      as (d' & [= <-] & Hd). exact (Hd Habs). }
  destruct (invalid_fields_of_returns d Habs Hov) as (fields & Hi).
  assert (Henv : invalid_env_index (VDict d) = Ok true).
  { unfold invalid_env_index. cbn [getitem]. rewrite Hv. cbn [bind].
    rewrite Hf. cbn [bind except_value_type].
    now rewrite (out_of_range_compare f q Hq Hrange). }
  pose proof (invalid_env_index_cited d fields Hi Henv) as Hin.
  assert (He' : e = [invalid_error fields (Z.of_nat j + 1)]).
  { unfold check_record in Hc. rewrite missing_fields_of_dict in Hc.
    fold (absent_fields d) in Hc. rewrite Habs in Hc. cbn [bind] in Hc.
    rewrite Hi in Hc. cbn [bind] in Hc.
    destruct fields; [destruct Hin|]. now injection Hc as <-. }
  assert (Hmem : In (invalid_error fields (Z.of_nat j + 1)) (List.concat per)).
  { rewrite Hcat. apply in_concat. exists e. split.
    - exact (nth_error_In _ _ Hje).
    - rewrite He'. now left. }
  assert (Hne : records <> []) by (intros ->; destruct j; discriminate).
  rewrite (validate_data_list _ _ _ Hne He Hchk).
  replace (Z.of_nat (List.length (List.concat per)) =? 0) with false.
  2:{ symmetry. apply Z.eqb_neq. destruct (List.concat per); [destruct Hmem|].
      cbn [List.length]. lia. }
  do 2 eexists. exists fields. split; [reflexivity|]. split; [exact Hin|].
  cbv zeta. cbn [errors].
  change ("ERROR: Invalid value for the field(s): " +++ join ", " fields
          +++ " in row " +++ str_of_int (Z.of_nat j + 1)
          +++ ". Please correct and resubmit.")
    with (invalid_error fields (Z.of_nat j + 1)).
  split; [exact Hmem|].
  now apply report_lists_errors.
Qed.

Lemma validate_data_env_index_range_witness :
  exists report details fields,
    validate_data (VList [VDict (record_of u1); VDict (record_of u_env_101)])
    = Ok (false, report, details) /\
    In "environmental_index" fields /\
    let message :=
      "ERROR: Invalid value for the field(s): " +++ join ", " fields
      +++ " in row " +++ str_of_int (Z.of_nat 1 + 1)
      +++ ". Please correct and resubmit." in
    In message (errors details) /\
    exists before after, report = before +++ "- " +++ message +++ nl +++ after.
Proof.
  eapply (validate_data_env_index_range
            [VDict (record_of u1); VDict (record_of u_env_101)] 1
            (record_of u_env_101) (VInt 101)).
  - repeat constructor; eexists; (split; [reflexivity|]);
      intros _; vm_compute; reflexivity.
  - reflexivity.
  - reflexivity.
  - reflexivity.
  - vm_compute. reflexivity.
  - vm_compute. reflexivity.
  - right. reflexivity.
Defined.

Lemma check_record_any_row record row_num row_num' :
  check_record record row_num = Ok [] -> check_record record row_num' = Ok [].
Proof.
  unfold check_record. intros H.
  apply bind_ok in H as (missing & -> & H). cbn [bind].
  destruct missing; [|discriminate].
  apply bind_ok in H as (invalid & -> & H). cbn [bind].
  destruct invalid; [reflexivity | discriminate].
Qed.

Lemma has_key_dict_set key field v d :
  has_key field d = true ->
  has_key key (dict_set field v d) = has_key key d.
Proof.
  unfold has_key. rewrite lookup_dict_set.
  destruct (String.eqb_spec field key) as [-> | _]; [|reflexivity].
  now destruct (lookup key d).
Qed.

Lemma absent_fields_nil d field :
  absent_fields d = [] -> In field required_fields -> has_key field d = true.
Proof.
  unfold absent_fields. intros H Hin.
  destruct (has_key field d) eqn:E; [reflexivity|].
  assert (Hf : In field (filter (fun field => negb (has_key field d)) required_fields))
    by (apply filter_In; now rewrite E).
  rewrite H in Hf. destruct Hf.
Qed.

Lemma absent_fields_dict_set d field v :
  absent_fields d = [] -> In field required_fields ->
  absent_fields (dict_set field v d) = [].
Proof.
  intros H Hin. unfold absent_fields in *.
  erewrite filter_ext; [exact H|].
  intros key. cbn. now rewrite has_key_dict_set by now apply absent_fields_nil.
Qed.

Lemma coercion_checks_nan d field :
  In field float_columns -> coercion_checks d ->
  coercion_checks (dict_set field (VFloat S754_nan) d).
Proof.
  unfold coercion_checks, float_columns.
  intros Hin (H1 & H2 & H3 & H4 & H5 & H6).
  rewrite !lookup_dict_set.
  destruct Hin as [<- | [<- | [<- | []]]];
    cbn [String.eqb Ascii.eqb Bool.eqb];
    repeat split; try assumption;
    exists (VFloat S754_nan), S754_nan; repeat split.
Qed.

Lemma float_columns_required field :
  In field float_columns -> In field required_fields.
Proof. cbn. intuition. Qed.

Lemma nan_variant_accepted record record' row_num :
  nan_variant record record' ->
  check_record record row_num = Ok [] ->
  forall row_num', check_record record' row_num' = Ok [].
Proof.
  intros [-> | (d & field & -> & Hin & ->)] H row'.
  - exact (check_record_any_row _ _ _ H).
  - apply check_record_accepts in H as [Habs Hc].
    apply check_record_accepts. split.
    + apply absent_fields_dict_set; [exact Habs|].
      now apply float_columns_required.
    + now apply coercion_checks_nan.
Qed.

(** X6.  The range checks do not reject a NaN: replacing, in any records of
    a batch that passed, one of [ambient_temperature], [environmental_index]
    or [activity_intensity_factor] by a float NaN gives a batch that passes
    too, with the same report and the same details (every comparison with a
    NaN is false). *)
Theorem validate_data_accepts_nan records records' report details :
  validate_data (VList records) = Ok (true, report, details) ->
  Forall2 nan_variant records records' ->
  validate_data (VList records') = Ok (true, report, details).
Proof.
  intros H Hv. unfold validate_data in H. cbn [len iter bind] in H.
  destruct (Z.of_nat (List.length records) =? 0) eqn:E; [discriminate|].
  apply bind_ok in H as (errs & He & H).
  apply bind_ok in H as (checks & Hc & H).
  injection H as Hp <- <-.
  destruct errs; [|discriminate].
  pose proof (passed_fields_check _ _ _ He Hc) as ->.
  assert (Hlen : List.length records' = List.length records)
    by (symmetry; exact (Forall2_length Hv)).
  assert (He' : check_records records' 0 = Ok []).
  { apply check_records_accepted.
    pose proof (check_records_nil _ _ He) as Hall.
    clear - Hall Hv. induction Hv as [|r r' rs rs' Hr _ IH]; [constructor|].
    inversion Hall as [|? ? (row & Hrow) Hrest]; subst.
    constructor; [|now apply IH].
    exact (nan_variant_accepted _ _ _ Hr Hrow). }
  assert (Hdicts : Forall (fun record => exists d, record = VDict d) records').
  { pose proof (check_records_nil _ _ He') as Hall.
    eapply Forall_impl; [|exact Hall]. cbn.
    intros r (row & Hr). destruct r as [| | | |s|l|d]; try discriminate Hr.
    - exfalso. unfold check_record in Hr.
      apply bind_ok in Hr as (m & _ & Hr). destruct m; [|discriminate].
      apply bind_ok in Hr as (i & Hi & _). discriminate Hi.
    - exfalso. unfold check_record in Hr.
      apply bind_ok in Hr as (m & _ & Hr). destruct m; [|discriminate].
      apply bind_ok in Hr as (i & Hi & _). discriminate Hi.
    - now exists d. }
  destruct (fields_check_of_dicts _ Hdicts) as (checks' & Hc').
  pose proof (passed_fields_check _ _ _ He' Hc') as ->.
  assert (Hne : records' <> []).
  { intros ->. rewrite <- Hlen in E. discriminate. }
  rewrite (validate_data_list _ _ _ Hne He' Hc'). now rewrite Hlen.
Qed.

Lemma validate_data_accepts_nan_witness :
  exists report details,
    validate_data
      (VList [VDict (dict_set "environmental_index" (VFloat S754_nan)
                              (record_of u1))])
    = Ok (true, report, details).
Proof.
  do 2 eexists.
  apply (validate_data_accepts_nan [VDict (record_of u1)]).
  - vm_compute. reflexivity.
  - constructor; [|constructor]. right.
    exists (record_of u1), "environmental_index".
    split; [reflexivity|]. split; [|reflexivity]. right. now left.
Defined.

Lemma unsized_check_record r row_num :
  unsized r = true -> check_record r row_num = Raise TypeError.
Proof. now destruct r. Qed.

Lemma check_records_unsized pre r post : forall i,
  Forall checkable pre -> unsized r = true ->
  check_records (pre ++ r :: post) i = Raise TypeError.
Proof.
  induction pre as [|p pre IH]; intros i Hall Hr.
  - cbn [app check_records]. now rewrite unsized_check_record.
  - inversion Hall as [|? ? (d & -> & Hd) Hrest]; subst.
    cbn [app check_records].
    destruct (check_record_checkable d (i + 1) Hd) as (errs & -> & _).
    cbn [bind]. now rewrite IH.
Qed.

Lemma validate_data_scalar data :
  unsized data = true -> validate_data data = Raise TypeError.
Proof. now destruct data. Qed.

(** X7.  A value that is [None], a [bool], an [int] or a [float] makes
    [validate_data] raise [TypeError], whether it is given as the batch
    ([len] fails) or as a record of the batch ([in] fails, outside any [try]),
    the records before it being mappings whose conversions do not
    overflow. *)
Theorem validate_data_unsized r :
  unsized r = true ->
  validate_data r = Raise TypeError /\
  forall pre post,
    Forall checkable pre ->
    validate_data (VList (pre ++ r :: post)) = Raise TypeError.
Proof.
  intros Hr. split; [now apply validate_data_scalar|].
  intros pre post Hall. unfold validate_data. cbn [len iter bind].
  replace (Z.of_nat (List.length (pre ++ r :: post)) =? 0) with false
    by (symmetry; apply Z.eqb_neq; rewrite length_app; cbn; lia).
  now rewrite check_records_unsized.
Qed.

Lemma validate_data_unsized_witness :
  validate_data (VInt 5) = Raise TypeError /\
  forall pre post,
    Forall checkable pre ->
    validate_data (VList (pre ++ VInt 5 :: post)) = Raise TypeError.
Proof. exact (validate_data_unsized (VInt 5) eq_refl). Defined.

(** ** The parser: padding, rows of another arity, the [users] member *)

Lemma lstrip_blank_app l s : blank l = true -> lstrip (l +++ s) = lstrip s.
Proof.
  induction l as [|c l IH]; cbn; [reflexivity|].
  intros H. apply andb_true_iff in H as [-> H]. now apply IH.
Qed.

Lemma lstrip_blank s : blank s = true -> lstrip s = EmptyString.
Proof.
  induction s as [|c s IH]; cbn; [reflexivity|].
  intros H. apply andb_true_iff in H as [-> H]. now apply IH.
Qed.

Lemma rstrip_blank s : blank s = true -> rstrip s = EmptyString.
Proof.
  induction s as [|c s IH]; cbn; [reflexivity|].
  intros H. apply andb_true_iff in H as [-> H]. now rewrite IH.
Qed.

Lemma rstrip_app_blank s r : blank r = true -> rstrip (s +++ r) = rstrip s.
Proof.
  intros H. induction s as [|c s IH]; cbn.
  - now apply rstrip_blank.
  - now rewrite IH.
Qed.

Lemma lstrip_app s r :
  lstrip (s +++ r) = if blank s then lstrip r else lstrip s +++ r.
Proof.
  induction s as [|c s IH]; cbn; [reflexivity|].
  destruct (is_space c); cbn; [exact IH | reflexivity].
Qed.

Lemma strip_padding l s r :
  blank l = true -> blank r = true -> strip (l +++ s +++ r) = strip s.
Proof.
  intros Hl Hr. unfold strip. rewrite (lstrip_blank_app l _ Hl), lstrip_app.
  destruct (blank s) eqn:E.
  - now rewrite (lstrip_blank r Hr), (lstrip_blank s E).
  - now apply rstrip_app_blank.
Qed.

Section Parser.

Variable json_loads : string -> result dict.
Variable csv_reader : string -> result (list (list string)).
Variable to_str : value -> string.

(** X8.  Whitespace around the input text is immaterial: padding a text with
    (ASCII) whitespace on either side changes neither what
    [parse_input_data] returns nor what [process_data] returns or calls. *)
Theorem process_data_ignores_padding l data_str r :
  blank l = true -> blank r = true ->
  parse_input_data json_loads csv_reader (l +++ data_str +++ r)
  = parse_input_data json_loads csv_reader data_str /\
  process_data_log json_loads csv_reader to_str (l +++ data_str +++ r)
  = process_data_log json_loads csv_reader to_str data_str /\
  process_data json_loads csv_reader to_str (l +++ data_str +++ r)
  = process_data json_loads csv_reader to_str data_str.
Proof.
  intros Hl Hr.
  assert (Hp : parse_input_data json_loads csv_reader (l +++ data_str +++ r)
               = parse_input_data json_loads csv_reader data_str).
  { unfold parse_input_data. now rewrite strip_padding. }
  unfold process_data, process_data_log. now rewrite Hp.
Qed.

Lemma parse_rows_skipped headers rows :
  Forall (fun row => List.length row <> List.length headers) rows ->
  parse_rows headers rows = Ok [].
Proof.
  induction 1 as [|row rows Hrow _ IH]; cbn [parse_rows]; [reflexivity|].
  apply Nat.eqb_neq in Hrow. now rewrite Hrow.
Qed.

Lemma process_data_empty data_str :
  truthy (parse_input_data json_loads csv_reader data_str) = false ->
  process_data_log json_loads csv_reader to_str data_str = ([], Ok format_error).
Proof. intros H. unfold process_data_log. now rewrite H. Qed.

(** X9.  A comma-separated text that yields only a header row, or no data
    row with as many fields as the header, parses to the empty list, so
    [process_data] answers with the format error and not with a validation
    report. *)
Theorem process_data_no_matching_row data_str rows :
  startswith (strip data_str) "{" = false ->
  is_substring "," (strip data_str) = true ->
  csv_reader (strip data_str) = Ok rows ->
  (forall header rest,
     rows = header :: rest ->
     Forall (fun row => List.length row <> List.length header) rest) ->
  parse_input_data json_loads csv_reader data_str = VList [] /\
  process_data json_loads csv_reader to_str data_str
  = Ok "ERROR: Invalid data format. Please provide data in CSV or JSON format.".
Proof.
  intros Hb Hc Hcsv Hrows.
  assert (Hp : parse_input_data json_loads csv_reader data_str = VList []).
  { unfold parse_input_data, parse_body, parse_csv.
    rewrite Hb, Hc, Hcsv. cbn [bind].
    destruct rows as [|header [|row rest]]; try reflexivity.
    rewrite parse_rows_skipped; [reflexivity|].
    rewrite length_map. exact (Hrows header (row :: rest) eq_refl). }
  split; [exact Hp|].
  unfold process_data. rewrite process_data_empty; [reflexivity|].
  now rewrite Hp.
Qed.

(** X10.  When the JSON object has a [users] member, [parse_input_data]
    returns that member as it is, whatever its type.  If it is falsy (an
    empty list, 0, null, an empty string or object) [process_data] answers
    with the format error; if it is a non-zero number or [true],
    [process_data] raises [TypeError], which nothing catches. *)
Theorem process_data_users_member data_str d v :
  startswith (strip data_str) "{" = true ->
  json_loads (strip data_str) = Ok d ->
  lookup "users" d = Some v ->
  parse_input_data json_loads csv_reader data_str = v /\
  (truthy v = false ->
   process_data json_loads csv_reader to_str data_str
   = Ok "ERROR: Invalid data format. Please provide data in CSV or JSON format.") /\
  (truthy v = true -> unsized v = true ->
   process_data json_loads csv_reader to_str data_str = Raise TypeError).
Proof.
  intros Hb Hj Hu.
  assert (Hp : parse_input_data json_loads csv_reader data_str = v).
  { unfold parse_input_data, parse_body, parse_json, has_key.
    rewrite Hb, Hj. cbn [bind getitem]. now rewrite Hu. }
  split; [exact Hp|]. split.
  - intros Hf. unfold process_data. rewrite process_data_empty; [reflexivity|].
    now rewrite Hp.
  - intros Ht Hs. unfold process_data, process_data_log.
    rewrite Hp, Ht. cbn [negb].
    now rewrite (validate_data_scalar v Hs).
Qed.

End Parser.

Lemma process_data_ignores_padding_witness :
  parse_input_data sample_json plain_csv ("  " +++ two_rows_csv +++ nl)
  = parse_input_data sample_json plain_csv two_rows_csv /\
  process_data_log sample_json plain_csv plain_str ("  " +++ two_rows_csv +++ nl)
  = process_data_log sample_json plain_csv plain_str two_rows_csv /\
  process_data sample_json plain_csv plain_str ("  " +++ two_rows_csv +++ nl)
  = process_data sample_json plain_csv plain_str two_rows_csv.
Proof.
  exact (process_data_ignores_padding sample_json plain_csv plain_str
           "  " two_rows_csv nl eq_refl eq_refl).
Defined.

Lemma process_data_no_matching_row_witness :
  parse_input_data sample_json plain_csv header_only_csv = VList [] /\
  process_data sample_json plain_csv plain_str header_only_csv
  = Ok "ERROR: Invalid data format. Please provide data in CSV or JSON format.".
Proof.
  apply (process_data_no_matching_row sample_json plain_csv plain_str
           header_only_csv [ ["user_id"; "current_steps"] ]
           eq_refl eq_refl eq_refl).
  intros header rest [= <- <-]. constructor.
Defined.

Lemma process_data_users_member_witness :
  parse_input_data users_number plain_csv users_number_json = VInt 5 /\
  (truthy (VInt 5) = false ->
   process_data users_number plain_csv plain_str users_number_json
   = Ok "ERROR: Invalid data format. Please provide data in CSV or JSON format.") /\
  (truthy (VInt 5) = true -> unsized (VInt 5) = true ->
   process_data users_number plain_csv plain_str users_number_json
   = Raise TypeError).
Proof.
  exact (process_data_users_member users_number plain_csv plain_str
           users_number_json [ ("users", VInt 5) ] (VInt 5)
           eq_refl eq_refl eq_refl).
Defined.

(** ** What [calculate_metrics] returns, on any input *)

Lemma classify_heart_rate_cases v s :
  classify_heart_rate v = Ok s ->
  s = "Below Optimal" \/ s = "Optimal" \/ s = "Above Optimal".
Proof.
  unfold classify_heart_rate, lt_int, ge_int, le_int.
  destruct (compare_int v 60) as [c|]; cbn [bind]; [|discriminate].
  destruct (is_lt c); [intros [= <-]; tauto|].
  destruct (is_ge c).
  - destruct (compare_int v 100) as [c'|]; cbn [bind]; [|discriminate].
    destruct (is_le c'); intros [= <-]; tauto.
  - intros [= <-]; tauto.
Qed.

Lemma classify_env_index_cases v s :
  classify_env_index v = Ok s ->
  s = "Good" \/ s = "Moderate" \/ s = "Poor".
Proof.
  unfold classify_env_index, ge_int.
  destruct (compare_int v 75) as [c|]; cbn [bind]; [|discriminate].
  destruct (is_ge c); [intros [= <-]; tauto|].
  destruct (compare_int v 50) as [c'|]; cbn [bind]; [|discriminate].
  destruct (is_ge c'); intros [= <-]; tauto.
Qed.

Lemma classify_temp_cases v s :
  classify_temp v = Ok s ->
  s = "Ideal Temperature" \/ s = "Too Cold" \/ s = "Too Hot".
Proof.
  unfold classify_temp, ge_int, le_int, lt_int.
  destruct (compare_int v 15) as [c|]; cbn [bind]; [|discriminate].
  destruct (is_ge c).
  - destruct (compare_int v 25) as [c'|]; cbn [bind]; [|discriminate].
    destruct (is_le c'); [intros [= <-]; tauto|].
    destruct (is_lt c); intros [= <-]; tauto.
  - cbn [bind]. destruct (is_lt c); intros [= <-]; tauto.
Qed.

(** What [calculate_metrics] returns, in terms of its intermediate values. *)
Lemma calculate_metrics_inv user_data m :
  calculate_metrics user_data = Ok m ->
  exists current_steps activity_intensity_factor predicted heart_rate env_index
         temp heart_rate_factor env_factor quotient heart env,
    copy user_data = Ok (input_data m) /\
    getitem user_data "current_steps" = Ok current_steps /\
    getitem user_data "activity_intensity_factor" = Ok activity_intensity_factor /\
    mul current_steps activity_intensity_factor = Ok predicted /\
    round2 predicted = Ok (predicted_activity (calcs m)) /\
    getitem user_data "heart_rate" = Ok heart_rate /\
    classify_heart_rate heart_rate = Ok (heart_rate_category (calcs m)) /\
    getitem user_data "environmental_index" = Ok env_index /\
    classify_env_index env_index = Ok (environmental_quality (calcs m)) /\
    getitem user_data "ambient_temperature" = Ok temp /\
    classify_temp temp = Ok (temperature_impact (calcs m)) /\
    table_get heart_rate_factors (heart_rate_category (calcs m))
    = Ok heart_rate_factor /\
    table_get env_factors (environmental_quality (calcs m)) = Ok env_factor /\
    truediv predicted (VInt 10000) = Ok quotient /\
    mul_float heart_rate_factor c0_3 = Ok heart /\
    mul_float env_factor c0_2 = Ok env /\
    let normalized := fmul quotient c0_5 in
    let composite_score := fadd (fadd normalized heart) env in
    let optimal :=
      fleb c0_75 composite_score
      && (heart_rate_category (calcs m) =? "Optimal")%string
      && (temperature_impact (calcs m) =? "Ideal Temperature")%string in
    normalized_activity (calcs m) = float_round2 normalized /\
    heart_component (calcs m) = float_round2 heart /\
    env_component (calcs m) = float_round2 env /\
    composite_fitness_score (calcs m) = float_round2 composite_score /\
    recommendation (calcs m)
    = (if optimal then "Continue current fitness plan" else "Adjust fitness plan") /\
    status (calcs m) = (if optimal then "Optimal" else "Needs Adjustment").
Proof.
  unfold calculate_metrics. intros H.
  apply bind_ok in H as (input & H1 & H).
  apply bind_ok in H as (cs & H2 & H).
  apply bind_ok in H as (aif & H3 & H).
  apply bind_ok in H as (p & H4 & H).
  apply bind_ok in H as (pr & H5 & H).
  apply bind_ok in H as (hr & H6 & H).
  apply bind_ok in H as (hc & H7 & H).
  apply bind_ok in H as (ei & H8 & H).
  apply bind_ok in H as (eq & H9 & H).
  apply bind_ok in H as (t & H10 & H).
  apply bind_ok in H as (ti & H11 & H).
  apply bind_ok in H as (hf & H12 & H).
  apply bind_ok in H as (ef & H13 & H).
  apply bind_ok in H as (q & H14 & H).
  apply bind_ok in H as (h & H15 & H).
  apply bind_ok in H as (e & H16 & H).
  injection H as <-. cbn [input_data calcs predicted_activity heart_rate_category
    environmental_quality temperature_impact normalized_activity heart_component
    env_component composite_fitness_score recommendation status].
  exists cs, aif, p, hr, ei, t, hf, ef, q, h, e.
  repeat split; assumption.
Qed.

Lemma copy_same v w : copy v = Ok w -> w = v.
Proof. destruct v; cbn; congruence. Qed.

(** X11.  Whatever the input, when [calculate_metrics] returns: the input
    data is handed back unchanged; the reported heart component is
    determined by the heart-rate category (0.3, 0.24 or 0.21) and the
    environmental component by the environmental quality (0.2, 0.16 or 0.12);
    the temperature impact is one of its three values; recommendation and
    status are one of the two pairs, never mixed; and the recommendation
    "Continue current fitness plan" is only given with the category Optimal
    and the impact Ideal Temperature. *)
Theorem calculate_metrics_invariants user_data m :
  calculate_metrics user_data = Ok m ->
  input_data m = user_data /\
  In (heart_rate_category (calcs m), heart_component (calcs m)) heart_components /\
  In (environmental_quality (calcs m), env_component (calcs m)) env_components /\
  In (temperature_impact (calcs m))
     [ "Ideal Temperature"; "Too Cold"; "Too Hot" ] /\
  In (recommendation (calcs m), status (calcs m))
     [ ("Continue current fitness plan", "Optimal");
       ("Adjust fitness plan", "Needs Adjustment") ] /\
  (recommendation (calcs m) = "Continue current fitness plan" ->
   heart_rate_category (calcs m) = "Optimal" /\
   temperature_impact (calcs m) = "Ideal Temperature").
Proof.
  intros H.
  destruct (calculate_metrics_inv _ _ H)
    as (cs & aif & p & hr & ei & t & hf & ef & q & h & e & H1 & _ & _ & _ & _
        & _ & H7 & _ & H9 & _ & H11 & H12 & H13 & _ & H15 & H16 & Hrest).
  cbv zeta in Hrest. destruct Hrest as (_ & Hh & He & _ & Hr & Hs).
  split; [exact (copy_same _ _ H1)|].
  split; [|split; [|split; [|split]]].
  - rewrite Hh.
    destruct (classify_heart_rate_cases _ _ H7) as [E | [E | E]];
      rewrite E in *; cbn in H12; injection H12 as <-;
      cbn in H15; injection H15 as <-; vm_compute; tauto.
  - rewrite He.
    destruct (classify_env_index_cases _ _ H9) as [E | [E | E]];
      rewrite E in *; cbn in H13; injection H13 as <-;
      cbn in H16; injection H16 as <-; vm_compute; tauto.
  - destruct (classify_temp_cases _ _ H11) as [E | [E | E]]; rewrite E; cbn; tauto.
  - rewrite Hr, Hs.
    match goal with |- context [if ?b then _ else _] => destruct b end; cbn; tauto.
  - rewrite Hr.
    match goal with |- context [if ?b then _ else _] => destruct b eqn:Eb end;
      [|discriminate].
    intros _. apply andb_true_iff in Eb as [Eb Et].
    apply andb_true_iff in Eb as [_ Eh].
    split; now apply String.eqb_eq.
Qed.

Lemma calculate_metrics_invariants_witness :
  exists m,
    calculate_metrics (VDict (record_of u_edge)) = Ok m /\
    input_data m = VDict (record_of u_edge) /\
    In (heart_rate_category (calcs m), heart_component (calcs m)) heart_components /\
    In (environmental_quality (calcs m), env_component (calcs m)) env_components /\
    In (temperature_impact (calcs m))
       [ "Ideal Temperature"; "Too Cold"; "Too Hot" ] /\
    In (recommendation (calcs m), status (calcs m))
       [ ("Continue current fitness plan", "Optimal");
         ("Adjust fitness plan", "Needs Adjustment") ] /\
    (recommendation (calcs m) = "Continue current fitness plan" ->
     heart_rate_category (calcs m) = "Optimal" /\
     temperature_impact (calcs m) = "Ideal Temperature").
Proof.
  eexists. split; [vm_compute; reflexivity|].
  apply calculate_metrics_invariants. vm_compute. reflexivity.
Defined.

Lemma fmul_nan_r x : fmul x S754_nan = S754_nan.
Proof. now destruct x. Qed.

Lemma mul_nan v p : mul v (VFloat S754_nan) = Ok p -> p = VFloat S754_nan.
Proof.
  unfold mul. destruct (as_number v) as [[n|f]|]; cbn [as_number].
  - cbn [to_float bind]. destruct (float_of_int n); cbn [bind]; [|discriminate].
    intros [= <-]. now rewrite fmul_nan_r.
  - cbn [to_float bind]. intros [= <-]. now rewrite fmul_nan_r.
  - discriminate.
Qed.

Lemma truediv_nan q : truediv (VFloat S754_nan) (VInt 10000) = Ok q -> q = S754_nan.
Proof.
  change (truediv (VFloat S754_nan) (VInt 10000)) with (Ok S754_nan). congruence.
Qed.

(** X12.  A NaN is classified by the last branch of each rule: when
    [calculate_metrics] returns, a NaN heart rate is "Above Optimal", a NaN
    environmental index is "Poor" and a NaN temperature is "Too Hot"; a NaN
    intensity factor gives a NaN predicted activity and a NaN composite
    score, and the recommendation "Adjust fitness plan". *)
Theorem calculate_metrics_nan d m :
  calculate_metrics (VDict d) = Ok m ->
  (lookup "heart_rate" d = Some (VFloat S754_nan) ->
   heart_rate_category (calcs m) = "Above Optimal") /\
  (lookup "environmental_index" d = Some (VFloat S754_nan) ->
   environmental_quality (calcs m) = "Poor") /\
  (lookup "ambient_temperature" d = Some (VFloat S754_nan) ->
   temperature_impact (calcs m) = "Too Hot") /\
  (lookup "activity_intensity_factor" d = Some (VFloat S754_nan) ->
   predicted_activity (calcs m) = VFloat S754_nan /\
   composite_fitness_score (calcs m) = S754_nan /\
   recommendation (calcs m) = "Adjust fitness plan").
Proof.
  intros H.
  destruct (calculate_metrics_inv _ _ H)
    as (cs & aif & p & hr & ei & t & hf & ef & q & h & e & _ & _ & H3 & H4 & H5
        & H6 & H7 & H8 & H9 & H10 & H11 & _ & _ & H14 & _ & _ & Hrest).
  cbv zeta in Hrest. destruct Hrest as (_ & _ & _ & Hc & Hr & _).
  cbn [getitem] in H3, H6, H8, H10.
  split; [|split; [|split]].
  - intros E. rewrite E in H6. injection H6 as <-.
    change (classify_heart_rate (VFloat S754_nan)) with (Ok "Above Optimal") in H7.
    congruence.
  - intros E. rewrite E in H8. injection H8 as <-.
    change (classify_env_index (VFloat S754_nan)) with (Ok "Poor") in H9.
    congruence.
  - intros E. rewrite E in H10. injection H10 as <-.
    change (classify_temp (VFloat S754_nan)) with (Ok "Too Hot") in H11.
    congruence.
  - intros E. rewrite E in H3. injection H3 as <-.
    apply mul_nan in H4. subst p. apply truediv_nan in H14. subst q.
    split; [cbn in H5; congruence|].
    split; [rewrite Hc | rewrite Hr]; reflexivity.
Qed.

Lemma calculate_metrics_nan_witness :
  exists m,
    calculate_metrics (VDict nan_record) = Ok m /\
    environmental_quality (calcs m) = "Poor" /\
    temperature_impact (calcs m) = "Too Hot" /\
    recommendation (calcs m) = "Adjust fitness plan".
Proof.
  eexists. split; [vm_compute; reflexivity|].
  pose proof (calculate_metrics_nan nan_record _ eq_refl) as (_ & He & Ht & Hf).
  split; [exact (He eq_refl)|]. split; [exact (Ht eq_refl)|].
  exact (proj2 (proj2 (Hf eq_refl))).
Defined.

(** X13.  The calculations depend on the five numeric fields only: two
    mappings that agree on [current_steps], [heart_rate],
    [ambient_temperature], [environmental_index] and
    [activity_intensity_factor] get the same calculations, or the same
    exception; [user_id] and any other key play no part. *)
Theorem calculate_metrics_frame d d' :
  (forall field, In field numeric_fields -> lookup field d = lookup field d') ->
  match calculate_metrics (VDict d), calculate_metrics (VDict d') with
  | Ok m, Ok m' => calcs m = calcs m'
  | Raise e, Raise e' => e = e'
  | _, _ => False
  end.
Proof.
  intros H. unfold calculate_metrics. cbn [copy bind getitem].
  rewrite <- (H "current_steps"), <- (H "heart_rate"),
    <- (H "ambient_temperature"), <- (H "environmental_index"),
    <- (H "activity_intensity_factor") by (cbn; tauto).
  repeat match goal with
         | |- context [bind ?c _] => destruct c; cbn [bind]
         | |- context [match ?c with Some _ => _ | None => _ end] => destruct c; cbn [bind]
         end; reflexivity.
Qed.

Lemma calculate_metrics_frame_witness :
  match calculate_metrics (VDict (record_of u1)),
        calculate_metrics (VDict (("note", VNone) :: tl (record_of u1))) with
  | Ok m, Ok m' => calcs m = calcs m'
  | Raise e, Raise e' => e = e'
  | _, _ => False
  end.
Proof.
  apply calculate_metrics_frame.
  intros field Hin. cbn in Hin.
  repeat (destruct Hin as [<- | Hin]; [reflexivity|]). destruct Hin.
Defined.

(** ** The renderer after the engine, and the whole pipeline *)

Section Renderer.

Variable json_loads : string -> result dict.
Variable csv_reader : string -> result (list (list string)).
Variable to_str : value -> string.

Lemma has_key_getitem key d :
  has_key key d = true -> exists v, getitem (VDict d) key = Ok v.
Proof.
  unfold has_key. cbn [getitem]. destruct (lookup key d); [now eexists | discriminate].
Qed.

Lemma table_get_cases {A : Type} (table : list (string * A)) key :
  In key (map fst table) -> exists a, table_get table key = Ok a.
Proof.
  unfold table_get. intros H.
  destruct (lookup key table) eqn:E; [now eexists|].
  exfalso. induction table as [|[k a] table IH]; [exact H|].
  cbn in E. destruct (String.eqb_spec k key) as [-> | Hne]; [discriminate|].
  destruct H as [H | H]; [now elim Hne | now apply IH].
Qed.

Lemma generate_report_returns d m :
  calculate_metrics (VDict d) = Ok m ->
  has_key "user_id" d = true ->
  exists report, generate_report to_str m = Ok report.
Proof.
  intros H Hu.
  destruct (calculate_metrics_inv _ _ H)
    as (cs & aif & p & hr & ei & t & hf & ef & q & h & e & H1 & H2 & H3 & _ & _
        & H6 & _ & H8 & _ & H10 & _ & H12 & H13 & _).
  apply copy_same in H1.
  destruct (has_key_getitem _ _ Hu) as (uid & H0).
  unfold generate_report, input_lines. rewrite H1.
  cbn [mapM required_fields].
  rewrite H0, H2, H3, H6, H8, H10, H12, H13. cbn [bind].
  now eexists.
Qed.

(** X14.  The renderer accepts what the engine returns: for metrics computed
    by [calculate_metrics] from a mapping, [generate_report] returns a report
    when the mapping has a [user_id] (the category and quality it looks up in
    its factor tables are always among their keys), and raises [KeyError]
    when it has none. *)
Theorem generate_report_after_metrics d m :
  calculate_metrics (VDict d) = Ok m ->
  (has_key "user_id" d = true ->
   exists report, generate_report to_str m = Ok report) /\
  (has_key "user_id" d = false -> generate_report to_str m = Raise KeyError).
Proof.
  intros H. split; [now apply generate_report_returns|].
  intros Hu. destruct (calculate_metrics_inv _ _ H) as (? & ? & ? & ? & ? & ? & ?
    & ? & ? & ? & ? & H1 & _).
  apply copy_same in H1. unfold generate_report. rewrite H1. cbn [getitem].
  unfold has_key in Hu. destruct (lookup "user_id" d); [discriminate|].
  reflexivity.
Qed.



Lemma computable_record_valid record :
  computable_record record -> forall row_num, check_record record row_num = Ok [].
Proof.
  intros (d & u & -> & Hd & [_ Hu] & _ & Ct & Ca) row_num.
  apply check_record_accepts. split.
  - exact (holds_absent_fields d u Hd).
  - exact (valid_record_checks d u Hd Hu Ct Ca).
Qed.

Lemma computable_batch_passes records :
  records <> [] -> Forall computable_record records ->
  exists report details,
    validate_data (VList records) = Ok (true, report, details).
Proof.
  intros Hne Hall.
  assert (He : check_records records 0 = Ok []).
  { apply check_records_accepted.
    eapply Forall_impl; [|exact Hall]. exact computable_record_valid. }
  destruct (fields_check_of_dicts records) as (checks & Hc).
  { eapply Forall_impl; [|exact Hall]. intros r (d & u & -> & _). now exists d. }
  rewrite (validate_data_list _ _ _ Hne He Hc). now do 2 eexists.
Qed.

Lemma process_records_computable records :
  Forall computable_record records ->
  exists ms reports,
    Forall2 (fun record m => calculate_metrics record = Ok m) records ms /\
    Forall2 (fun m report => generate_report to_str m = Ok report) ms reports /\
    process_records to_str records = (calls_of records ms, Ok reports).
Proof.
  induction 1 as [|r rest (d & u & -> & Hd & Hu & Hc & _) _ IH].
  - exists [], []. repeat split; constructor.
  - destruct IH as (ms & reports & Hms & Hrs & Hp).
    destruct (calculate_metrics_typed d u Hd Hu Hc)
      as (p & q & x & t & _ & _ & _ & _ & Hm).
    destruct (generate_report_returns d _ Hm) as (report & Hr).
    { unfold has_key. now rewrite (proj1 Hd). }
    eexists (_ :: ms), (report :: reports).
    split; [constructor; [exact Hm | exact Hms]|].
    split; [constructor; [exact Hr | exact Hrs]|].
    cbn [process_records]. rewrite Hm, Hr, Hp. reflexivity.
Qed.

Lemma process_data_computable data_str records :
  parse_input_data json_loads csv_reader data_str = VList records ->
  records <> [] ->
  Forall computable_record records ->
  exists ms reports,
    Forall2 (fun record m => calculate_metrics record = Ok m) records ms /\
    Forall2 (fun m report => generate_report to_str m = Ok report) ms reports /\
    process_data_log json_loads csv_reader to_str data_str
    = (calls_of records ms, Ok (nl +++ nl +++ join separator reports)).
Proof.
  intros Hp Hne Hall.
  destruct (computable_batch_passes records Hne Hall) as (report & details & Hv).
  destruct (process_records_computable records Hall) as (ms & reports & Hms & Hrs & Hpr).
  exists ms, reports. split; [exact Hms|]. split; [exact Hrs|].
  unfold process_data_log. rewrite Hp.
  replace (truthy (VList records)) with true by now destruct records.
  cbn [negb]. rewrite Hv. cbn [negb iter]. rewrite Hpr. reflexivity.
Qed.

(** X15.  On a non-empty parsed batch of typed records whose predicted
    activity is computable and whose reals convert to floats, [process_data]
    returns: two newlines followed by the reports of the records in order,
    joined by the separator; it calls the engine and then the renderer once
    per record, in order. *)
Theorem process_data_reports data_str records :
  parse_input_data json_loads csv_reader data_str = VList records ->
  records <> [] ->
  Forall computable_record records ->
  exists ms reports,
    Forall2 (fun record m => calculate_metrics record = Ok m) records ms /\
    Forall2 (fun m report => generate_report to_str m = Ok report) ms reports /\
    process_data_log json_loads csv_reader to_str data_str
    = (calls_of records ms, Ok (nl +++ nl +++ join separator reports)) /\
    process_data json_loads csv_reader to_str data_str
    = Ok (nl +++ nl +++ join separator reports).
Proof.
  intros Hp Hne Hall.
  destruct (process_data_computable data_str records Hp Hne Hall)
    as (ms & reports & Hms & Hrs & Hlog).
  exists ms, reports. repeat split; try assumption.
  unfold process_data. now rewrite Hlog.
Qed.

End Renderer.

Lemma generate_report_after_metrics_witness :
  exists m report,
    calculate_metrics (VDict (record_of u1)) = Ok m /\
    generate_report plain_str m = Ok report.
Proof.
  destruct (calculate_metrics (VDict (record_of u1))) as [m|] eqn:E;
    [|vm_compute in E; discriminate].
  destruct (proj1 (generate_report_after_metrics plain_str _ _ E) eq_refl)
    as (report & H).
  exists m, report. split; [reflexivity | exact H].
Defined.

Lemma process_data_reports_witness :
  exists ms reports,
    Forall2 (fun record m => calculate_metrics record = Ok m)
            [VDict (record_of u1_csv)] ms /\
    Forall2 (fun m report => generate_report plain_str m = Ok report) ms reports /\
    process_data_log sample_json plain_csv plain_str scenario_csv
    = (calls_of [VDict (record_of u1_csv)] ms,
       Ok (nl +++ nl +++ join separator reports)) /\
    process_data sample_json plain_csv plain_str scenario_csv
    = Ok (nl +++ nl +++ join separator reports).
Proof.
  apply (process_data_reports sample_json plain_csv plain_str scenario_csv
           [VDict (record_of u1_csv)]).
  - vm_compute. reflexivity.
  - discriminate.
  - constructor; [|constructor].
    exists (record_of u1_csv), u1_csv. split; [reflexivity|].
    split; [apply holds_record_of|]. split; [exact u1_csv_well_typed|].
    split; [vm_compute; reflexivity|]. split; exact I.
Defined.

(** ** The frame of a report, and [main] *)

Lemma ends_cons m Y S :
  (exists b, Y = b +++ S) -> exists b, m +++ Y = b +++ S.
Proof. intros (b & ->). exists (m +++ b). now rewrite append_assoc. Qed.

Section Reports.

Variable json_loads : string -> result dict.
Variable to_str : value -> string.

(** X16.  Every report that [generate_report] returns starts with the title,
    the user id line and the heading of the input data, and ends with the
    rule, the heading of the final recommendation and the recommendation and
    status lines of the metrics. *)
Theorem generate_report_frame m report :
  generate_report to_str m = Ok report ->
  exists user_id,
    getitem (input_data m) "user_id" = Ok user_id /\
    (exists rest, report = report_header (to_str user_id) +++ rest) /\
    (exists front,
       report = front +++ report_footer (recommendation (calcs m))
                                        (status (calcs m))).
Proof.
  unfold generate_report. intros H.
  apply bind_ok in H as (uid & H0 & H).
  apply bind_ok in H as (lines & _ & H).
  apply bind_ok in H as (cs & _ & H).
  apply bind_ok in H as (aif & _ & H).
  apply bind_ok in H as (hr & _ & H).
  apply bind_ok in H as (ei & _ & H).
  apply bind_ok in H as (t & _ & H).
  apply bind_ok in H as (hf & _ & H).
  apply bind_ok in H as (ef & _ & H).
  cbv zeta in H.
  assert (Hr : forall (a b : string), Ok a = Ok b -> b = a) by (intros a b [= ->]; reflexivity).
  apply Hr in H. subst report.
  exists uid. split; [exact H0|].
  unfold report_header, report_footer.
  rewrite !append_assoc. split.
  - eexists. rewrite !append_assoc. reflexivity.
  - repeat first [ solve [exists EmptyString; reflexivity] | apply ends_cons ].
Qed.

Lemma sample_data_parsed :
  parse_input_data json_loads plain_csv sample_data
  = VList (map (fun u => VDict (record_of u)) sample_users).
Proof. vm_compute. reflexivity. Qed.

Lemma sample_users_computable :
  Forall computable_record (map (fun u => VDict (record_of u)) sample_users).
Proof.
  apply Forall_forall. intros r Hin.
  apply in_map_iff in Hin as (u & <- & Hin).
  exists (record_of u), u. split; [reflexivity|].
  split; [apply holds_record_of|].
  cbn in Hin.
  repeat (destruct Hin as [<- | Hin];
          [split; [prove_well_typed|];
           split; [vm_compute; reflexivity | split; exact I] |]).
  destruct Hin.
Qed.

Lemma sample_users_recommendation :
  Forall (fun u =>
            forall m, calculate_metrics (VDict (record_of u)) = Ok m ->
                      recommendation (calcs m) = "Continue current fitness plan")
         sample_users.
Proof.
  repeat constructor; intros m H;
    match type of H with
    | ?c = _ =>
        let v := eval vm_compute in c in
        change c with v in H
    end;
    injection H as <-; reflexivity.
Qed.

Lemma Forall2_map_l {A B C : Type} (P : B -> C -> Prop) (f : A -> B) l l' :
  Forall2 P (map f l) l' -> Forall2 (fun a c => P (f a) c) l l'.
Proof.
  revert l'. induction l as [|a l IH]; intros l' H; inversion H; subst;
    constructor; auto.
Qed.

(** X17.  [main] runs to completion on its built-in data, whatever [str()]
    prints: the data parse to ten typed records, validation passes, every one
    of the ten users gets the recommendation "Continue current fitness plan",
    and the output is the line "Result:" followed by the ten reports joined
    by the separator. *)
Theorem main_prints_ten_reports :
  exists ms reports,
    Forall2 (fun u m => calculate_metrics (VDict (record_of u)) = Ok m)
            sample_users ms /\
    Forall2 (fun m report => generate_report to_str m = Ok report) ms reports /\
    Forall (fun m => recommendation (calcs m) = "Continue current fitness plan")
           ms /\
    main json_loads plain_csv to_str
    = Ok (nl +++ "Result:" +++ nl
          +++ nl +++ nl +++ join separator reports +++ nl).
Proof.
  destruct (process_data_computable json_loads plain_csv to_str sample_data _
              sample_data_parsed)
    as (ms & reports & Hms & Hrs & Hlog).
  - discriminate.
  - exact sample_users_computable.
  - apply Forall2_map_l in Hms.
    exists ms, reports. split; [exact Hms|]. split; [exact Hrs|]. split.
    + pose proof sample_users_recommendation as Hrec.
      clear - Hms Hrec. induction Hms as [|u m us ms' Hm _ IH]; [constructor|].
      inversion Hrec; subst. constructor; auto.
    + unfold main, process_data. rewrite Hlog. cbn [snd bind].
      now rewrite !append_assoc.
Qed.

End Reports.

Lemma generate_report_frame_witness :
  exists report user_id,
    generate_report plain_str
      {| input_data := VDict (record_of u1); calcs := u1_calcs |} = Ok report /\
    getitem (VDict (record_of u1)) "user_id" = Ok user_id /\
    (exists rest, report = report_header (plain_str user_id) +++ rest) /\
    (exists front,
       report = front +++ report_footer "Continue current fitness plan" "Optimal").
Proof.
  destruct (generate_report plain_str
              {| input_data := VDict (record_of u1); calcs := u1_calcs |})
    as [report|e] eqn:E; [|vm_compute in E; discriminate].
  destruct (generate_report_frame plain_str _ report E) as (uid & H0 & H1 & H2).
  exists report, uid. split; [reflexivity|]. split; [exact H0|].
  split; [exact H1 | exact H2].
Defined.

(** ** The summary section, numeric records, one record per row *)

Lemma fold_left_concat (f : string -> string) errs : forall pre,
  fold_left (fun report error => report +++ f error) errs pre
  = pre +++ String.concat EmptyString (map f errs).
Proof.
  induction errs as [|e errs IH]; intros pre; cbn [fold_left map].
  - cbn. clear. induction pre; cbn; congruence.
  - rewrite IH, append_assoc. f_equal.
    destruct errs as [|e' errs]; cbn [map String.concat].
    + clear. induction (f e); cbn; congruence.
    + reflexivity.
Qed.

(** X18.  A validation report always ends with its summary section: the
    heading followed by the success message when there is no error string,
    and otherwise by every error string, in order, each on a line of its own
    after a dash. *)
Theorem validation_report_summary details :
  exists head,
    _generate_validation_report details
    = head +++ summary_section (errors details).
Proof.
  unfold _generate_validation_report, summary_section.
  destruct (errors details) as [|e errs] eqn:E.
  - rewrite !append_assoc.
    repeat first [ solve [exists EmptyString; reflexivity] | apply ends_cons ].
  - rewrite (fold_left_concat (fun error => "- " +++ error +++ nl)).
    rewrite !append_assoc.
    repeat first [ solve [exists EmptyString; reflexivity] | apply ends_cons ].
Qed.

Lemma compare_int_number v x k :
  as_number v = Some x -> exists c, compare_int v k = Ok c.
Proof. unfold compare_int. intros ->. destruct x; now eexists. Qed.

Lemma classify_heart_rate_number v x :
  as_number v = Some x -> exists s, classify_heart_rate v = Ok s.
Proof.
  intros H. unfold classify_heart_rate, lt_int, ge_int, le_int.
  destruct (compare_int_number v x 60 H) as (c & ->).
  destruct (compare_int_number v x 100 H) as (c' & ->).
  cbn [bind]. destruct (is_lt c); [now eexists|].
  destruct (is_ge c); cbn [bind]; now eexists.
Qed.

Lemma classify_env_index_number v x :
  as_number v = Some x -> exists s, classify_env_index v = Ok s.
Proof.
  intros H. unfold classify_env_index, ge_int.
  destruct (compare_int_number v x 75 H) as (c & ->).
  destruct (compare_int_number v x 50 H) as (c' & ->).
  cbn [bind]. destruct (is_ge c); cbn [bind]; now eexists.
Qed.

Lemma classify_temp_number v x :
  as_number v = Some x -> exists s, classify_temp v = Ok s.
Proof.
  intros H. unfold classify_temp, ge_int, le_int, lt_int.
  destruct (compare_int_number v x 15 H) as (c & ->).
  destruct (compare_int_number v x 25 H) as (c' & ->).
  cbn [bind]. destruct (is_ge c); cbn [bind];
    [destruct (is_le c'); cbn [bind]|]; now eexists.
Qed.

Lemma factor_times x c :
  In x [NInt 1; NFloat c0_8; NFloat c0_7; NFloat c0_6] ->
  exists f, mul_float x c = Ok f.
Proof.
  cbn. intros [<- | [<- | [<- | [<- | []]]]]; now eexists.
Qed.

Lemma heart_factor_cases s x :
  table_get heart_rate_factors s = Ok x ->
  In x [NInt 1; NFloat c0_8; NFloat c0_7; NFloat c0_6].
Proof.
  unfold table_get, heart_rate_factors. cbn [lookup].
  repeat match goal with
         | |- context [if ?b then _ else _] => destruct b
         end; intros [= <-]; cbn; tauto.
Qed.

Lemma env_factor_cases s x :
  table_get env_factors s = Ok x ->
  In x [NInt 1; NFloat c0_8; NFloat c0_7; NFloat c0_6].
Proof.
  unfold table_get, env_factors. cbn [lookup].
  repeat match goal with
         | |- context [if ?b then _ else _] => destruct b
         end; intros [= <-]; cbn; tauto.
Qed.

(** [calculate_metrics] does not raise on numbers. *)
Lemma calculate_metrics_on_numbers d :
  numeric_record d -> exists m, calculate_metrics (VDict d) = Ok m.
Proof.
  intros ((n & Hn & Hb) & (f & Hf) & (h & xh & Hh & Nh) & (e & xe & He & Ne)
          & (t & xt & Ht & Nt)).
  unfold calculate_metrics. cbn [copy bind getitem].
  rewrite Hn, Hf, Hh, He, Ht. cbn [bind].
  unfold mul. cbn [as_number to_float]. unfold float_of_int at 1.
  apply Z.ltb_lt in Hb. rewrite Hb. cbn [bind round2].
  destruct (classify_heart_rate_number h xh Nh) as (sh & Hsh).
  destruct (classify_env_index_number e xe Ne) as (se & Hse).
  destruct (classify_temp_number t xt Nt) as (st & Hst).
  rewrite Hsh, Hse, Hst. cbn [bind].
  destruct (table_get_cases heart_rate_factors sh) as (hf & Hhf).
  { destruct (classify_heart_rate_cases _ _ Hsh) as [-> | [-> | ->]]; cbn; tauto. }
  destruct (table_get_cases env_factors se) as (ef & Hef).
  { destruct (classify_env_index_cases _ _ Hse) as [-> | [-> | ->]]; cbn; tauto. }
  rewrite Hhf, Hef. cbn [bind].
  unfold truediv. cbn [as_number to_float bind].
  rewrite float_of_int_10000. cbn [bind is_zero].
  destruct (factor_times hf c0_3 (heart_factor_cases _ _ Hhf)) as (fh & ->).
  destruct (factor_times ef c0_2 (env_factor_cases _ _ Hef)) as (fe & ->).
  cbn [bind]. now eexists.
Qed.

(** X19.  [calculate_metrics] returns on every mapping whose [current_steps]
    is an [int] within the binary64 range, whose
    [activity_intensity_factor] is a [float] and whose three other numeric
    fields are numbers: no sign, zero, infinity or NaN among them makes it
    raise.  The predicted activity it reports is the binary64 product of the
    converted step count and the factor, rounded to two decimals. *)
Theorem calculate_metrics_numeric d n f :
  numeric_record d ->
  lookup "current_steps" d = Some (VInt n) ->
  lookup "activity_intensity_factor" d = Some (VFloat f) ->
  exists m fn,
    calculate_metrics (VDict d) = Ok m /\
    float_of_int n = Ok fn /\
    predicted_activity (calcs m) = VFloat (float_round2 (fmul fn f)).
Proof.
  intros Hn L1 L2.
  destruct (calculate_metrics_on_numbers d Hn) as (m & Hm).
  destruct (calculate_metrics_inv _ _ Hm)
    as (cs & aif & p & hr & ei & t & hf & ef & q & h & e & _ & H2 & H3 & H4
        & H5 & _).
  cbn [getitem] in H2, H3. rewrite L1 in H2. rewrite L2 in H3.
  injection H2 as <-. injection H3 as <-.
  unfold mul in H4. cbn [as_number to_float] in H4.
  destruct (float_of_int n) as [fn|] eqn:E; cbn [bind] in H4; [|discriminate].
  injection H4 as <-. cbn [round2] in H5. injection H5 as H5.
  exists m, fn. split; [exact Hm|]. split; [reflexivity | now symmetry].
Qed.

Lemma calculate_metrics_numeric_witness :
  exists m fn,
    calculate_metrics (VDict nan_record) = Ok m /\
    float_of_int 10000 = Ok fn /\
    predicted_activity (calcs m) = VFloat (float_round2 (fmul fn S754_nan)).
Proof.
  apply (calculate_metrics_numeric nan_record 10000 S754_nan);
    [|reflexivity|reflexivity].
  unfold numeric_record, nan_record. cbn [lookup String.eqb Ascii.eqb Bool.eqb].
  split; [exists 10000; split; [reflexivity | vm_compute; reflexivity]|].
  split; [now eexists|].
  repeat split; do 2 eexists; split; reflexivity.
Defined.

Lemma make_record_str headers row field : str_at (make_record headers row) field.
Proof.
  unfold str_at, make_record. intros v. rewrite lookup_fold_set.
  destruct (lookup field (rev (combine headers row))); [|discriminate].
  intros [= <-]. now eexists.
Qed.

Lemma lookup_some_in {A : Type} key (v : A) l :
  lookup key l = Some v -> In (key, v) l.
Proof.
  induction l as [|[k a] l IH]; cbn; [discriminate|].
  destruct (String.eqb_spec k key) as [-> | _].
  - intros [= ->]. now left.
  - intros H. right. now apply IH.
Qed.

Lemma make_record_keys headers row key :
  has_key key (make_record headers row) = true -> In key headers.
Proof.
  unfold has_key, make_record. rewrite lookup_fold_set. cbn [lookup].
  destruct (lookup key (rev (combine headers row))) as [cell|] eqn:E;
    [|discriminate].
  intros _. apply lookup_some_in in E. apply in_rev in E.
  exact (in_combine_l _ _ _ _ E).
Qed.

Lemma row_record_returns headers row :
  exists record,
    row_record headers row = Ok record /\
    forall key, has_key key record = true -> In key headers.
Proof.
  unfold row_record.
  destruct (coerce_fields_lookup to_int_value int_columns
              (make_record headers row) to_int_value_fails)
    as (d1 & -> & H1).
  { repeat constructor; cbn; intuition discriminate. }
  { intros field _. apply make_record_str. }
  cbn [bind].
  destruct (coerce_fields_lookup to_float_value float_columns d1
              to_float_value_fails)
    as (d2 & -> & H2).
  { repeat constructor; cbn; intuition discriminate. }
  { intros field Hin v. rewrite H1.
    replace (existsb (String.eqb field) int_columns) with false
      by (cbn in Hin; destruct Hin as [<- | [<- | [<- | []]]]; reflexivity).
    apply make_record_str. }
  exists d2. split; [reflexivity|].
  intros key. unfold has_key. rewrite H2, H1.
  intros Hk. apply (make_record_keys headers row). unfold has_key.
  destruct (lookup key (make_record headers row)); [reflexivity|].
  destruct (existsb (String.eqb key) float_columns),
    (existsb (String.eqb key) int_columns); discriminate.
Qed.

Lemma parse_rows_returns headers rows :
  exists records,
    parse_rows headers rows = Ok (map VDict records) /\
    List.length records
    = List.length (filter (fun row => (List.length row =? List.length headers)%nat)
                          rows) /\
    Forall (fun record => forall key, has_key key record = true -> In key headers)
           records.
Proof.
  induction rows as [|row rows (records & IH & Hlen & Hkeys)].
  - exists []. repeat split. constructor.
  - cbn [parse_rows filter].
    destruct (List.length row =? List.length headers)%nat; cbn [negb].
    + destruct (row_record_returns headers row) as (record & -> & Hk).
      rewrite IH. cbn [bind]. exists (record :: records).
      split; [reflexivity|]. split; [cbn; congruence|]. now constructor.
    + exists records. now repeat split.
Qed.

Section Rows.

Variable json_loads : string -> result dict.
Variable csv_reader : string -> result (list (list string)).

(** X20.  On a comma-separated text the parser returns exactly one mapping
    per data row that has as many fields as the header, repeated header names
    included, and no conversion makes it fail; the keys of each mapping are
    among the trimmed header names. *)
Theorem parse_input_data_row_count data_str header rows :
  startswith (strip data_str) "{" = false ->
  is_substring "," (strip data_str) = true ->
  csv_reader (strip data_str) = Ok (header :: rows) ->
  exists records,
    parse_input_data json_loads csv_reader data_str = VList (map VDict records) /\
    List.length records = List.length (accepted_rows header rows) /\
    Forall (fun record =>
              forall key, has_key key record = true -> In key (map strip header))
           records.
Proof.
  intros Hb Hc Hcsv.
  unfold parse_input_data, parse_body, parse_csv. rewrite Hb, Hc, Hcsv.
  cbn [bind]. destruct rows as [|row rows].
  - exists []. repeat split. constructor.
  - destruct (parse_rows_returns (map strip header) (row :: rows))
      as (records & -> & Hlen & Hkeys).
    cbn [bind]. exists records. split; [reflexivity|].
    split; [|exact Hkeys].
    rewrite Hlen. unfold accepted_rows. now rewrite length_map.
Qed.

End Rows.

Lemma parse_input_data_row_count_witness :
  exists records,
    parse_input_data sample_json plain_csv repeated_header_csv
    = VList (map VDict records) /\
    List.length records
    = List.length (accepted_rows ["user_id"; "user_id"] [ ["U1"; "U2"]; ["U3"] ]) /\
    Forall (fun record =>
              forall key, has_key key record = true ->
                          In key (map strip ["user_id"; "user_id"]))
           records.
Proof.
  exact (parse_input_data_row_count sample_json plain_csv repeated_header_csv
           ["user_id"; "user_id"] [ ["U1"; "U2"]; ["U3"] ]
           eq_refl eq_refl eq_refl).
Defined.

(** ** The comma-separated path *)

Lemma columns_disjoint key :
  existsb (String.eqb key) int_columns = true ->
  existsb (String.eqb key) float_columns = false.
Proof.
  cbn. intros H. apply orb_true_iff in H as [H | H].
  - apply String.eqb_eq in H. now subst.
  - apply orb_true_iff in H as [H | H]; [|discriminate].
    apply String.eqb_eq in H. now subst.
Qed.

Lemma row_record_typed headers row :
  exists record, row_record headers row = Ok record /\ csv_typed record.
Proof.
  unfold row_record.
  destruct (coerce_fields_lookup to_int_value int_columns
              (make_record headers row) to_int_value_fails)
    as (d1 & -> & H1).
  { repeat constructor; cbn; intuition discriminate. }
  { intros field _. apply make_record_str. }
  cbn [bind].
  destruct (coerce_fields_lookup to_float_value float_columns d1
              to_float_value_fails)
    as (d2 & -> & H2).
  { repeat constructor; cbn; intuition discriminate. }
  { intros field Hin v. rewrite H1.
    replace (existsb (String.eqb field) int_columns) with false
      by (cbn in Hin; destruct Hin as [<- | [<- | [<- | []]]]; reflexivity).
    apply make_record_str. }
  exists d2. split; [reflexivity|].
  intros key v. rewrite H2, H1. unfold coerced. intros H.
  destruct (lookup key (make_record headers row)) as [w|] eqn:E.
  2:{ destruct (existsb (String.eqb key) float_columns),
        (existsb (String.eqb key) int_columns); discriminate H. }
  destruct (make_record_str headers row key w E) as (cell & ->).
  exists cell.
  destruct (existsb (String.eqb key) int_columns) eqn:Ei.
  - rewrite (columns_disjoint key Ei) in H. cbn [option_map] in H.
    rewrite try_conv_int in H. congruence.
  - destruct (existsb (String.eqb key) float_columns) eqn:Ef;
      cbn [option_map] in H.
    + rewrite try_conv_float in H. congruence.
    + congruence.
Qed.

Lemma parse_rows_typed headers rows :
  exists records,
    parse_rows headers rows = Ok (map VDict records) /\ Forall csv_typed records.
Proof.
  induction rows as [|row rows (records & IH & Htyped)].
  - exists []. split; [reflexivity | constructor].
  - cbn [parse_rows].
    destruct (List.length row =? List.length headers)%nat; cbn [negb].
    + destruct (row_record_typed headers row) as (record & -> & Hr).
      rewrite IH. cbn [bind]. exists (record :: records).
      split; [reflexivity | now constructor].
    + now exists records.
Qed.

Lemma coerced_int key cell n :
  In key int_columns ->
  int_of (coerced key cell) = Ok n -> coerced key cell = VInt n.
Proof.
  intros Hin. unfold coerced.
  replace (existsb (String.eqb key) int_columns) with true
    by (cbn in Hin; destruct Hin as [<- | [<- | []]]; reflexivity).
  destruct (int_of_string cell) as [k|e] eqn:E; cbn [int_of].
  - congruence.
  - rewrite E. discriminate.
Qed.

Lemma coerced_float key cell f :
  In key float_columns ->
  float_of (coerced key cell) = Ok f -> coerced key cell = VFloat f.
Proof.
  intros Hin. unfold coerced.
  replace (existsb (String.eqb key) int_columns) with false
    by (cbn in Hin; destruct Hin as [<- | [<- | [<- | []]]]; reflexivity).
  replace (existsb (String.eqb key) float_columns) with true
    by (cbn in Hin; destruct Hin as [<- | [<- | [<- | []]]]; reflexivity).
  destruct (float_of_string cell) as [g|e] eqn:E; cbn [float_of].
  - congruence.
  - rewrite E. discriminate.
Qed.

Lemma coerced_int_overflows key cell :
  In key int_columns -> overflows (int_of (coerced key cell)) = false.
Proof.
  intros Hin. unfold coerced.
  replace (existsb (String.eqb key) int_columns) with true
    by (cbn in Hin; destruct Hin as [<- | [<- | []]]; reflexivity).
  destruct (int_of_string cell) as [k|e] eqn:E; cbn [int_of overflows];
    [reflexivity|].
  rewrite E. unfold int_of_string in E.
  destruct (signed_digits (strip cell)); [discriminate|]. now injection E as <-.
Qed.

Lemma coerced_float_overflows key cell :
  In key float_columns -> overflows (float_of (coerced key cell)) = false.
Proof.
  intros Hin. unfold coerced.
  replace (existsb (String.eqb key) int_columns) with false
    by (cbn in Hin; destruct Hin as [<- | [<- | [<- | []]]]; reflexivity).
  replace (existsb (String.eqb key) float_columns) with true
    by (cbn in Hin; destruct Hin as [<- | [<- | [<- | []]]]; reflexivity).
  destruct (float_of_string cell) as [g|e] eqn:E; cbn [float_of overflows];
    [reflexivity|].
  rewrite E.
  assert (Hv : e = ValueError).
  { apply (to_float_value_fails cell). unfold to_float_value.
    cbn [float_of]. now rewrite E. }
  now subst e.
Qed.

Lemma csv_typed_checkable d : csv_typed d -> checkable (VDict d).
Proof.
  intros Ht. exists d. split; [reflexivity|]. intros _.
  assert (Hi : forall field, In field int_columns ->
                 match lookup field d with
                 | Some v => overflows (int_of v)
                 | None => false
                 end = false).
  { intros field Hin. destruct (lookup field d) as [v|] eqn:E; [|reflexivity].
    destruct (Ht field v E) as (cell & ->). now apply coerced_int_overflows. }
  assert (Hf : forall field, In field float_columns ->
                 match lookup field d with
                 | Some v => overflows (float_of v)
                 | None => false
                 end = false).
  { intros field Hin. destruct (lookup field d) as [v|] eqn:E; [|reflexivity].
    destruct (Ht field v E) as (cell & ->). now apply coerced_float_overflows. }
  unfold conversion_overflows. cbn [existsb int_columns float_columns].
  rewrite !Hi, !Hf by (cbn; tauto). reflexivity.
Qed.

Lemma csv_typed_numeric d :
  csv_typed d -> coercion_checks d ->
  (forall n, lookup "current_steps" d = Some (VInt n) -> n < overflow_bound) ->
  numeric_record d.
Proof.
  intros Ht (_ & (v2 & n2 & L2 & I2 & P2) & (v3 & n3 & L3 & I3 & _)
             & (v4 & f4 & L4 & F4) & (v5 & f5 & L5 & F5 & _)
             & (v6 & f6 & L6 & F6 & _)) Hb.
  destruct (Ht _ _ L2) as (c2 & ->). destruct (Ht _ _ L3) as (c3 & ->).
  destruct (Ht _ _ L4) as (c4 & ->). destruct (Ht _ _ L5) as (c5 & ->).
  destruct (Ht _ _ L6) as (c6 & ->).
  rewrite (coerced_int _ _ _ (or_introl eq_refl) I2) in L2.
  rewrite (coerced_int _ _ _ (or_intror (or_introl eq_refl)) I3) in L3.
  rewrite (coerced_float _ _ _ (or_introl eq_refl) F4) in L4.
  rewrite (coerced_float _ _ _ (or_intror (or_introl eq_refl)) F5) in L5.
  rewrite (coerced_float _ _ _ (or_intror (or_intror (or_introl eq_refl))) F6) in L6.
  unfold numeric_record. rewrite L2, L3, L4, L5, L6.
  split; [exists n2; split; [reflexivity|]|].
  { specialize (Hb n2 L2). lia. }
  split; [now eexists|].
  repeat split; do 2 eexists; split; reflexivity.
Qed.

Section CsvPath.

Variable json_loads : string -> result dict.
Variable csv_reader : string -> result (list (list string)).
Variable to_str : value -> string.

Lemma parse_input_data_typed data_str :
  startswith (strip data_str) "{" = false ->
  exists records,
    parse_input_data json_loads csv_reader data_str = VList (map VDict records) /\
    Forall csv_typed records.
Proof.
  intros Hb. unfold parse_input_data, parse_body, parse_csv. rewrite Hb.
  destruct (is_substring "," (strip data_str));
    [|exists []; split; [reflexivity | constructor]].
  destruct (csv_reader (strip data_str)) as [[|header [|row rows]]|e];
    cbn [bind]; try (exists []; split; [reflexivity | constructor]).
  destruct (parse_rows_typed (map strip header) (row :: rows))
    as (records & -> & Ht).
  cbn [bind]. now exists records.
Qed.

Lemma process_records_numeric records :
  Forall (fun d => numeric_record d /\ has_key "user_id" d = true) records ->
  exists reports,
    snd (process_records to_str (map VDict records)) = Ok reports.
Proof.
  induction 1 as [|d ds [Hn Hu] _ (reports & IH)].
  - now exists [].
  - destruct (calculate_metrics_on_numbers d Hn) as (m & Hm).
    destruct (generate_report_returns to_str d m Hm Hu) as (report & Hr).
    cbn [map process_records]. rewrite Hm, Hr.
    destruct (process_records to_str (map VDict ds)) as [log results].
    cbn [snd] in *. rewrite IH. now eexists.
Qed.

(** X21.  On a text that does not start with an opening brace, which is
    parsed as comma-separated text or not at all, [process_data] always
    returns a text (the format error, the validation report or the reports),
    provided every integer step count of the parsed batch is below
    2^1024 - 2^970: no cell content makes the parser, the validator, the
    engine or the renderer raise. *)
Theorem process_data_csv_returns data_str :
  startswith (strip data_str) "{" = false ->
  (forall records d n,
     parse_input_data json_loads csv_reader data_str = VList records ->
     In (VDict d) records ->
     lookup "current_steps" d = Some (VInt n) -> n < overflow_bound) ->
  exists text, process_data json_loads csv_reader to_str data_str = Ok text.
Proof.
  intros Hb Hbound.
  destruct (parse_input_data_typed data_str Hb) as (records & Hp & Ht).
  pose proof (fun d n => Hbound _ d n Hp) as Hsteps. clear Hbound.
  unfold process_data, process_data_log. rewrite Hp.
  destruct records as [|r rs]; [now eexists|].
  set (batch := r :: rs) in *.
  replace (truthy (VList (map VDict batch))) with true by reflexivity.
  cbn [negb].
  assert (Hall : Forall checkable (map VDict batch)).
  { apply Forall_forall. intros v Hin.
    apply in_map_iff in Hin as (d & <- & Hin).
    apply csv_typed_checkable. exact (proj1 (Forall_forall _ _) Ht d Hin). }
  destruct (check_records_checkable _ 0 Hall) as (per & He & _ & _).
  destruct (fields_check_of_dicts _ (checkable_dict _ Hall)) as (checks & Hc).
  assert (Hne : map VDict batch <> []) by (subst batch; discriminate).
  rewrite (validate_data_list _ _ _ Hne He Hc).
  destruct (Z.of_nat (List.length (List.concat per)) =? 0) eqn:Ep; cbn [negb snd];
    [|now eexists].
  cbn [iter].
  destruct (List.concat per) as [|e es] eqn:Ec; [|discriminate].
  destruct (process_records_numeric batch) as (reports & Hr).
  { apply Forall_forall. intros d Hin.
    pose proof (check_records_nil _ _ He) as Hnil.
    assert (Hd : exists row, check_record (VDict d) row = Ok []).
    { exact (proj1 (Forall_forall _ _) Hnil (VDict d) (in_map VDict _ _ Hin)). }
    destruct Hd as (row & Hd). apply check_record_accepts in Hd as [Habs Hcc].
    split.
    - apply csv_typed_numeric; [exact (proj1 (Forall_forall _ _) Ht d Hin) | exact Hcc|].
      intros n. apply Hsteps. now apply in_map.
    - apply absent_fields_nil; [exact Habs | now left]. }
  destruct (process_records to_str (map VDict batch)) as [log results].
  cbn [snd] in *. rewrite Hr. now eexists.
Qed.

End CsvPath.

Lemma process_data_csv_returns_witness :
  exists text, process_data sample_json plain_csv plain_str mixed_batch_csv = Ok text.
Proof.
  apply process_data_csv_returns; [reflexivity|].
  intros records d n Hp Hin Hl.
  assert (E : records
              = match parse_input_data sample_json plain_csv mixed_batch_csv with
                | VList l => l
                | _ => []
                end) by now rewrite Hp.
  vm_compute in E. subst records.
  destruct Hin as [[= <-] | [[= <-] | []]]; cbn in Hl; injection Hl as <-;
    vm_compute; reflexivity.
Defined.
